(** * neo_roomcsv_converter: the row pipeline of the three converters

    A shallow embedding of [main_step1.py] (passthrough), [main_step3.py]
    (display) and [main_step4_Claude.py] (storage), and the properties of
    the section-aware row walk, the row builders, the datetime normaliser,
    the input reader and the output validator.

    Python [str] values are sequences of Unicode code points; they are
    modelled as [list Z].  The csv module, the codecs and the C library
    are outside the repository: the development starts from the parsed
    rows and takes the codecs as a parameter. *)

From Stdlib Require Import String Ascii ZArith List Bool Lia.
Import ListNotations.
Local Open Scope Z_scope.

(** ** Python strings *)

Module Py.

Definition char := Z.
Definition pystr := list char.
Definition row := list pystr.

(** Literals are written as UTF-8 text and decoded to code points. *)
Fixpoint utf8 (bs : list Z) : pystr :=
  match bs with
  | [] => []
  | b :: r =>
      if b <? 128 then b :: utf8 r
      else if b <? 224 then
        match r with
        | c1 :: r1 => ((b - 192) * 64 + (c1 - 128)) :: utf8 r1
        | _ => []
        end
      else if b <? 240 then
        match r with
        | c1 :: c2 :: r2 =>
            ((b - 224) * 4096 + (c1 - 128) * 64 + (c2 - 128)) :: utf8 r2
        | _ => []
        end
      else
        match r with
        | c1 :: c2 :: c3 :: r3 =>
            ((b - 240) * 262144 + (c1 - 128) * 4096 + (c2 - 128) * 64
             + (c3 - 128)) :: utf8 r3
        | _ => []
        end
  end.

Definition u (s : string) : pystr :=
  utf8 (map (fun a => Z.of_nat (nat_of_ascii a)) (list_ascii_of_string s)).

Fixpoint str_eqb (a b : pystr) : bool :=
  match a, b with
  | [], [] => true
  | x :: a', y :: b' => (x =? y) && str_eqb a' b'
  | _, _ => false
  end.

(** [bool(s)] for a string: the empty string is false. *)
Definition truthy (s : pystr) : bool :=
  match s with [] => false | _ => true end.

(** [str.isspace] on one character, which is also the class [\s] of the
    [re] module on [str] patterns. *)
Definition isspace (c : char) : bool :=
  ((9 <=? c) && (c <=? 13)) || ((28 <=? c) && (c <=? 32))
  || (c =? 133) || (c =? 160) || (c =? 5760)
  || ((8192 <=? c) && (c <=? 8202))
  || (c =? 8232) || (c =? 8233) || (c =? 8239) || (c =? 8287)
  || (c =? 12288).

Fixpoint lstrip_while (p : char -> bool) (s : pystr) : pystr :=
  match s with
  | [] => []
  | c :: r => if p c then lstrip_while p r else s
  end.

Definition rstrip_while (p : char -> bool) (s : pystr) : pystr :=
  rev (lstrip_while p (rev s)).

(** [s.strip()] *)
Definition strip (s : pystr) : pystr :=
  rstrip_while isspace (lstrip_while isspace s).

(** [s.lstrip(chars)] *)
Definition lstrip (chars : pystr) (s : pystr) : pystr :=
  lstrip_while (fun c => existsb (Z.eqb c) chars) s.

(** [s.startswith(p)] *)
Fixpoint startswith (p s : pystr) : bool :=
  match p, s with
  | [], _ => true
  | _ :: _, [] => false
  | x :: p', y :: s' => (x =? y) && startswith p' s'
  end.

(** [sub in s] *)
Fixpoint contains (sub s : pystr) : bool :=
  match s with
  | [] => startswith sub []
  | _ :: r => startswith sub s || contains sub r
  end.

(** [s.replace(old, new)] for a non-empty [old], as at every call of the
    three scripts: occurrences are replaced from the left and do not
    overlap; [skip] counts the characters of a replaced occurrence that
    are still to be passed over. *)
Fixpoint replace_from (old new : pystr) (skip : nat) (s : pystr) : pystr :=
  match s with
  | [] => []
  | c :: r =>
      match skip with
      | S k => replace_from old new k r
      | O =>
          if startswith old s
          then new ++ replace_from old new (length old - 1) r
          else c :: replace_from old new 0 r
      end
  end.

Definition replace (old new s : pystr) : pystr := replace_from old new 0 s.

(** [s.split(' ')[0]]: the text before the first U+0020. *)
Fixpoint split_first (sep : char) (s : pystr) : pystr :=
  match s with
  | [] => []
  | c :: r => if c =? sep then [] else c :: split_first sep r
  end.

(** [l.index(x)]; [None] stands for the ValueError. *)
Fixpoint index (x : pystr) (l : row) : option nat :=
  match l with
  | [] => None
  | y :: r =>
      if str_eqb y x then Some O
      else match index x r with Some i => Some (S i) | None => None end
  end.

(** [l[i] = v] for an index in range (the scripts guard every store). *)
Fixpoint store (i : nat) (v : pystr) (l : row) : row :=
  match l, i with
  | [], _ => []
  | _ :: r, O => v :: r
  | x :: r, S k => x :: store k v r
  end.

End Py.
Import Py.

(** ** Text constants of the scripts *)

Module K.

Definition kaigishitsu : pystr := u "会議室".
Definition kaigishitsu_mei : pystr := u "会議室名".
Definition kaishi_nichiji : pystr := u "開始日時".
Definition shuryo_nichiji : pystr := u "終了日時".
Definition riyou_mokuteki : pystr := u "利用目的詳細".
Definition kaishi_nichi : pystr := u "開始日".
Definition kaishi_jikan : pystr := u "開始時刻".
Definition shuryo_nichi : pystr := u "終了日".
Definition shuryo_jikan : pystr := u "終了時刻".
Definition sendai_godo : pystr := u "仙台合同庁舎".
Definition sendai_shinko : pystr := u "／仙台地方振興事務所".
Definition batsu : pystr := u "×".
Definition bom : char := 65279.
Definition space : char := 32.

End K.

(** ** Circled digits *)

Module Glyph.

(** The ten glyphs U+2460 .. U+2469. *)
Definition is_circled (c : char) : bool := (9312 <=? c) && (c <=? 9321).

(** The chain of ten [replace] calls, in the order of the scripts. *)
Definition replace_circled (s : pystr) : pystr :=
  replace (u "⑩") (u "10")
  (replace (u "⑨") (u "9")
  (replace (u "⑧") (u "8")
  (replace (u "⑦") (u "7")
  (replace (u "⑥") (u "6")
  (replace (u "⑤") (u "5")
  (replace (u "④") (u "4")
  (replace (u "③") (u "3")
  (replace (u "②") (u "2")
  (replace (u "①") (u "1") s))))))))).

End Glyph.
Import Glyph.

(** ** The section-aware walk over the rows

    The loop over [lines[1:]] has the same text in the three scripts up to
    the construction of the output row.  [cur] is [current_kaigishitsu]
    ([None] at the start), and [build] is the body of the last [if], which
    gives [None] where the script leaves the row with [continue]. *)

Module Walk.

Inductive RowClass :=
| SkipEmpty
| SectionHeader (label : pystr)
| DataRow (label : pystr)
| SkipUnmatched.

(** [len(row) > 1 and '会議室' in row[1] and
     (len(row) <= 2 or not row[2].strip())] *)
Definition header_test (r : row) : bool :=
  (1 <? length r)%nat
  && contains K.kaigishitsu (nth 1 r [])
  && ((length r <=? 2)%nat || negb (truthy (strip (nth 2 r [])))).

(** [current_kaigishitsu and len(row) > 2 and row[2].strip()] *)
Definition data_test (cur : option pystr) (r : row) : bool :=
  match cur with
  | None => false
  | Some l => truthy l && (2 <? length r)%nat && truthy (strip (nth 2 r []))
  end.

Definition classify (cur : option pystr) (r : row) : RowClass :=
  match r with
  | [] => SkipEmpty
  | _ :: _ =>
      if header_test r then SectionHeader (strip (nth 1 r []))
      else if data_test cur r
           then match cur with
                | Some l => DataRow l
                | None => SkipUnmatched
                end
           else SkipUnmatched
  end.

Record state := mkState {
  current_kaigishitsu : option pystr;
  result_rows : list row
}.

Section Loop.

Variable build : pystr -> row -> option row.

Definition step (st : state) (r : row) : state :=
  match classify (current_kaigishitsu st) r with
  | SkipEmpty => st
  | SectionHeader l => mkState (Some l) (result_rows st)
  | DataRow l =>
      match build l r with
      | Some out => mkState (current_kaigishitsu st) (result_rows st ++ [out])
      | None => st
      end
  | SkipUnmatched => st
  end.

Definition loop (rows : list row) (st : state) : state :=
  fold_left step rows st.

End Loop.

End Walk.
Import Walk.

(** What a run of [convert_csv] does after the input has been decoded and
    parsed; only [Written] opens the output file.  [UnexpectedError] is
    the outer [except Exception]. *)
Inductive Outcome :=
| EmptyInput
| MissingRequiredColumn
| NoDataRowsFound
| UnexpectedError
| Written (rows : list row).

Definition output_file (o : Outcome) : option (list row) :=
  match o with
  | Written rows => Some rows
  | _ => None
  end.

(** ** main_step1.py: passthrough *)

Module Step1.

Definition build (cur : pystr) (r : row) : option row :=
  let new_row := cur :: r in
  Some (map replace_circled new_row).

Definition header_out (header_row : row) : row :=
  K.kaigishitsu_mei :: header_row.

Definition convert_csv (lines : list row) : Outcome :=
  match lines with
  | [] => EmptyInput
  | header_row :: rest =>
      let st := loop build rest (mkState None [header_out header_row]) in
      if (length (result_rows st) <=? 1)%nat then NoDataRowsFound
      else Written (result_rows st)
  end.

End Step1.

(** ** main_step3.py: display *)

Module Step3.

Definition new_csv_header : row :=
  [K.kaigishitsu_mei; K.kaishi_nichiji; K.shuryo_nichiji; K.riyou_mokuteki].

Definition remove_facility (s : pystr) : pystr :=
  replace K.sendai_shinko [] (replace K.sendai_godo [] s).

(** The body of the data-row branch.  [pfi] is
    [purpose_detail_final_index]; the four indices come from the header.
    A row too short for one of them raises IndexError and is skipped. *)
Definition build (original_header_for_indexing : row) (pfi : nat)
    (kaishi_nichi_idx kaishi_jikan_idx shuryo_nichi_idx shuryo_jikan_idx : nat)
    (cur : pystr) (r : row) : option row :=
  match nth_error r kaishi_nichi_idx, nth_error r kaishi_jikan_idx,
        nth_error r shuryo_nichi_idx, nth_error r shuryo_jikan_idx with
  | Some sd, Some st, Some ed, Some et =>
      let start_datetime_str := sd ++ [K.space] ++ st in
      let end_datetime_str := ed ++ [K.space] ++ et in
      let processed_row := [cur; start_datetime_str; end_datetime_str] in
      let processed_row :=
        processed_row ++
        [match index K.riyou_mokuteki original_header_for_indexing with
         | Some i => if (i <? length r)%nat then nth i r [] else []
         | None => []
         end] in
      let processed_row :=
        match processed_row with
        | [] => []
        | x :: t => remove_facility x :: t
        end in
      let processed_row := map replace_circled processed_row in
      let processed_row :=
        if (pfi <? length processed_row)%nat
        then store pfi K.batsu processed_row
        else processed_row in
      Some processed_row
  | _, _, _, _ => None
  end.

Definition convert_csv (lines : list row) : Outcome :=
  match lines with
  | [] => EmptyInput
  | orig_header :: rest =>
      match index K.riyou_mokuteki new_csv_header with
      | None => UnexpectedError
      | Some pfi =>
          match index K.kaishi_nichi orig_header,
                index K.kaishi_jikan orig_header,
                index K.shuryo_nichi orig_header,
                index K.shuryo_jikan orig_header with
          | Some i1, Some i2, Some i3, Some i4 =>
              let st := loop (build orig_header pfi i1 i2 i3 i4) rest
                          (mkState None [new_csv_header]) in
              if (length (result_rows st) <=? 1)%nat then NoDataRowsFound
              else Written (result_rows st)
          | _, _, _, _ => MissingRequiredColumn
          end
      end
  end.

End Step3.

(** ** The datetime library, as far as the storage script uses it

    Dates of the proleptic Gregorian calendar with years 1 .. 9999. *)

Module Calendar.

Definition MINYEAR : Z := 1.
Definition MAXYEAR : Z := 9999.

Definition is_leap (y : Z) : bool :=
  ((y mod 4 =? 0) && negb (y mod 100 =? 0)) || (y mod 400 =? 0).

Definition days_in_month (y m : Z) : Z :=
  if m =? 2 then (if is_leap y then 29 else 28)
  else if (m =? 4) || (m =? 6) || (m =? 9) || (m =? 11) then 30
  else 31.

Record date := mkDate { year : Z; month : Z; day : Z }.

Record datetime := mkDatetime { on : date; hour : Z; minute : Z }.

(** The check of the [date] constructor; a failure is a ValueError. *)
Definition valid_date (d : date) : bool :=
  (MINYEAR <=? year d) && (year d <=? MAXYEAR)
  && (1 <=? month d) && (month d <=? 12)
  && (1 <=? day d) && (day d <=? days_in_month (year d) (month d)).

Definition valid_time (h m : Z) : bool :=
  (0 <=? h) && (h <=? 23) && (0 <=? m) && (m <=? 59).

(** [d + timedelta(days=1)]; [None] is the OverflowError past
    9999-12-31. *)
Definition add_one_day (d : date) : option date :=
  if day d <? days_in_month (year d) (month d)
  then Some (mkDate (year d) (month d) (day d + 1))
  else if month d <? 12 then Some (mkDate (year d) (month d + 1) 1)
  else if year d <? MAXYEAR then Some (mkDate (year d + 1) 1 1)
  else None.

(** [date.toordinal()]: the number of the day, 0001-01-01 being day 1. *)
Definition days_before_year (y : Z) : Z :=
  let p := y - 1 in p * 365 + p / 4 - p / 100 + p / 400.

Definition DAYS_BEFORE_MONTH : list Z :=
  [0; 31; 59; 90; 120; 151; 181; 212; 243; 273; 304; 334].

Definition days_before_month (y m : Z) : Z :=
  nth (Z.to_nat (m - 1)) DAYS_BEFORE_MONTH 0
  + (if (2 <? m) && is_leap y then 1 else 0).

Definition toordinal (d : date) : Z :=
  days_before_year (year d) + days_before_month (year d) (month d) + day d.

(** Rendering of [%m], [%d], [%H], [%M]: two digits; [pad4] is the four
    digits of a number below 10000. *)
Definition digit (k : Z) : char := 48 + k.
Definition pad2 (n : Z) : pystr := [digit (n / 10); digit (n mod 10)].
Definition pad4 (n : Z) : pystr :=
  [digit (n / 1000); digit ((n / 100) mod 10); digit ((n / 10) mod 10);
   digit (n mod 10)].

(** Rendering of [%Y]: CPython hands the format to the C library's
    [strftime], and glibc prints the year as a decimal number without
    padding: the four digits from 1000 on, three, two or one digit below
    ([datetime(999, 1, 2).strftime('%Y')] is ['999']). *)
Definition year_text (y : Z) : pystr :=
  if y <? 10 then [digit y]
  else if y <? 100 then pad2 y
  else if y <? 1000
       then [digit (y / 100); digit ((y / 10) mod 10); digit (y mod 10)]
       else pad4 y.

(** [d.strftime('%Y/%m/%d')] *)
Definition strftime_date (d : date) : pystr :=
  year_text (year d) ++ [47] ++ pad2 (month d) ++ [47] ++ pad2 (day d).

(** [dt.strftime('%Y-%m-%dT%H:%M:00+09:00')] *)
Definition strftime_iso (dt : datetime) : pystr :=
  year_text (year (on dt)) ++ [45] ++ pad2 (month (on dt)) ++ [45]
  ++ pad2 (day (on dt)) ++ [84] ++ pad2 (hour dt) ++ [58]
  ++ pad2 (minute dt) ++ u ":00+09:00".

End Calendar.
Import Calendar.

(** ** [datetime.strptime] for the two formats of the storage script

    [_strptime] turns the format into a regular expression, matches it at
    the start of the text with the backtracking of [re], refuses text
    left over after the match, and builds the date.  A matcher gives the
    list of its matches in the order in which [re] tries them. *)

Module Strptime.

(** The first code point of each run of ten decimal digits (category Nd,
    Unicode 14.0); [\d] is any of them. *)
Definition nd_zeros : list Z :=
  [48; 1632; 1776; 1984; 2406; 2534; 2662; 2790; 2918; 3046; 3174; 3302;
   3430; 3558; 3664; 3792; 3872; 4160; 4240; 6112; 6160; 6470; 6608; 6784;
   6800; 6992; 7088; 7232; 7248; 42528; 43216; 43264; 43472; 43504; 43600;
   44016; 65296; 66720; 68912; 69734; 69872; 69942; 70096; 70384; 70736;
   70864; 71248; 71360; 71472; 71904; 72016; 72784; 73040; 73120; 92768;
   92864; 93008; 120782; 120792; 120802; 120812; 120822; 123200; 123632;
   125264; 130032].

Definition decimal (c : char) : option Z :=
  match find (fun z => (z <=? c) && (c <? z + 10)) nd_zeros with
  | Some z => Some (c - z)
  | None => None
  end.

(** The class [[lo-hi]] of ASCII digits. *)
Definition among (lo hi : Z) (c : char) : option Z :=
  if (48 + lo <=? c) && (c <=? 48 + hi) then Some (c - 48) else None.

Definition matcher (A : Type) := pystr -> list (A * pystr).

Definition ret {A} (a : A) : matcher A := fun s => [(a, s)].

Definition bind {A B} (p : matcher A) (f : A -> matcher B) : matcher B :=
  fun s => flat_map (fun ar => f (fst ar) (snd ar)) (p s).

Definition alt {A} (p q : matcher A) : matcher A := fun s => p s ++ q s.

Definition one (f : char -> option Z) : matcher Z :=
  fun s =>
    match s with
    | c :: r => match f c with Some v => [(v, r)] | None => [] end
    | [] => []
    end.

Definition lit (c : char) : matcher Z :=
  one (fun x => if x =? c then Some 0 else None).

(** [\s+], greedy: the longest run first. *)
Fixpoint spaces1 (s : pystr) : list (Z * pystr) :=
  match s with
  | c :: r => if isspace c then spaces1 r ++ [(0, r)] else []
  | [] => []
  end.

Notation "x <- p ;; q" := (bind p (fun x => q))
  (at level 61, p at next level, right associativity).

(** [%Y]: [\d\d\d\d] *)
Definition re_Y : matcher Z :=
  a <- one decimal ;; b <- one decimal ;; c <- one decimal ;;
  d <- one decimal ;; ret (1000 * a + 100 * b + 10 * c + d).

(** [%m]: [1[0-2]|0[1-9]|[1-9]] *)
Definition re_m : matcher Z :=
  alt (_ <- lit 49 ;; b <- one (among 0 2) ;; ret (10 + b))
 (alt (_ <- lit 48 ;; b <- one (among 1 9) ;; ret b)
      (one (among 1 9))).

(** [%d]: [3[0-1]|[1-2]\d|0[1-9]|[1-9]| [1-9]] *)
Definition re_d : matcher Z :=
  alt (_ <- lit 51 ;; b <- one (among 0 1) ;; ret (30 + b))
 (alt (a <- one (among 1 2) ;; b <- one decimal ;; ret (10 * a + b))
 (alt (_ <- lit 48 ;; b <- one (among 1 9) ;; ret b)
 (alt (one (among 1 9))
      (_ <- lit 32 ;; b <- one (among 1 9) ;; ret b)))).

(** [%H]: [2[0-3]|[0-1]\d|\d] *)
Definition re_H : matcher Z :=
  alt (_ <- lit 50 ;; b <- one (among 0 3) ;; ret (20 + b))
 (alt (a <- one (among 0 1) ;; b <- one decimal ;; ret (10 * a + b))
      (one decimal)).

(** [%M]: [[0-5]\d|\d] *)
Definition re_M : matcher Z :=
  alt (a <- one (among 0 5) ;; b <- one decimal ;; ret (10 * a + b))
      (one decimal).

(** ['%Y/%m/%d'] *)
Definition re_date : matcher date :=
  y <- re_Y ;; _ <- lit 47 ;; m <- re_m ;; _ <- lit 47 ;; d <- re_d ;;
  ret (mkDate y m d).

(** ['%Y/%m/%d %H:%M']: the space of the format is [\s+]. *)
Definition re_datetime : matcher datetime :=
  dd <- re_date ;; _ <- spaces1 ;; h <- re_H ;; _ <- lit 58 ;;
  m <- re_M ;; ret (mkDatetime dd h m).

(** [x] is the first match of [p] on [s]. *)
Definition heads {A} (p : matcher A) (s : pystr) (x : A * pystr) : Prop :=
  exists others, p s = x :: others.

(** The first match decides; text after it is "unconverted data". *)
Definition fullmatch {A} (p : matcher A) (s : pystr) : option A :=
  match p s with
  | (v, []) :: _ => Some v
  | _ => None
  end.

(** [datetime.strptime(s, '%Y/%m/%d')]; [None] is the ValueError. *)
Definition strptime_date (s : pystr) : option date :=
  match fullmatch re_date s with
  | Some d => if valid_date d then Some d else None
  | None => None
  end.

(** [datetime.strptime(s, '%Y/%m/%d %H:%M')] *)
Definition strptime_datetime (s : pystr) : option datetime :=
  match fullmatch re_datetime s with
  | Some dt => if valid_date (on dt) then Some dt else None
  | None => None
  end.

(** What a matcher takes from the text: every match [(v, r)] of [p] on [s]
    splits [s] into a taken part [pre] and the rest [r], with [P v pre]. *)
Definition takes {A} (p : matcher A) (P : A -> pystr -> Prop) : Prop :=
  forall s v r, In (v, r) (p s) -> exists pre, s = pre ++ r /\ P v pre.

(** The shapes of the text taken by [%H]. *)
Definition hour_text (h : pystr) : Prop :=
  (exists x, h = [x] /\ x <> 58)
  \/ (exists y, h = [50; y] /\ 48 <= y <= 51)
  \/ (exists x y, h = [x; y] /\ 48 <= x <= 49 /\ y <> 58).

End Strptime.
Import Strptime.

(** ** main_step4_Claude.py: storage *)

Module Step4.

(** Every exception inside [fix_time_format] gives the input back. *)
Definition fix_time_format (datetime_str : pystr) : pystr :=
  if contains (u " 24:00") datetime_str then
    let date_part := split_first K.space datetime_str in
    match strptime_date date_part with
    | None => datetime_str
    | Some date_obj =>
        match add_one_day date_obj with
        | None => datetime_str
        | Some next_day => strftime_date next_day ++ u " 00:00"
        end
    end
  else datetime_str.

Definition format_for_supabase (datetime_str : pystr) : pystr :=
  let fixed_datetime := fix_time_format datetime_str in
  match strptime_datetime fixed_datetime with
  | None => datetime_str
  | Some dt => strftime_iso dt
  end.

Definition new_csv_header : row :=
  [u "room_name"; u "start_datetime"; u "end_datetime"; u "purpose_detail"].

Definition clean_room_name (cur : pystr) : pystr :=
  replace_circled
    (strip (replace K.sendai_shinko [] (replace K.sendai_godo [] cur))).

Definition build
    (kaishi_nichi_idx kaishi_jikan_idx shuryo_nichi_idx shuryo_jikan_idx : nat)
    (cur : pystr) (r : row) : option row :=
  match nth_error r kaishi_nichi_idx, nth_error r kaishi_jikan_idx,
        nth_error r shuryo_nichi_idx, nth_error r shuryo_jikan_idx with
  | Some sd, Some st, Some ed, Some et =>
      let start_datetime_str := sd ++ [K.space] ++ st in
      let end_datetime_str := ed ++ [K.space] ++ et in
      let start_datetime_iso := format_for_supabase start_datetime_str in
      let end_datetime_iso := format_for_supabase end_datetime_str in
      Some [clean_room_name cur; start_datetime_iso; end_datetime_iso;
            K.batsu]
  | _, _, _, _ => None
  end.

Definition convert_csv (lines : list row) : Outcome :=
  match lines with
  | [] => EmptyInput
  | orig_header :: rest =>
      match index K.kaishi_nichi orig_header,
            index K.kaishi_jikan orig_header,
            index K.shuryo_nichi orig_header,
            index K.shuryo_jikan orig_header with
      | Some i1, Some i2, Some i3, Some i4 =>
          let st := loop (build i1 i2 i3 i4) rest
                      (mkState None [new_csv_header]) in
          if (length (result_rows st) <=? 1)%nat then NoDataRowsFound
          else Written (result_rows st)
      | _, _, _, _ => MissingRequiredColumn
      end
  end.

End Step4.

(** ** Reading the input: the loop over [ENCODINGS_TO_TRY]

    The same text in the three scripts.  The codecs are the library's:
    [decode enc data] is the text read with encoding [enc], or [None] when
    the read raises (the loop goes on to the next encoding either way). *)

Module Reader.

Inductive Encoding := utf_8 | shift_jis | cp932.

Definition ENCODINGS_TO_TRY : list Encoding := [utf_8; shift_jis; cp932].

(** [if raw_content.startswith('\ufeff'):
       raw_content = raw_content.lstrip('\ufeff')] *)
Definition remove_bom (raw_content : pystr) : pystr :=
  if startswith [K.bom] raw_content
  then lstrip [K.bom] raw_content
  else raw_content.

Section Read.

Variable decode : Encoding -> list Z -> option pystr.

Fixpoint try_encodings (encs : list Encoding) (data : list Z)
  : option (pystr * Encoding) :=
  match encs with
  | [] => None
  | enc :: rest =>
      match decode enc data with
      | Some raw_content => Some (remove_bom raw_content, enc)
      | None => try_encodings rest data
      end
  end.

(** [csv_c] and [detected_encoding] after the loop. *)
Definition read_input (data : list Z) : option (pystr * Encoding) :=
  try_encodings ENCODINGS_TO_TRY data.

End Read.

End Reader.

(** ** The output validator of the storage script *)

Module Validator.

(** A parsed timestamp: its wall-clock time in seconds, and its UTC offset
    in seconds when it has one (an "aware" datetime). *)
Record stamp := mkStamp { seconds : Z; utcoffset : option Z }.

(** [a >= b]: two naive or two aware datetimes are ordered; a naive one
    against an aware one raises TypeError ([None]). *)
Definition stamp_ge (a b : stamp) : option bool :=
  match utcoffset a, utcoffset b with
  | None, None => Some (seconds b <=? seconds a)
  | Some oa, Some ob => Some (seconds b - ob <=? seconds a - oa)
  | _, _ => None
  end.

(** The entries of [validation_errors]. *)
Inductive violation :=
| Inverted (i : nat) (start_text end_text : pystr)
| BadFormat (i : nat).

(** What the validator prints. *)
Inductive report :=
| Silent
| AllValid (row_count : nat)
| Warning (total : nat) (shown : list violation) (others : option nat)
| ValidationError.

Inductive row_check :=
| RowOk
| RowViolation (v : violation)
| RowRaises.

Definition offset_text : pystr := u "+09:00".

Section Validate.

(** [datetime.fromisoformat]; [None] is its ValueError. *)
Variable fromisoformat : pystr -> option stamp.

(** The body of the [for] loop; only ValueError is handled there. *)
Definition check_row (start_idx end_idx i : nat) (r : row) : row_check :=
  if (Nat.max start_idx end_idx <? length r)%nat then
    match fromisoformat (replace offset_text [] (nth start_idx r [])) with
    | None => RowViolation (BadFormat i)
    | Some start_dt =>
        match fromisoformat (replace offset_text [] (nth end_idx r [])) with
        | None => RowViolation (BadFormat i)
        | Some end_dt =>
            match stamp_ge start_dt end_dt with
            | None => RowRaises
            | Some true =>
                RowViolation (Inverted i (nth start_idx r []) (nth end_idx r []))
            | Some false => RowOk
            end
        end
    end
  else RowOk.

(** The loop; [None] when an exception leaves it. *)
Fixpoint check_rows (start_idx end_idx i : nat) (rows : list row)
    (validation_errors : list violation) : option (list violation) :=
  match rows with
  | [] => Some validation_errors
  | r :: rest =>
      match check_row start_idx end_idx i r with
      | RowOk => check_rows start_idx end_idx (S i) rest validation_errors
      | RowViolation v =>
          check_rows start_idx end_idx (S i) rest (validation_errors ++ [v])
      | RowRaises => None
      end
  end.

(** The printed summary: the first five entries, and how many more. *)
Definition summary (validation_errors : list violation) (row_count : nat)
  : report :=
  match validation_errors with
  | [] => AllValid row_count
  | _ :: _ =>
      Warning (length validation_errors) (firstn 5 validation_errors)
        (if (5 <? length validation_errors)%nat
         then Some (length validation_errors - 5)%nat
         else None)
  end.

Definition validate_datetime_format (file_rows : list row) : report :=
  match file_rows with
  | [] => ValidationError
  | header :: rows =>
      match index (u "start_datetime") header,
            index (u "end_datetime") header with
      | Some start_idx, Some end_idx =>
          match check_rows start_idx end_idx 1 rows [] with
          | Some validation_errors => summary validation_errors (length rows)
          | None => ValidationError
          end
      | _, _ => Silent
      end
  end.

(** The main block: convert, then validate the file that was written; the
    rows read back from the file are taken to be the rows written. *)
Definition convert_and_validate (lines : list row)
  : Outcome * option report :=
  let o := Step4.convert_csv lines in
  (o, option_map validate_datetime_format (output_file o)).

End Validate.

(** [datetime.fromisoformat] on the texts [YYYY-MM-DD],
    [YYYY-MM-DD?HH:MM], [YYYY-MM-DD?HH:MM:SS], each of the last two with
    or without an offset [+HH:MM] or [-HH:MM], where [?] is any one
    character: the forms every CPython since 3.7 reads alike.  Other
    texts are refused here; CPython reads some of them (fractions of a
    second; from 3.11 further ISO 8601 forms). *)
Definition ascii_digit (c : char) : option Z :=
  if (48 <=? c) && (c <=? 57) then Some (c - 48) else None.

Definition two_digits (a b : char) : option Z :=
  match ascii_digit a, ascii_digit b with
  | Some x, Some y => Some (10 * x + y)
  | _, _ => None
  end.

Definition iso_date (s : pystr) : option (date * pystr) :=
  match s with
  | y1 :: y2 :: y3 :: y4 :: 45 :: m1 :: m2 :: 45 :: d1 :: d2 :: rest =>
      match two_digits y1 y2, two_digits y3 y4, two_digits m1 m2,
            two_digits d1 d2 with
      | Some yh, Some yl, Some m, Some d =>
          let dd := mkDate (100 * yh + yl) m d in
          if valid_date dd then Some (dd, rest) else None
      | _, _, _, _ => None
      end
  | _ => None
  end.

Definition iso_offset (s : pystr) : option (option Z) :=
  match s with
  | [] => Some None
  | [sign; h1; h2; 58; m1; m2] =>
      match two_digits h1 h2, two_digits m1 m2 with
      | Some h, Some m =>
          if valid_time h m then
            if sign =? 43 then Some (Some (h * 3600 + m * 60))
            else if sign =? 45 then Some (Some (- (h * 3600 + m * 60)))
            else None
          else None
      | _, _ => None
      end
  | _ => None
  end.

Definition iso_time (s : pystr) : option (Z * option Z) :=
  match s with
  | h1 :: h2 :: 58 :: m1 :: m2 :: rest =>
      match two_digits h1 h2, two_digits m1 m2 with
      | Some h, Some m =>
          if valid_time h m then
            match rest with
            | 58 :: s1 :: s2 :: rest' =>
                match two_digits s1 s2, iso_offset rest' with
                | Some sec, Some off =>
                    if sec <=? 59 then Some (h * 3600 + m * 60 + sec, off)
                    else None
                | _, _ => None
                end
            | _ =>
                match iso_offset rest with
                | Some off => Some (h * 3600 + m * 60, off)
                | None => None
                end
            end
          else None
      | _, _ => None
      end
  | _ => None
  end.

Definition fromisoformat_core (s : pystr) : option stamp :=
  match iso_date s with
  | Some (d, []) => Some (mkStamp (toordinal d * 86400) None)
  | Some (d, _ :: t) =>
      match iso_time t with
      | Some (secs, off) => Some (mkStamp (toordinal d * 86400 + secs) off)
      | None => None
      end
  | None => None
  end.

End Validator.

(** ** The words of the specification *)

Module Spec.

(** "contains the substring" *)
Definition substring (sub s : pystr) : Prop := exists a b, s = a ++ sub ++ b.

(** "empty or whitespace-only" *)
Definition blank (s : pystr) : Prop := Forall (fun c => isspace c = true) s.

(** The SectionHeader rule: at least 2 fields, field 1 contains 会議室,
    and at most 2 fields or a blank field 2. *)
Definition section_header (r : row) : Prop :=
  (2 <= length r)%nat
  /\ substring K.kaigishitsu (nth 1 r [])
  /\ ((length r <= 2)%nat \/ blank (nth 2 r [])).

(** [out] is built from the row [r] of [rows] with the label of the most
    recent SectionHeader row before [r]. *)
Definition from_latest_header (build : pystr -> row -> option row)
    (rows : list row) (out : row) : Prop :=
  exists hpre h hpost r post,
    rows = (hpre ++ h :: hpost) ++ r :: post
    /\ section_header h
    /\ Forall (fun x => ~ section_header x) hpost
    /\ build (strip (nth 1 h [])) r = Some out.

(** [cur] is the label set by the most recent SectionHeader row of
    [rows], or there is none. *)
Definition latest_label (rows : list row) (cur : option pystr) : Prop :=
  match cur with
  | None => Forall (fun x => ~ section_header x) rows
  | Some l =>
      exists hpre h hpost,
        rows = hpre ++ h :: hpost
        /\ section_header h
        /\ Forall (fun x => ~ section_header x) hpost
        /\ l = strip (nth 1 h [])
  end.

(** The four required columns are in the header. *)
Definition required_present (hd : row) : Prop :=
  In K.kaishi_nichi hd /\ In K.kaishi_jikan hd
  /\ In K.shuryo_nichi hd /\ In K.shuryo_jikan hd.

(** No circled digit in a text. *)
Definition glyph_free (s : pystr) : Prop :=
  Forall (fun c => is_circled c = false) s.

(** The substitution table: ① .. ⑨ become the digits 1 .. 9 and ⑩ becomes
    the two characters 10; every other character stays. *)
Definition table (c : char) : pystr :=
  if is_circled c then (if c =? 9321 then [49; 48] else [c - 9312 + 49])
  else [c].

End Spec.

(** ** Sample inputs *)

Module Ex.

Definition header6 : row :=
  [u "No"; u "部屋"; K.kaishi_nichi; K.kaishi_jikan; K.shuryo_nichi;
   K.shuryo_jikan].

Definition header7 : row := header6 ++ [K.riyou_mokuteki].

(** A display input whose room name holds the facility name. *)
Definition display_lines : list row :=
  [header7;
   [u "1"; u "仙台合同庁舎第1会議室"];
   [u "1"; u "x"; u "2024/03/31"; u "09:00"; u "2024/03/31"; u "10:00";
    u "打合せ"]].

(** The same input without the purpose column. *)
Definition display_lines6 : list row :=
  [header6;
   [u "1"; u "仙台合同庁舎第1会議室"];
   [u "1"; u "x"; u "2024/03/31"; u "09:00"; u "2024/03/31"; u "10:00"]].

(** A storage input whose start date holds a circled digit. *)
Definition glyph_lines : list row :=
  [header6;
   [u "1"; u "会議室A"];
   [u "1"; u "x"; u "2024/03/3①"; u "09:00"; u "2024/03/31"; u "10:00"]].

(** A storage input whose end time carries an offset of its own. *)
Definition offset_lines : list row :=
  [header6;
   [u "1"; u "会議室A"];
   [u "1"; u "x"; u "2024/03/31"; u "09:00"; u "2024-03-31";
    u "10:00+08:00"]].

(** A decoded text that starts with two byte-order marks. *)
Definition two_boms : pystr := K.bom :: K.bom :: u "No,部屋".

End Ex.

(** ** Further words about rows and texts *)

Module Shape.

(** A row with more than 2 fields whose field 2 is not blank. *)
Definition data_shaped (r : row) : Prop :=
  (2 < length r)%nat /\ ~ Spec.blank (nth 2 r []).

(** The row has a field at each of the four indices. *)
Definition reaches (r : row) (i1 i2 i3 i4 : nat) : Prop :=
  (i1 < length r)%nat /\ (i2 < length r)%nat
  /\ (i3 < length r)%nat /\ (i4 < length r)%nat.

(** The order of the dictionary on lists of numbers. *)
Fixpoint lex_lt (a b : list Z) : bool :=
  match a, b with
  | x :: a', y :: b' => (x <? y) || ((x =? y) && lex_lt a' b')
  | _, _ => false
  end.

(** [a] is before [b]: year, month, day, hour and minute compared in this
    order. *)
Definition earlier (a b : datetime) : bool :=
  lex_lt [year (on a); month (on a); day (on a); hour a; minute a]
         [year (on b); month (on b); day (on b); hour b; minute b].

(** A number written with two digits, or with one digit when it is below
    ten. *)
Definition written (n : Z) (t : pystr) : Prop :=
  t = pad2 n \/ (0 <= n <= 9 /\ t = [digit n]).

(** The rows as [enumerate(reader, 1)] numbers them. *)
Definition numbered (rows : list row) : list (nat * row) :=
  combine (seq 1 (length rows)) rows.

(** The violations the rows have, in the order of the rows. *)
Definition violations (check : nat -> row -> Validator.row_check)
    (rows : list row) : list Validator.violation :=
  flat_map (fun ir => match check (fst ir) (snd ir) with
                      | Validator.RowViolation v => [v]
                      | _ => []
                      end) (numbered rows).

(** One of the two timestamps has a UTC offset and the other has none. *)
Definition mixed (a b : Validator.stamp) : Prop :=
  (Validator.utcoffset a = None /\ Validator.utcoffset b <> None)
  \/ (Validator.utcoffset a <> None /\ Validator.utcoffset b = None).

(** Both datetime fields of a written row are renderings, of datetimes [a]
    and [b] of the calendar with years from 1000 on that satisfy [P]. *)
Definition rendered (P : datetime -> datetime -> Prop) (o : row) : Prop :=
  exists a b,
    (valid_date (on a) = true /\ valid_time (hour a) (minute a) = true
     /\ 1000 <= year (on a))
    /\ (valid_date (on b) = true /\ valid_time (hour b) (minute b) = true
        /\ 1000 <= year (on b))
    /\ nth 1 o [] = strftime_iso a /\ nth 2 o [] = strftime_iso b
    /\ P a b.

End Shape.

(** * Properties *)

(** ** Strings *)

(** The code points behind some of the literals. *)
Lemma text_constants :
  K.kaigishitsu = [20250; 35696; 23460]
  /\ K.batsu = [215]
  /\ K.sendai_godo = [20185; 21488; 21512; 21516; 24193; 33294]
  /\ u " 24:00" = [32; 50; 52; 58; 48; 48]
  /\ Validator.offset_text = [43; 48; 57; 58; 48; 48].
Proof. vm_compute. repeat split; reflexivity. Qed.

Lemma str_eqb_eq (a b : pystr) : str_eqb a b = true <-> a = b.
Proof.
  revert b; induction a as [|x a IH]; intros [|y b]; simpl;
    try (split; [discriminate | discriminate]); try tauto.
  rewrite andb_true_iff, Z.eqb_eq, IH.
  split; [intros [-> ->]; reflexivity | intros H; inversion H; auto].
Qed.

Lemma str_eqb_refl (a : pystr) : str_eqb a a = true.
Proof. apply str_eqb_eq; reflexivity. Qed.

Lemma startswith_spec (p s : pystr) :
  startswith p s = true <-> exists b, s = p ++ b.
Proof.
  revert s; induction p as [|x p IH]; intros s; simpl.
  - split; [intros _; exists s; reflexivity | reflexivity].
  - destruct s as [|y s].
    + split; [discriminate | intros [b Hb]; discriminate].
    + rewrite andb_true_iff, Z.eqb_eq, IH. split.
      * intros [-> [b ->]]; exists b; reflexivity.
      * intros [b Hb]; inversion Hb; subst; split; [reflexivity | exists b; reflexivity].
Qed.

Lemma contains_spec (sub s : pystr) :
  contains sub s = true <-> Spec.substring sub s.
Proof.
  unfold Spec.substring. induction s as [|c s IH].
  - simpl. rewrite startswith_spec. split.
    + intros [b Hb]. exists [], b. exact Hb.
    + intros [a [b Hb]]. destruct a; simpl in Hb.
      * exists b; exact Hb.
      * discriminate.
  - cbn [contains]. rewrite orb_true_iff, IH, startswith_spec. split.
    + intros [[b Hb] | [a [b Hb]]].
      * exists [], b; exact Hb.
      * exists (c :: a), b; rewrite Hb; reflexivity.
    + intros [a [b Hb]]. destruct a as [|x a]; simpl in Hb.
      * left; exists b; exact Hb.
      * right; inversion Hb; subst. exists a, b; reflexivity.
Qed.

Lemma lstrip_while_nil (p : char -> bool) (s : pystr) :
  lstrip_while p s = [] <-> Forall (fun c => p c = true) s.
Proof.
  induction s as [|c s IH]; simpl.
  - split; [constructor | reflexivity].
  - destruct (p c) eqn:E.
    + rewrite IH. split; [intros H; constructor; assumption|].
      intros H; inversion H; assumption.
    + split; [discriminate | intros H; inversion H; congruence].
Qed.

Lemma lstrip_while_head (p : char -> bool) (s : pystr) (c : char) (t : pystr) :
  lstrip_while p s = c :: t -> p c = false.
Proof.
  induction s as [|x s IH]; simpl; [discriminate|].
  destruct (p x) eqn:E; [exact IH | intros H; inversion H; subst; exact E].
Qed.

Lemma strip_blank (s : pystr) : truthy (strip s) = false <-> Spec.blank s.
Proof.
  unfold strip, rstrip_while, Spec.blank.
  destruct (lstrip_while isspace s) as [|c t] eqn:E.
  - simpl. split; [intros _; apply lstrip_while_nil; exact E | reflexivity].
  - split.
    + intros H. exfalso.
      assert (Hn : lstrip_while isspace (rev (c :: t)) = []).
      { destruct (lstrip_while isspace (rev (c :: t))) as [|c0 l0] eqn:E2;
          [reflexivity|].
        cbn [rev] in H. destruct (rev l0 ++ [c0]) eqn:E3; [|discriminate].
        destruct (rev l0); discriminate. }
      apply lstrip_while_nil in Hn. rewrite Forall_forall in Hn.
      apply lstrip_while_head in E.
      rewrite (Hn c) in E; [discriminate|].
      apply in_rev. rewrite rev_involutive. left; reflexivity.
    + intros H. apply lstrip_while_nil in H. congruence.
Qed.

Lemma index_None (x : pystr) (l : row) : index x l = None <-> ~ In x l.
Proof.
  induction l as [|y l IH]; simpl.
  - tauto.
  - destruct (str_eqb y x) eqn:E.
    + apply str_eqb_eq in E. split; [discriminate|].
      intros H; exfalso; apply H; left; exact E.
    + destruct (index x l).
      * split; [discriminate|]. intros H. exfalso. apply H. right.
        destruct IH as [_ IH].
        destruct (in_dec (list_eq_dec Z.eq_dec) x l) as [Hi|Hn]; [exact Hi|].
        specialize (IH Hn); discriminate.
      * split; [|reflexivity]. intros _ [Hy|Hi].
        -- subst. rewrite str_eqb_refl in E; discriminate.
        -- destruct IH as [IH _]. apply IH; [reflexivity | exact Hi].
Qed.

Lemma index_Some (x : pystr) (l : row) (i : nat) :
  index x l = Some i -> nth_error l i = Some x.
Proof.
  revert i; induction l as [|y l IH]; simpl; intros i; [discriminate|].
  destruct (str_eqb y x) eqn:E.
  - apply str_eqb_eq in E. intros H; inversion H; subst; reflexivity.
  - destruct (index x l); [|discriminate]. intros H; inversion H; subst.
    simpl. apply IH; reflexivity.
Qed.

(** ** The classifier *)

Lemma header_test_spec (r : row) :
  header_test r = true <-> Spec.section_header r.
Proof.
  unfold header_test, Spec.section_header.
  rewrite !andb_true_iff, orb_true_iff, negb_true_iff, Nat.ltb_lt, Nat.leb_le,
    contains_spec, strip_blank.
  split; intros [[H1 H2] H3] || intros [H1 [H2 H3]]; repeat split; auto; lia.
Qed.

Lemma classify_header (cur : option pystr) (r : row) (l : pystr) :
  classify cur r = SectionHeader l <->
  header_test r = true /\ l = strip (nth 1 r []).
Proof.
  unfold classify. destruct r as [|f r'].
  - split; [discriminate|]. intros [H _]. discriminate.
  - destruct (header_test (f :: r')).
    + split; [intros H; inversion H; auto | intros [_ ->]; reflexivity].
    + split; [|intros [H _]; discriminate].
      destruct (data_test cur (f :: r')); [destruct cur|]; discriminate.
Qed.

(** C1: a row after the header row is taken as a SectionHeader exactly
    when it has at least 2 fields, field 1 contains 会議室, and it has at
    most 2 fields or a blank field 2; the Section Label then becomes field
    1 stripped and the row adds no output row, whatever the variant's row
    builder; the decision does not depend on the label carried so far. *)
Theorem C1_section_header_rule :
  forall (cur : option pystr) (r : row),
    ((exists l, classify cur r = SectionHeader l) <-> Spec.section_header r)
    /\ (forall l, classify cur r = SectionHeader l ->
          l = strip (nth 1 r [])
          /\ forall build st, current_kaigishitsu st = cur ->
               step build st r = mkState (Some l) (result_rows st))
    /\ (forall cur' l, classify cur r = SectionHeader l ->
          classify cur' r = SectionHeader l).
Proof.
  intros cur r. split; [|split].
  - rewrite <- header_test_spec. split.
    + intros [l H]. apply classify_header in H. tauto.
    + intros H. exists (strip (nth 1 r [])). apply classify_header; auto.
  - intros l H. split.
    + apply classify_header in H. tauto.
    + intros build st Hst. unfold step. rewrite Hst, H. reflexivity.
  - intros cur' l H. apply classify_header. apply classify_header in H. exact H.
Qed.

(** ** The walk: the label and the rows it emits *)

Lemma classify_inv (cur : option pystr) (r : row) :
  match classify cur r with
  | SectionHeader l => header_test r = true /\ l = strip (nth 1 r [])
  | DataRow l => header_test r = false /\ cur = Some l
  | SkipEmpty | SkipUnmatched => header_test r = false
  end.
Proof.
  unfold classify. destruct r as [|f r']; [reflexivity|].
  destruct (header_test (f :: r')); [auto|].
  destruct (data_test cur (f :: r')); [|reflexivity].
  destruct cur; auto.
Qed.

Lemma not_header (r : row) : header_test r = false -> ~ Spec.section_header r.
Proof. intros H Hs. apply header_test_spec in Hs. congruence. Qed.

Lemma latest_label_skip (pre : list row) (r : row) (cur : option pystr) :
  ~ Spec.section_header r ->
  Spec.latest_label pre cur -> Spec.latest_label (pre ++ [r]) cur.
Proof.
  intros Hr. destruct cur as [l|]; simpl.
  - intros (hpre & h & hpost & -> & Hh & Hp & ->).
    exists hpre, h, (hpost ++ [r]).
    split; [rewrite <- app_assoc; reflexivity|].
    split; [exact Hh|]. split; [|reflexivity].
    apply Forall_app; split; [exact Hp | constructor; [exact Hr | constructor]].
  - intros H. apply Forall_app; split; [exact H | constructor; [exact Hr | constructor]].
Qed.

Lemma from_latest_header_snoc (build : pystr -> row -> option row)
    (pre : list row) (r out : row) :
  Spec.from_latest_header build pre out ->
  Spec.from_latest_header build (pre ++ [r]) out.
Proof.
  intros (hpre & h & hpost & x & post & -> & Hh & Hp & Hb).
  exists hpre, h, hpost, x, (post ++ [r]).
  split; [rewrite <- app_assoc; reflexivity | auto].
Qed.

Section WalkFacts.

Variable build : pystr -> row -> option row.

Lemma step_label (st : state) (r : row) :
  current_kaigishitsu (step build st r) <> current_kaigishitsu st ->
  Spec.section_header r.
Proof.
  unfold step. pose proof (classify_inv (current_kaigishitsu st) r) as H.
  destruct (classify (current_kaigishitsu st) r) as [|l|l|].
  - intros C; exfalso; apply C; reflexivity.
  - intros _. apply header_test_spec. tauto.
  - destruct (build l r); intros C; exfalso; apply C; reflexivity.
  - intros C; exfalso; apply C; reflexivity.
Qed.

Lemma loop_snoc (pre : list row) (r : row) (st : state) :
  loop build (pre ++ [r]) st = step build (loop build pre st) r.
Proof. unfold loop. rewrite fold_left_app. reflexivity. Qed.

Lemma loop_invariant (h0 : row) (rows : list row) :
  Spec.latest_label rows
    (current_kaigishitsu (loop build rows (mkState None [h0])))
  /\ exists data,
       result_rows (loop build rows (mkState None [h0])) = h0 :: data
       /\ forall out, In out data -> Spec.from_latest_header build rows out.
Proof.
  induction rows as [|r pre IH] using rev_ind.
  - simpl. split; [constructor|]. exists []. split; [reflexivity | intros out []].
  - rewrite loop_snoc. destruct IH as [Hl (data & Hd & Hout)].
    set (st := loop build pre (mkState None [h0])) in *.
    unfold step. pose proof (classify_inv (current_kaigishitsu st) r) as Hc.
    destruct (classify (current_kaigishitsu st) r) as [|l|l|].
    + split; [apply latest_label_skip; [apply not_header; exact Hc | exact Hl]|].
      exists data. split; [exact Hd|].
      intros out Ho. apply from_latest_header_snoc. auto.
    + destruct Hc as [Hh ->]. split.
      * simpl. exists pre, r, [].
        split; [reflexivity|]. split; [apply header_test_spec; exact Hh|].
        split; [constructor | reflexivity].
      * exists data. split; [exact Hd|].
        intros out Ho. apply from_latest_header_snoc. auto.
    + destruct Hc as [Hh Hcur].
      assert (Hskip : Spec.latest_label (pre ++ [r]) (current_kaigishitsu st)).
      { apply latest_label_skip; [apply not_header; exact Hh | exact Hl]. }
      destruct (build l r) as [out|] eqn:Hb.
      * split; [exact Hskip|]. cbn [result_rows]. rewrite Hd.
        exists (data ++ [out]). split; [reflexivity|].
        intros o Ho. apply in_app_or in Ho. destruct Ho as [Ho|[<-|[]]].
        -- apply from_latest_header_snoc. auto.
        -- rewrite Hcur in Hl. simpl in Hl.
           destruct Hl as (hpre & h & hpost & -> & Hsh & Hp & ->).
           exists hpre, h, hpost, r, []. auto.
      * split; [exact Hskip|]. exists data. split; [exact Hd|].
        intros o Ho. apply from_latest_header_snoc. auto.
    + split; [apply latest_label_skip; [apply not_header; exact Hc | exact Hl]|].
      exists data. split; [exact Hd|].
      intros out Ho. apply from_latest_header_snoc. auto.
Qed.

Lemma loop_no_header (h0 : row) (rows : list row) :
  Forall (fun r => ~ Spec.section_header r) rows ->
  loop build rows (mkState None [h0]) = mkState None [h0].
Proof.
  induction rows as [|r pre IH] using rev_ind; [reflexivity|].
  intros H. apply Forall_app in H. destruct H as [Hp Hr].
  rewrite loop_snoc, (IH Hp). inversion Hr as [|? ? Hr' _]; subst.
  unfold step. cbn [current_kaigishitsu].
  pose proof (classify_inv None r) as Hc.
  destruct (classify None r) as [|l|l|]; try reflexivity.
  - exfalso. apply Hr'. apply header_test_spec. tauto.
  - destruct Hc as [_ Hc]. discriminate.
Qed.

End WalkFacts.

Lemma Step3_pfi : index K.riyou_mokuteki Step3.new_csv_header = Some 3%nat.
Proof. vm_compute. reflexivity. Qed.

(** C2: in the three variants the Section Label changes only at a
    SectionHeader row; every data row written after the header row is built
    from an input row with the label of the most recent SectionHeader row
    before it; rows before the first SectionHeader give no data row. *)
Theorem C2_label_invariant :
  (forall build st r,
      current_kaigishitsu (step build st r) <> current_kaigishitsu st ->
      Spec.section_header r)
  /\ (forall build h0 rows,
        Spec.latest_label rows
          (current_kaigishitsu (loop build rows (mkState None [h0]))))
  /\ (forall lines outs, Step1.convert_csv lines = Written outs ->
        exists hd rows data,
          lines = hd :: rows /\ outs = Step1.header_out hd :: data
          /\ forall out, In out data ->
               Spec.from_latest_header Step1.build rows out)
  /\ (forall lines outs, Step3.convert_csv lines = Written outs ->
        exists hd rows i1 i2 i3 i4 data,
          lines = hd :: rows /\ outs = Step3.new_csv_header :: data
          /\ forall out, In out data ->
               Spec.from_latest_header (Step3.build hd 3 i1 i2 i3 i4) rows out)
  /\ (forall lines outs, Step4.convert_csv lines = Written outs ->
        exists hd rows i1 i2 i3 i4 data,
          lines = hd :: rows /\ outs = Step4.new_csv_header :: data
          /\ forall out, In out data ->
               Spec.from_latest_header (Step4.build i1 i2 i3 i4) rows out)
  /\ (forall build h0 rows,
        Forall (fun r => ~ Spec.section_header r) rows ->
        result_rows (loop build rows (mkState None [h0])) = [h0]).
Proof.
  split; [exact step_label|].
  split; [intros build h0 rows; apply (loop_invariant build h0 rows)|].
  split; [|split; [|split]].
  - intros [|hd rows] outs; simpl; [discriminate|].
    destruct (loop_invariant Step1.build (Step1.header_out hd) rows)
      as [_ (data & Hd & Ho)].
    destruct (Nat.leb _ 1); [discriminate|]. intros H; inversion H; subst.
    exists hd, rows, data. auto.
  - intros [|hd rows] outs; [discriminate|]. unfold Step3.convert_csv.
    rewrite Step3_pfi.
    destruct (index K.kaishi_nichi hd) as [i1|]; [|discriminate].
    destruct (index K.kaishi_jikan hd) as [i2|]; [|discriminate].
    destruct (index K.shuryo_nichi hd) as [i3|]; [|discriminate].
    destruct (index K.shuryo_jikan hd) as [i4|]; [|discriminate].
    destruct (loop_invariant (Step3.build hd 3 i1 i2 i3 i4)
                Step3.new_csv_header rows) as [_ (data & Hd & Ho)].
    cbv zeta. destruct (Nat.leb _ 1); [discriminate|].
    intros H; inversion H; subst.
    exists hd, rows, i1, i2, i3, i4, data. auto.
  - intros [|hd rows] outs; [discriminate|]. unfold Step4.convert_csv.
    destruct (index K.kaishi_nichi hd) as [i1|]; [|discriminate].
    destruct (index K.kaishi_jikan hd) as [i2|]; [|discriminate].
    destruct (index K.shuryo_nichi hd) as [i3|]; [|discriminate].
    destruct (index K.shuryo_jikan hd) as [i4|]; [|discriminate].
    destruct (loop_invariant (Step4.build i1 i2 i3 i4)
                Step4.new_csv_header rows) as [_ (data & Hd & Ho)].
    cbv zeta. destruct (Nat.leb _ 1); [discriminate|].
    intros H; inversion H; subst.
    exists hd, rows, i1, i2, i3, i4, data. auto.
  - intros build h0 rows H. rewrite (loop_no_header build h0 rows H). reflexivity.
Qed.

(** ** The outcome of a run *)

Lemma index_In (x : pystr) (l : row) (i : nat) : index x l = Some i -> In x l.
Proof. intros H. apply index_Some in H. eapply nth_error_In; exact H. Qed.

Lemma index_found (x : pystr) (l : row) : In x l -> exists i, index x l = Some i.
Proof.
  intros H. destruct (index x l) as [i|] eqn:E; [exists i; reflexivity|].
  apply index_None in E. contradiction.
Qed.

Lemma required_indices (hd : row) :
  Spec.required_present hd <->
  exists i1 i2 i3 i4,
    index K.kaishi_nichi hd = Some i1 /\ index K.kaishi_jikan hd = Some i2
    /\ index K.shuryo_nichi hd = Some i3 /\ index K.shuryo_jikan hd = Some i4.
Proof.
  unfold Spec.required_present. split.
  - intros (H1 & H2 & H3 & H4).
    destruct (index_found _ _ H1) as [i1 E1]. destruct (index_found _ _ H2) as [i2 E2].
    destruct (index_found _ _ H3) as [i3 E3]. destruct (index_found _ _ H4) as [i4 E4].
    exists i1, i2, i3, i4. auto.
  - intros (i1 & i2 & i3 & i4 & E1 & E2 & E3 & E4).
    split; [|split; [|split]]; eapply index_In; eassumption.
Qed.

Lemma Step3_convert_cases (hd : row) (rows : list row) :
  (~ Spec.required_present hd
   /\ Step3.convert_csv (hd :: rows) = MissingRequiredColumn)
  \/ (exists i1 i2 i3 i4 data,
        index K.kaishi_nichi hd = Some i1 /\ index K.kaishi_jikan hd = Some i2
        /\ index K.shuryo_nichi hd = Some i3 /\ index K.shuryo_jikan hd = Some i4
        /\ result_rows (loop (Step3.build hd 3 i1 i2 i3 i4) rows
                         (mkState None [Step3.new_csv_header]))
           = Step3.new_csv_header :: data
        /\ Step3.convert_csv (hd :: rows)
           = match data with
             | [] => NoDataRowsFound
             | _ :: _ => Written (Step3.new_csv_header :: data)
             end).
Proof.
  unfold Step3.convert_csv. rewrite Step3_pfi.
  destruct (index K.kaishi_nichi hd) as [i1|] eqn:E1;
    [|left; split; [|reflexivity]; intros H; apply required_indices in H;
      destruct H as (?&?&?&?&?&?&?&?); congruence].
  destruct (index K.kaishi_jikan hd) as [i2|] eqn:E2;
    [|left; split; [|reflexivity]; intros H; apply required_indices in H;
      destruct H as (?&?&?&?&?&?&?&?); congruence].
  destruct (index K.shuryo_nichi hd) as [i3|] eqn:E3;
    [|left; split; [|reflexivity]; intros H; apply required_indices in H;
      destruct H as (?&?&?&?&?&?&?&?); congruence].
  destruct (index K.shuryo_jikan hd) as [i4|] eqn:E4;
    [|left; split; [|reflexivity]; intros H; apply required_indices in H;
      destruct H as (?&?&?&?&?&?&?&?); congruence].
  right.
  destruct (loop_invariant (Step3.build hd 3 i1 i2 i3 i4)
              Step3.new_csv_header rows) as [_ (data & Hd & _)].
  exists i1, i2, i3, i4, data. cbv zeta. rewrite Hd.
  repeat (split; [reflexivity|]). destruct data; reflexivity.
Qed.

Lemma Step4_convert_cases (hd : row) (rows : list row) :
  (~ Spec.required_present hd
   /\ Step4.convert_csv (hd :: rows) = MissingRequiredColumn)
  \/ (exists i1 i2 i3 i4 data,
        index K.kaishi_nichi hd = Some i1 /\ index K.kaishi_jikan hd = Some i2
        /\ index K.shuryo_nichi hd = Some i3 /\ index K.shuryo_jikan hd = Some i4
        /\ result_rows (loop (Step4.build i1 i2 i3 i4) rows
                         (mkState None [Step4.new_csv_header]))
           = Step4.new_csv_header :: data
        /\ Step4.convert_csv (hd :: rows)
           = match data with
             | [] => NoDataRowsFound
             | _ :: _ => Written (Step4.new_csv_header :: data)
             end).
Proof.
  unfold Step4.convert_csv.
  destruct (index K.kaishi_nichi hd) as [i1|] eqn:E1;
    [|left; split; [|reflexivity]; intros H; apply required_indices in H;
      destruct H as (?&?&?&?&?&?&?&?); congruence].
  destruct (index K.kaishi_jikan hd) as [i2|] eqn:E2;
    [|left; split; [|reflexivity]; intros H; apply required_indices in H;
      destruct H as (?&?&?&?&?&?&?&?); congruence].
  destruct (index K.shuryo_nichi hd) as [i3|] eqn:E3;
    [|left; split; [|reflexivity]; intros H; apply required_indices in H;
      destruct H as (?&?&?&?&?&?&?&?); congruence].
  destruct (index K.shuryo_jikan hd) as [i4|] eqn:E4;
    [|left; split; [|reflexivity]; intros H; apply required_indices in H;
      destruct H as (?&?&?&?&?&?&?&?); congruence].
  right.
  destruct (loop_invariant (Step4.build i1 i2 i3 i4)
              Step4.new_csv_header rows) as [_ (data & Hd & _)].
  exists i1, i2, i3, i4, data. cbv zeta. rewrite Hd.
  repeat (split; [reflexivity|]). destruct data; reflexivity.
Qed.

(** C8: the display and the storage conversion write nothing when they
    fail.  With one of 開始日, 開始時刻, 終了日, 終了時刻 missing from the
    header the run ends in MissingRequiredColumn; when the walk leaves only
    the header row in the result it ends in NoDataRowsFound; and a file is
    written only with the four columns present and a data row produced. *)
Theorem C8_failures_write_nothing :
  (forall hd rows, ~ Spec.required_present hd ->
     Step3.convert_csv (hd :: rows) = MissingRequiredColumn
     /\ Step4.convert_csv (hd :: rows) = MissingRequiredColumn
     /\ output_file (Step3.convert_csv (hd :: rows)) = None
     /\ output_file (Step4.convert_csv (hd :: rows)) = None)
  /\ (forall hd rows i1 i2 i3 i4,
        index K.kaishi_nichi hd = Some i1 -> index K.kaishi_jikan hd = Some i2 ->
        index K.shuryo_nichi hd = Some i3 -> index K.shuryo_jikan hd = Some i4 ->
        (result_rows (loop (Step3.build hd 3 i1 i2 i3 i4) rows
                        (mkState None [Step3.new_csv_header]))
         = [Step3.new_csv_header] ->
         Step3.convert_csv (hd :: rows) = NoDataRowsFound
         /\ output_file (Step3.convert_csv (hd :: rows)) = None)
        /\ (result_rows (loop (Step4.build i1 i2 i3 i4) rows
                           (mkState None [Step4.new_csv_header]))
            = [Step4.new_csv_header] ->
            Step4.convert_csv (hd :: rows) = NoDataRowsFound
            /\ output_file (Step4.convert_csv (hd :: rows)) = None))
  /\ (forall hd, Spec.required_present hd ->
        Step3.convert_csv [hd] = NoDataRowsFound
        /\ Step4.convert_csv [hd] = NoDataRowsFound)
  /\ (forall lines outs,
        output_file (Step3.convert_csv lines) = Some outs ->
        exists hd rows d data,
          lines = hd :: rows /\ Spec.required_present hd
          /\ outs = Step3.new_csv_header :: d :: data)
  /\ (forall lines outs,
        output_file (Step4.convert_csv lines) = Some outs ->
        exists hd rows d data,
          lines = hd :: rows /\ Spec.required_present hd
          /\ outs = Step4.new_csv_header :: d :: data).
Proof.
  split; [|split; [|split; [|split]]].
  - intros hd rows H.
    destruct (Step3_convert_cases hd rows) as [[_ E3]|(i1&i2&i3&i4&d&H1&H2&H3&H4&_)];
      [|exfalso; apply H; apply required_indices; exists i1, i2, i3, i4; auto].
    destruct (Step4_convert_cases hd rows) as [[_ E4]|(i1&i2&i3&i4&d&H1&H2&H3&H4&_)];
      [|exfalso; apply H; apply required_indices; exists i1, i2, i3, i4; auto].
    rewrite E3, E4. auto.
  - intros hd rows i1 i2 i3 i4 E1 E2 E3 E4. split; intros Hr.
    + unfold Step3.convert_csv. rewrite Step3_pfi, E1, E2, E3, E4. cbv zeta.
      rewrite Hr. split; reflexivity.
    + unfold Step4.convert_csv. rewrite E1, E2, E3, E4. cbv zeta.
      rewrite Hr. split; reflexivity.
  - intros hd H. apply required_indices in H.
    destruct H as (i1 & i2 & i3 & i4 & E1 & E2 & E3 & E4).
    unfold Step3.convert_csv, Step4.convert_csv.
    rewrite Step3_pfi, E1, E2, E3, E4. split; reflexivity.
  - intros [|hd rows] outs; [discriminate|].
    destruct (Step3_convert_cases hd rows)
      as [[_ E]|(i1&i2&i3&i4&d&H1&H2&H3&H4&_&E)]; rewrite E; [discriminate|].
    destruct d as [|d data]; [discriminate|]. intros H; inversion H; subst.
    exists hd, rows, d, data. split; [reflexivity|]. split; [|reflexivity].
    apply required_indices. exists i1, i2, i3, i4. auto.
  - intros [|hd rows] outs; [discriminate|].
    destruct (Step4_convert_cases hd rows)
      as [[_ E]|(i1&i2&i3&i4&d&H1&H2&H3&H4&_&E)]; rewrite E; [discriminate|].
    destruct d as [|d data]; [discriminate|]. intros H; inversion H; subst.
    exists hd, rows, d, data. split; [reflexivity|]. split; [|reflexivity].
    apply required_indices. exists i1, i2, i3, i4. auto.
Qed.

(** ** The display row *)

(** The data-row branch of the display script in closed form. *)
Lemma Step3_build_closed (hd : row) (i1 i2 i3 i4 : nat) (cur : pystr) (r : row)
    (sd st ed et : pystr) :
  nth_error r i1 = Some sd -> nth_error r i2 = Some st ->
  nth_error r i3 = Some ed -> nth_error r i4 = Some et ->
  Step3.build hd 3 i1 i2 i3 i4 cur r
  = Some [replace_circled (Step3.remove_facility cur);
          replace_circled (sd ++ [K.space] ++ st);
          replace_circled (ed ++ [K.space] ++ et);
          K.batsu].
Proof.
  intros E1 E2 E3 E4. unfold Step3.build. rewrite E1, E2, E3, E4.
  reflexivity.
Qed.

Lemma Step3_build_some (hd : row) (i1 i2 i3 i4 : nat) (cur : pystr) (r out : row) :
  Step3.build hd 3 i1 i2 i3 i4 cur r = Some out ->
  exists sd st ed et,
    nth_error r i1 = Some sd /\ nth_error r i2 = Some st
    /\ nth_error r i3 = Some ed /\ nth_error r i4 = Some et
    /\ out = [replace_circled (Step3.remove_facility cur);
              replace_circled (sd ++ [K.space] ++ st);
              replace_circled (ed ++ [K.space] ++ et);
              K.batsu].
Proof.
  intros H.
  destruct (nth_error r i1) as [sd|] eqn:E1;
    [|unfold Step3.build in H; rewrite E1 in H; discriminate].
  destruct (nth_error r i2) as [st|] eqn:E2;
    [|unfold Step3.build in H; rewrite E1, E2 in H; discriminate].
  destruct (nth_error r i3) as [ed|] eqn:E3;
    [|unfold Step3.build in H; rewrite E1, E2, E3 in H; discriminate].
  destruct (nth_error r i4) as [et|] eqn:E4;
    [|unfold Step3.build in H; rewrite E1, E2, E3, E4 in H; discriminate].
  rewrite (Step3_build_closed hd i1 i2 i3 i4 cur r sd st ed et E1 E2 E3 E4) in H.
  inversion H; subst. exists sd, st, ed, et. auto.
Qed.

(** C4, as the display script does it: a row taken as a DataRow with label
    [l] whose fields reach the four datetime columns adds the output row
    [S(R(l)), S(startDate startTime), S(endDate endTime), ×], where [R]
    removes 仙台合同庁舎 and ／仙台地方振興事務所 and [S] is the
    circled-digit substitution; the fourth value is × whatever the
    purpose-detail column holds. *)
Theorem C4_display_row :
  forall (hd : row) (i1 i2 i3 i4 : nat) (st0 : state) (l : pystr) (r : row)
         (sd st ed et : pystr),
    classify (current_kaigishitsu st0) r = DataRow l ->
    nth_error r i1 = Some sd -> nth_error r i2 = Some st ->
    nth_error r i3 = Some ed -> nth_error r i4 = Some et ->
    step (Step3.build hd 3 i1 i2 i3 i4) st0 r
    = mkState (current_kaigishitsu st0)
        (result_rows st0 ++
         [[replace_circled (Step3.remove_facility l);
           replace_circled (sd ++ [K.space] ++ st);
           replace_circled (ed ++ [K.space] ++ et);
           K.batsu]]).
Proof.
  intros hd i1 i2 i3 i4 st0 l r sd st ed et Hc E1 E2 E3 E4.
  unfold step. rewrite Hc.
  rewrite (Step3_build_closed hd i1 i2 i3 i4 l r sd st ed et E1 E2 E3 E4).
  reflexivity.
Qed.

(** Against C4 as the specification words it: the room name written is
    not the Section Label. *)
Lemma C4_label_is_rewritten :
  Step3.convert_csv Ex.display_lines
  = Written [Step3.new_csv_header;
             [u "第1会議室"; u "2024/03/31 09:00"; u "2024/03/31 10:00";
              u "×"]]
  /\ classify None (nth 1 Ex.display_lines [])
     = SectionHeader (u "仙台合同庁舎第1会議室")
  /\ u "第1会議室" <> u "仙台合同庁舎第1会議室".
Proof.
  split; [vm_compute; reflexivity|].
  split; [vm_compute; reflexivity|].
  vm_compute. discriminate.
Qed.

Lemma C4_display_row_witness :
  step (Step3.build Ex.header7 3 2 3 4 5)
    (mkState (Some (u "仙台合同庁舎第1会議室")) [Step3.new_csv_header])
    (nth 2 Ex.display_lines [])
  = mkState (Some (u "仙台合同庁舎第1会議室"))
      ([Step3.new_csv_header] ++
       [[replace_circled (Step3.remove_facility (u "仙台合同庁舎第1会議室"));
         replace_circled (u "2024/03/31" ++ [K.space] ++ u "09:00");
         replace_circled (u "2024/03/31" ++ [K.space] ++ u "10:00");
         K.batsu]]).
Proof.
  apply (C4_display_row Ex.header7 2 3 4 5
           (mkState (Some (u "仙台合同庁舎第1会議室")) [Step3.new_csv_header])
           (u "仙台合同庁舎第1会議室") (nth 2 Ex.display_lines [])
           (u "2024/03/31") (u "09:00") (u "2024/03/31") (u "10:00"));
    vm_compute; reflexivity.
Defined.

(** ** Reading the input *)

Lemma lstrip_bom (raw : pystr) :
  exists n,
    raw = repeat K.bom n ++ lstrip [K.bom] raw
    /\ startswith [K.bom] (lstrip [K.bom] raw) = false.
Proof.
  unfold lstrip. induction raw as [|c raw (n & Hn & Hs)].
  - exists O. split; reflexivity.
  - cbn [lstrip_while existsb]. destruct (Z.eqb_spec c K.bom) as [->|Hc].
    + exists (S n). cbn [orb repeat app]. split; [f_equal; exact Hn | exact Hs].
    + exists O. cbn [orb repeat app]. split; [reflexivity|].
      cbn [startswith]. apply not_eq_sym in Hc.
      apply Z.eqb_neq in Hc. rewrite Hc. reflexivity.
Qed.

Lemma try_encodings_cases (decode : Reader.Encoding -> list Z -> option pystr)
    (encs : list Reader.Encoding) (data : list Z) :
  (Reader.try_encodings decode encs data = None
   /\ forall enc, In enc encs -> decode enc data = None)
  \/ (exists before enc rest raw,
        encs = before ++ enc :: rest
        /\ (forall e, In e before -> decode e data = None)
        /\ decode enc data = Some raw
        /\ Reader.try_encodings decode encs data
           = Some (Reader.remove_bom raw, enc)).
Proof.
  induction encs as [|e encs IH]; simpl.
  - left. split; [reflexivity | intros enc []].
  - destruct (decode e data) as [raw|] eqn:E.
    + right. exists [], e, encs, raw. split; [reflexivity|].
      split; [intros x []|]. split; [exact E | reflexivity].
    + destruct IH as [[Hn Hall]|(before & enc & rest & raw & -> & Hb & Hd & Hr)].
      * left. split; [exact Hn|]. intros enc [<-|Hin]; [exact E | apply Hall; exact Hin].
      * right. exists (e :: before), enc, rest, raw. split; [reflexivity|].
        split; [intros x [<-|Hin]; [exact E | apply Hb; exact Hin]|].
        split; [exact Hd | exact Hr].
Qed.

(** C7, as the scripts do it: when the decoded text starts with U+FEFF,
    every leading U+FEFF is removed, so the text handed on never starts
    with one; a text that does not start with U+FEFF is handed on as
    decoded; and the text handed on is the decoding of the first encoding
    of the list that reads the file, with that removal, whichever encoding
    it is. *)
Theorem C7_leading_boms_removed :
  (forall raw,
      exists n,
        raw = repeat K.bom n ++ Reader.remove_bom raw
        /\ startswith [K.bom] (Reader.remove_bom raw) = false
        /\ (startswith [K.bom] raw = false -> Reader.remove_bom raw = raw))
  /\ (forall decode data,
        (Reader.read_input decode data = None
         /\ forall enc, In enc Reader.ENCODINGS_TO_TRY -> decode enc data = None)
        \/ (exists before enc rest raw,
              Reader.ENCODINGS_TO_TRY = before ++ enc :: rest
              /\ (forall e, In e before -> decode e data = None)
              /\ decode enc data = Some raw
              /\ Reader.read_input decode data
                 = Some (Reader.remove_bom raw, enc))).
Proof.
  split.
  - intros raw. unfold Reader.remove_bom.
    destruct (startswith [K.bom] raw) eqn:E.
    + destruct (lstrip_bom raw) as (n & Hn & Hs). exists n.
      split; [exact Hn|]. split; [exact Hs | discriminate].
    + exists O. split; [reflexivity|]. split; [exact E | reflexivity].
  - intros decode data. apply try_encodings_cases.
Qed.

(** Against C7 as the specification words it: two leading U+FEFF are both
    removed. *)
Lemma C7_two_boms_removed :
  Reader.remove_bom Ex.two_boms = u "No,部屋"
  /\ Reader.remove_bom Ex.two_boms <> tl Ex.two_boms.
Proof.
  split; [vm_compute; reflexivity | vm_compute; discriminate].
Qed.

(** ** The circled digits *)

Lemma replace_one (c : char) (new s : pystr) :
  replace [c] new s = flat_map (fun x => if x =? c then new else [x]) s.
Proof.
  unfold replace. induction s as [|x s IH]; [reflexivity|].
  cbn [replace_from startswith flat_map length Nat.sub].
  rewrite andb_true_r, Z.eqb_sym, IH.
  destruct (x =? c); reflexivity.
Qed.

Lemma flat_map_comp {A B C} (f : A -> list B) (g : B -> list C) (s : list A) :
  flat_map g (flat_map f s) = flat_map (fun x => flat_map g (f x)) s.
Proof.
  induction s as [|x s IH]; [reflexivity|].
  cbn [flat_map]. rewrite flat_map_app, IH. reflexivity.
Qed.

Lemma circled_glyphs :
  u "①" = [9312] /\ u "②" = [9313] /\ u "③" = [9314] /\ u "④" = [9315]
  /\ u "⑤" = [9316] /\ u "⑥" = [9317] /\ u "⑦" = [9318] /\ u "⑧" = [9319]
  /\ u "⑨" = [9320] /\ u "⑩" = [9321].
Proof. vm_compute. repeat split; reflexivity. Qed.

Lemma replace_circled_table (s : pystr) :
  replace_circled s = flat_map Spec.table s.
Proof.
  unfold replace_circled.
  destruct circled_glyphs as (-> & -> & -> & -> & -> & -> & -> & -> & -> & ->).
  rewrite !replace_one, !flat_map_comp.
  apply flat_map_ext. intros x. unfold Spec.table, is_circled.
  destruct (Z.eqb_spec x 9312) as [->|N1]; [vm_compute; reflexivity|].
  destruct (Z.eqb_spec x 9313) as [->|N2]; [vm_compute; reflexivity|].
  destruct (Z.eqb_spec x 9314) as [->|N3]; [vm_compute; reflexivity|].
  destruct (Z.eqb_spec x 9315) as [->|N4]; [vm_compute; reflexivity|].
  destruct (Z.eqb_spec x 9316) as [->|N5]; [vm_compute; reflexivity|].
  destruct (Z.eqb_spec x 9317) as [->|N6]; [vm_compute; reflexivity|].
  destruct (Z.eqb_spec x 9318) as [->|N7]; [vm_compute; reflexivity|].
  destruct (Z.eqb_spec x 9319) as [->|N8]; [vm_compute; reflexivity|].
  destruct (Z.eqb_spec x 9320) as [->|N9]; [vm_compute; reflexivity|].
  destruct (Z.eqb_spec x 9321) as [->|N10]; [vm_compute; reflexivity|].
  apply Z.eqb_neq in N1, N2, N3, N4, N5, N6, N7, N8, N9, N10.
  cbn [flat_map app]. rewrite ?N1, ?N2, ?N3, ?N4, ?N5, ?N6, ?N7, ?N8, ?N9, ?N10.
  repeat (cbn [flat_map app];
          rewrite ?N1, ?N2, ?N3, ?N4, ?N5, ?N6, ?N7, ?N8, ?N9, ?N10).
  apply Z.eqb_neq in N1, N2, N3, N4, N5, N6, N7, N8, N9, N10.
  destruct (9312 <=? x) eqn:L; [|reflexivity].
  destruct (x <=? 9321) eqn:U; [|reflexivity].
  apply Z.leb_le in L, U. exfalso. lia.
Qed.

Lemma table_glyph_free (c : char) : Spec.glyph_free (Spec.table c).
Proof.
  unfold Spec.glyph_free, Spec.table. destruct (is_circled c) eqn:E.
  - unfold is_circled in E. apply andb_true_iff in E. destruct E as [L U].
    apply Z.leb_le in L, U.
    destruct (c =? 9321); repeat constructor.
    unfold is_circled. destruct (9312 <=? c - 9312 + 49) eqn:L'; [|reflexivity].
    apply Z.leb_le in L'. lia.
  - constructor; [exact E | constructor].
Qed.

Lemma replace_circled_glyph_free (s : pystr) :
  Spec.glyph_free (replace_circled s).
Proof.
  rewrite replace_circled_table. unfold Spec.glyph_free.
  induction s as [|c s IH]; [constructor|].
  cbn [flat_map]. apply Forall_app. split; [apply table_glyph_free | exact IH].
Qed.

(** ** The datetime texts *)

(** ** Decimal digits *)

Lemma decimal_inv (c : char) (v : Z) :
  decimal c = Some v -> 0 <= v <= 9 /\ c <> 58 /\ c <> 32 /\ c <> 47.
Proof.
  unfold decimal.
  destruct (find (fun z => (z <=? c) && (c <? z + 10)) nd_zeros) as [z|] eqn:E;
    [|discriminate].
  intros H; inversion H; subst. apply find_some in E. destruct E as [Hin Hr].
  apply andb_true_iff in Hr. destruct Hr as [L U].
  apply Z.leb_le in L. apply Z.ltb_lt in U.
  split; [lia|].
  unfold nd_zeros in Hin. simpl in Hin.
  repeat (destruct Hin as [<-|Hin]; [lia|]). destruct Hin.
Qed.

Lemma decimal_digit (k : Z) : 0 <= k <= 9 -> decimal (digit k) = Some k.
Proof.
  intros H.
  assert (C : k = 0 \/ k = 1 \/ k = 2 \/ k = 3 \/ k = 4 \/ k = 5 \/ k = 6
              \/ k = 7 \/ k = 8 \/ k = 9) by lia.
  repeat (destruct C as [->|C]; [reflexivity|]). subst. reflexivity.
Qed.

Lemma among_inv (lo hi : Z) (c : char) (v : Z) :
  among lo hi c = Some v -> v = c - 48 /\ lo <= v <= hi.
Proof.
  unfold among. destruct ((48 + lo <=? c) && (c <=? 48 + hi)) eqn:E; [|discriminate].
  apply andb_true_iff in E. destruct E as [L U].
  apply Z.leb_le in L, U. intros H; inversion H; subst. lia.
Qed.

(** ** Matches *)

Lemma in_bind {A B} (p : matcher A) (f : A -> matcher B) (s : pystr)
    (b : B) (r : pystr) :
  In (b, r) (bind p f s) <->
  exists a r1, In (a, r1) (p s) /\ In (b, r) (f a r1).
Proof.
  unfold bind. rewrite in_flat_map. split.
  - intros [[a r1] [H1 H2]]. exists a, r1. auto.
  - intros (a & r1 & H1 & H2). exists (a, r1). auto.
Qed.

Lemma in_one (f : char -> option Z) (s : pystr) (v : Z) (r : pystr) :
  In (v, r) (one f s) <-> exists c, s = c :: r /\ f c = Some v.
Proof.
  unfold one. destruct s as [|c t].
  - split; [intros [] | intros (c & H & _); discriminate].
  - destruct (f c) as [w|] eqn:E.
    + split.
      * intros [H|[]]. inversion H; subst. exists c. auto.
      * intros (c' & H & Hf). inversion H; subst c' r.
        rewrite Hf in E. inversion E. left; reflexivity.
    + split; [intros []|]. intros (c' & H & Hf). inversion H; subst c' r.
      rewrite Hf in E. discriminate.
Qed.

Lemma in_lit (c : char) (s : pystr) (v : Z) (r : pystr) :
  In (v, r) (lit c s) <-> s = c :: r /\ v = 0.
Proof.
  unfold lit. rewrite in_one. split.
  - intros (x & -> & H). destruct (Z.eqb_spec x c); [|discriminate].
    inversion H; subst. auto.
  - intros [-> ->]. exists c. rewrite Z.eqb_refl. auto.
Qed.

Lemma in_ret {A} (a : A) (s : pystr) (v : A) (r : pystr) :
  In (v, r) (ret a s) <-> v = a /\ r = s.
Proof.
  unfold ret. simpl. split.
  - intros [H|[]]. inversion H; auto.
  - intros [-> ->]. auto.
Qed.

Lemma in_alt {A} (p q : matcher A) (s : pystr) (x : A * pystr) :
  In x (alt p q s) <-> In x (p s) \/ In x (q s).
Proof. unfold alt. apply in_app_iff. Qed.

Lemma in_spaces1 (s : pystr) (v : Z) (r : pystr) :
  In (v, r) (spaces1 s) ->
  exists w c,
    s = (w ++ [c]) ++ r /\ isspace c = true
    /\ Forall (fun x => isspace x = true) w.
Proof.
  induction s as [|x s IH]; simpl; [intros []|].
  destruct (isspace x) eqn:E; [|intros []].
  intros H. apply in_app_or in H. destruct H as [H|[H|[]]].
  - destruct (IH H) as (w & c & -> & Hc & Hw). exists (x :: w), c.
    split; [reflexivity|]. split; [exact Hc | constructor; assumption].
  - inversion H; subst. exists [], x. auto.
Qed.

Ltac take :=
  repeat match goal with
    | H : In _ (bind _ _ _) |- _ =>
        apply in_bind in H; destruct H as (? & ? & ? & H)
    | H : In _ (alt _ _ _) |- _ => apply in_alt in H; destruct H as [H|H]
    | H : In _ (lit _ _) |- _ => apply in_lit in H; destruct H as [? ?]
    | H : In _ (one _ _) |- _ => apply in_one in H; destruct H as (? & ? & H)
    | H : In _ (ret _ _) |- _ => apply in_ret in H; destruct H as [? ?]
    | H : among _ _ _ = Some _ |- _ => apply among_inv in H; destruct H as [? ?]
    | H : decimal _ = Some _ |- _ =>
        apply decimal_inv in H; destruct H as (? & ? & ? & ?)
    end; subst.

Lemma takes_Y :
  takes re_Y (fun y pre => 0 <= y <= 9999 /\ ~ In 58 pre).
Proof.
  intros s v r H. unfold re_Y in H. take.
  eexists [_; _; _; _]. split; [reflexivity|]. split; [lia|].
  simpl. intuition congruence.
Qed.

Lemma takes_m :
  takes re_m (fun m pre => 1 <= m <= 12 /\ ~ In 58 pre).
Proof.
  intros s v r H. unfold re_m in H. take.
  - eexists [_; _]. split; [reflexivity|]. split; [lia|]. simpl. intuition lia.
  - eexists [_; _]. split; [reflexivity|]. split; [lia|]. simpl. intuition lia.
  - eexists [_]. split; [reflexivity|]. split; [lia|]. simpl. intuition lia.
Qed.

Lemma takes_d :
  takes re_d (fun d pre => 1 <= d <= 31 /\ ~ In 58 pre).
Proof.
  intros s v r H. unfold re_d in H. take.
  - eexists [_; _]. split; [reflexivity|]. split; [lia|]. simpl. intuition lia.
  - eexists [_; _]. split; [reflexivity|]. split; [lia|]. simpl. intuition lia.
  - eexists [_; _]. split; [reflexivity|]. split; [lia|]. simpl. intuition lia.
  - eexists [_]. split; [reflexivity|]. split; [lia|]. simpl. intuition lia.
  - eexists [_; _]. split; [reflexivity|]. split; [lia|]. simpl. intuition lia.
Qed.

Lemma takes_H :
  takes re_H (fun h pre => 0 <= h <= 23 /\ hour_text pre).
Proof.
  intros s v r H. unfold re_H in H. take.
  - eexists [_; _]. split; [reflexivity|]. split; [lia|].
    right; left. eexists. split; [reflexivity | lia].
  - eexists [_; _]. split; [reflexivity|]. split; [lia|].
    right; right. eexists _, _. split; [reflexivity|]. split; [lia | assumption].
  - eexists [_]. split; [reflexivity|]. split; [lia|].
    left. eexists. split; [reflexivity | assumption].
Qed.

Lemma takes_M :
  takes re_M (fun m pre => 0 <= m <= 59 /\ ~ In 58 pre).
Proof.
  intros s v r H. unfold re_M in H. take.
  - eexists [_; _]. split; [reflexivity|]. split; [lia|]. simpl. intuition lia.
  - eexists [_]. split; [reflexivity|]. split; [lia|]. simpl. intuition lia.
Qed.

Lemma re_date_inv (s : pystr) (d : date) (r : pystr) :
  In (d, r) (re_date s) ->
  exists pre,
    s = pre ++ r /\ ~ In 58 pre
    /\ 0 <= year d <= 9999 /\ 1 <= month d <= 12 /\ 1 <= day d <= 31.
Proof.
  intros H. unfold re_date in H. take.
  match goal with H : In _ (re_Y _) |- _ =>
    apply takes_Y in H; destruct H as (py & -> & Hy & Ny) end.
  match goal with H : In _ (re_m _) |- _ =>
    apply takes_m in H; destruct H as (pm & ? & Hm & Nm) end.
  match goal with H : In _ (re_d _) |- _ =>
    apply takes_d in H; destruct H as (pd & ? & Hd & Nd) end.
  subst. exists (py ++ 47 :: pm ++ 47 :: pd).
  split; [rewrite <- ?app_assoc; simpl; rewrite <- ?app_assoc; reflexivity|].
  split; [|simpl; auto].
  intros Hin. rewrite in_app_iff in Hin. simpl in Hin.
  rewrite in_app_iff in Hin. simpl in Hin. intuition discriminate.
Qed.

Lemma re_datetime_inv (s : pystr) (dt : datetime) (r : pystr) :
  In (dt, r) (re_datetime s) ->
  exists pre w c h mm,
    s = (((pre ++ w) ++ [c]) ++ h) ++ 58 :: mm ++ r
    /\ ~ In 58 pre /\ Forall (fun x => isspace x = true) w /\ isspace c = true
    /\ hour_text h /\ ~ In 58 mm
    /\ 0 <= year (on dt) <= 9999 /\ 1 <= month (on dt) <= 12
    /\ 1 <= day (on dt) <= 31
    /\ 0 <= hour dt <= 23 /\ 0 <= minute dt <= 59.
Proof.
  intros H. unfold re_datetime in H. take.
  match goal with H : In _ (re_date _) |- _ =>
    apply re_date_inv in H; destruct H as (pre & -> & Np & By & Bm & Bd) end.
  match goal with H : In _ (spaces1 _) |- _ =>
    apply in_spaces1 in H; destruct H as (w & c & ? & Hc & Hw) end.
  match goal with H : In _ (re_H _) |- _ =>
    apply takes_H in H; destruct H as (h & ? & Bh & Hh) end.
  match goal with H : In _ (re_M _) |- _ =>
    apply takes_M in H; destruct H as (mm & ? & BM & NM) end.
  subst. exists pre, w, c, h, mm.
  split; [rewrite <- ?app_assoc; simpl; rewrite <- ?app_assoc; reflexivity|].
  simpl. auto 12.
Qed.

Lemma fullmatch_in {A} (p : matcher A) (s : pystr) (v : A) :
  fullmatch p s = Some v -> In (v, []) (p s).
Proof.
  unfold fullmatch. destruct (p s) as [|[x [|c t]] l]; try discriminate.
  intros H; inversion H; subst. left; reflexivity.
Qed.




(** ** First matches of the rendered texts *)

Lemma heads_bind {A B} (p : matcher A) (f : A -> matcher B) (s : pystr)
    (a : A) (r : pystr) (y : B * pystr) :
  heads p s (a, r) -> heads (f a) r y -> heads (bind p f) s y.
Proof.
  intros [o1 H1] [o2 H2]. unfold heads, bind. rewrite H1. cbn [flat_map fst snd].
  rewrite H2. eexists. reflexivity.
Qed.

Lemma heads_ret {A} (a : A) (s : pystr) : heads (ret a) s (a, s).
Proof. exists []. reflexivity. Qed.

Lemma heads_lit (c : char) (r : pystr) : heads (lit c) (c :: r) (0, r).
Proof. exists []. unfold lit, one. rewrite Z.eqb_refl. reflexivity. Qed.

Lemma heads_fullmatch {A} (p : matcher A) (s : pystr) (v : A) :
  heads p s (v, []) -> fullmatch p s = Some v.
Proof. intros [o H]. unfold fullmatch. rewrite H. reflexivity. Qed.

Lemma digit_bounds (n : Z) :
  0 <= n <= 99 -> 0 <= n / 10 <= 9 /\ 0 <= n mod 10 <= 9.
Proof. intros H. split; Z.div_mod_to_equations; lia. Qed.

Lemma pad4_bounds (n : Z) :
  0 <= n <= 9999 ->
  0 <= n / 1000 <= 9 /\ 0 <= (n / 100) mod 10 <= 9
  /\ 0 <= (n / 10) mod 10 <= 9 /\ 0 <= n mod 10 <= 9
  /\ 1000 * (n / 1000) + 100 * ((n / 100) mod 10) + 10 * ((n / 10) mod 10)
     + n mod 10 = n.
Proof. intros H. repeat split; Z.div_mod_to_equations; lia. Qed.

Lemma heads_Y (y : Z) (rest : pystr) :
  0 <= y <= 9999 -> heads re_Y (pad4 y ++ rest) (y, rest).
Proof.
  intros H. destruct (pad4_bounds y H) as (B1 & B2 & B3 & B4 & E).
  exists []. unfold re_Y, pad4, bind, one, ret. cbn [app flat_map fst snd].
  repeat (rewrite decimal_digit by assumption; cbn [app flat_map fst snd]).
  rewrite E. reflexivity.
Qed.

Ltac enumerate k tac :=
  first [ exfalso; lia
        | destruct k as [|k];
          [ first [ exfalso; lia | tac ] | enumerate k tac ] ].

Lemma heads_m (m : Z) (rest : pystr) :
  1 <= m <= 12 -> heads re_m (pad2 m ++ rest) (m, rest).
Proof.
  intros H. rewrite <- (Z2Nat.id m) in * by lia.
  generalize dependent (Z.to_nat m). intros k H.
  enumerate k ltac:(cbv; eexists; reflexivity).
Qed.

Lemma heads_d (d : Z) (rest : pystr) :
  1 <= d <= 31 -> heads re_d (pad2 d ++ rest) (d, rest).
Proof.
  intros H. rewrite <- (Z2Nat.id d) in * by lia.
  generalize dependent (Z.to_nat d). intros k H.
  enumerate k ltac:(cbv; eexists; reflexivity).
Qed.

Lemma heads_H (h : Z) (rest : pystr) :
  0 <= h <= 23 -> heads re_H (pad2 h ++ rest) (h, rest).
Proof.
  intros H. rewrite <- (Z2Nat.id h) in * by lia.
  generalize dependent (Z.to_nat h). intros k H.
  enumerate k ltac:(cbv; eexists; reflexivity).
Qed.

Lemma heads_M (m : Z) (rest : pystr) :
  0 <= m <= 59 -> heads re_M (pad2 m ++ rest) (m, rest).
Proof.
  intros H. rewrite <- (Z2Nat.id m) in * by lia.
  generalize dependent (Z.to_nat m). intros k H.
  enumerate k ltac:(cbv; eexists; reflexivity).
Qed.

(** ** The calendar *)

Lemma valid_date_inv (d : date) :
  valid_date d = true ->
  1 <= year d <= 9999 /\ 1 <= month d <= 12
  /\ 1 <= day d <= days_in_month (year d) (month d).
Proof.
  unfold valid_date, MINYEAR, MAXYEAR. rewrite !andb_true_iff, !Z.leb_le. lia.
Qed.

Lemma valid_date_intro (d : date) :
  1 <= year d <= 9999 -> 1 <= month d <= 12 ->
  1 <= day d <= days_in_month (year d) (month d) ->
  valid_date d = true.
Proof.
  unfold valid_date, MINYEAR, MAXYEAR. rewrite !andb_true_iff, !Z.leb_le. lia.
Qed.

Lemma days_in_month_bounds (y m : Z) : 28 <= days_in_month y m <= 31.
Proof.
  unfold days_in_month.
  destruct (m =? 2); [destruct (is_leap y); lia|].
  destruct ((m =? 4) || (m =? 6) || (m =? 9) || (m =? 11)); lia.
Qed.

Lemma days_before_year_succ (y : Z) :
  days_before_year (y + 1)
  = days_before_year y + (if is_leap y then 366 else 365).
Proof.
  unfold days_before_year, is_leap. replace (y + 1 - 1) with y by lia.
  destruct (Z.eqb_spec (y mod 4) 0), (Z.eqb_spec (y mod 100) 0),
    (Z.eqb_spec (y mod 400) 0); cbn [andb orb negb];
    Z.div_mod_to_equations; lia.
Qed.

Lemma month_cases (m : Z) :
  1 <= m <= 12 ->
  m = 1 \/ m = 2 \/ m = 3 \/ m = 4 \/ m = 5 \/ m = 6 \/ m = 7 \/ m = 8
  \/ m = 9 \/ m = 10 \/ m = 11 \/ m = 12.
Proof. lia. Qed.

(** The day after: a date of the calendar again, one day later. *)
Lemma add_one_day_spec (d d' : date) :
  valid_date d = true -> add_one_day d = Some d' ->
  valid_date d' = true /\ toordinal d' = toordinal d + 1.
Proof.
  intros V. apply valid_date_inv in V. destruct d as [y m dd]. simpl in V.
  destruct V as (Hy & Hm & Hd). unfold add_one_day. cbn [year month day].
  destruct (Z.ltb_spec dd (days_in_month y m)) as [L|L].
  - intros E; inversion E; subst. split.
    + apply valid_date_intro; simpl; lia.
    + unfold toordinal; simpl; lia.
  - assert (dd = days_in_month y m) by lia. subst dd.
    destruct (Z.ltb_spec m 12) as [L2|L2].
    + intros E; inversion E; subst. split.
      * apply valid_date_intro; simpl; try lia.
        pose proof (days_in_month_bounds y (m + 1)). lia.
      * unfold toordinal, days_before_month. cbn [year month day].
        apply month_cases in Hm.
        repeat (destruct Hm as [->|Hm]; [unfold days_in_month; simpl;
                                         destruct (is_leap y); lia|]).
        lia.
    + assert (m = 12) by lia. subst m. unfold MAXYEAR.
      destruct (Z.ltb_spec y 9999) as [L3|L3]; [|discriminate].
      intros E; inversion E; subst. split.
      * apply valid_date_intro; simpl; try lia. unfold days_in_month; simpl; lia.
      * unfold toordinal, days_before_month. cbn [year month day].
        rewrite days_before_year_succ. unfold days_in_month. simpl.
        destruct (is_leap y), (is_leap (y + 1)); lia.
Qed.

Lemma add_one_day_none (d : date) :
  valid_date d = true -> add_one_day d = None -> d = mkDate 9999 12 31.
Proof.
  intros V. apply valid_date_inv in V. destruct d as [y m dd]. simpl in V.
  destruct V as (Hy & Hm & Hd). unfold add_one_day, MAXYEAR. cbn [year month day].
  destruct (Z.ltb_spec dd (days_in_month y m)); [discriminate|].
  destruct (Z.ltb_spec m 12); [discriminate|].
  destruct (Z.ltb_spec y 9999); [discriminate|]. intros _.
  assert (m = 12) by lia. subst m. assert (y = 9999) by lia. subst y.
  unfold days_in_month in *. simpl in *. f_equal. lia.
Qed.

(** ** The rendered texts *)

Lemma digit_not (k c : Z) : 0 <= k <= 9 -> c < 48 \/ 57 < c -> digit k <> c.
Proof. unfold digit. lia. Qed.

Lemma pad2_not (n c : Z) :
  0 <= n <= 99 -> c < 48 \/ 57 < c -> ~ In c (pad2 n).
Proof.
  intros H Hc. destruct (digit_bounds n H) as [B1 B2]. unfold pad2. simpl.
  pose proof (digit_not _ c B1 Hc). pose proof (digit_not _ c B2 Hc). tauto.
Qed.

Lemma pad4_not (n c : Z) :
  0 <= n <= 9999 -> c < 48 \/ 57 < c -> ~ In c (pad4 n).
Proof.
  intros H Hc. destruct (pad4_bounds n H) as (B1 & B2 & B3 & B4 & _).
  unfold pad4. simpl.
  pose proof (digit_not _ c B1 Hc). pose proof (digit_not _ c B2 Hc).
  pose proof (digit_not _ c B3 Hc). pose proof (digit_not _ c B4 Hc). tauto.
Qed.

Lemma year_text_late (y : Z) : 1000 <= y -> year_text y = pad4 y.
Proof.
  intros H. unfold year_text.
  destruct (Z.ltb_spec y 10); [lia|]. destruct (Z.ltb_spec y 100); [lia|].
  destruct (Z.ltb_spec y 1000); [lia | reflexivity].
Qed.

Lemma year_text_digits (y : Z) :
  0 <= y <= 9999 ->
  Forall (fun c => exists k, 0 <= k <= 9 /\ c = digit k) (year_text y).
Proof.
  intros H. unfold year_text, pad2, pad4.
  destruct (Z.ltb_spec y 10); [|destruct (Z.ltb_spec y 100);
                                 [|destruct (Z.ltb_spec y 1000)]];
    repeat constructor; eexists; (split; [|reflexivity]);
    Z.div_mod_to_equations; lia.
Qed.

Lemma year_text_not (y c : Z) :
  0 <= y <= 9999 -> c < 48 \/ 57 < c -> ~ In c (year_text y).
Proof.
  intros H Hc Hin. pose proof (year_text_digits y H) as D.
  rewrite Forall_forall in D. destruct (D c Hin) as (k & Hk & ->).
  exact (digit_not k (digit k) Hk Hc eq_refl).
Qed.

Lemma strftime_date_no_space (d : date) :
  valid_date d = true -> ~ In 32 (strftime_date d).
Proof.
  intros V. apply valid_date_inv in V. destruct V as (Hy & Hm & Hd).
  pose proof (days_in_month_bounds (year d) (month d)).
  intros Hin. unfold strftime_date in Hin. rewrite !in_app_iff in Hin.
  destruct Hin as [Hin|[Hin|[Hin|[Hin|Hin]]]].
  - exact (year_text_not (year d) 32 ltac:(lia) ltac:(lia) Hin).
  - destruct Hin as [E|[]]; discriminate.
  - exact (pad2_not (month d) 32 ltac:(lia) ltac:(lia) Hin).
  - destruct Hin as [E|[]]; discriminate.
  - exact (pad2_not (day d) 32 ltac:(lia) ltac:(lia) Hin).
Qed.

Lemma split_first_app (c : char) (pre rest : pystr) :
  ~ In c pre -> split_first c (pre ++ c :: rest) = pre.
Proof.
  induction pre as [|x pre IH]; simpl; intros N.
  - rewrite Z.eqb_refl. reflexivity.
  - destruct (Z.eqb_spec x c) as [->|_]; [exfalso; apply N; left; reflexivity|].
    rewrite IH; [reflexivity | intros H; apply N; right; exact H].
Qed.

Lemma contains_skip (c : char) (sub pre rest : pystr) :
  ~ In c pre ->
  contains (c :: sub) (pre ++ rest) = contains (c :: sub) rest.
Proof.
  induction pre as [|x pre IH]; intros N; [reflexivity|].
  cbn [app contains startswith].
  destruct (Z.eqb_spec c x) as [->|_]; [exfalso; apply N; left; reflexivity|].
  cbn [andb orb]. apply IH. intros H; apply N; right; exact H.
Qed.

Lemma heads_date (d : date) (rest : pystr) :
  valid_date d = true -> 1000 <= year d ->
  heads re_date (strftime_date d ++ rest) (d, rest).
Proof.
  intros V Y. apply valid_date_inv in V. destruct V as (Hy & Hm & Hd).
  pose proof (days_in_month_bounds (year d) (month d)).
  unfold re_date, strftime_date. rewrite (year_text_late _ Y), <- !app_assoc.
  eapply heads_bind; [apply heads_Y; lia|].
  eapply heads_bind; [apply heads_lit|].
  eapply heads_bind; [apply heads_m; lia|].
  eapply heads_bind; [apply heads_lit|].
  eapply heads_bind; [apply heads_d; lia|].
  destruct d; apply heads_ret.
Qed.

Lemma strptime_date_strftime (d : date) :
  valid_date d = true -> 1000 <= year d ->
  strptime_date (strftime_date d) = Some d.
Proof.
  intros V Y. unfold strptime_date.
  rewrite (heads_fullmatch re_date (strftime_date d) d).
  - rewrite V. reflexivity.
  - rewrite <- (app_nil_r (strftime_date d)). apply heads_date; assumption.
Qed.

Lemma valid_time_inv (h m : Z) :
  valid_time h m = true -> 0 <= h <= 23 /\ 0 <= m <= 59.
Proof. unfold valid_time. rewrite !andb_true_iff, !Z.leb_le. lia. Qed.

Lemma isspace_digit (k : Z) : 0 <= k <= 9 -> isspace (digit k) = false.
Proof.
  intros H.
  assert (C : k = 0 \/ k = 1 \/ k = 2 \/ k = 3 \/ k = 4 \/ k = 5 \/ k = 6
              \/ k = 7 \/ k = 8 \/ k = 9) by lia.
  repeat (destruct C as [->|C]; [reflexivity|]). subst. reflexivity.
Qed.


Lemma no_2400_canonical (d : date) (h m : Z) :
  valid_date d = true -> valid_time h m = true ->
  contains (u " 24:00")
    (strftime_date d ++ [K.space] ++ pad2 h ++ [58] ++ pad2 m) = false.
Proof.
  intros V T. apply valid_time_inv in T. destruct T as [Hh Hm].
  change (u " 24:00") with (32 :: [50; 52; 58; 48; 48]).
  rewrite contains_skip by (apply strftime_date_no_space; exact V).
  unfold K.space. cbn [app contains].
  assert (Hrest : contains (32 :: [50; 52; 58; 48; 48])
                    (pad2 h ++ 58 :: pad2 m) = false).
  { rewrite <- (app_nil_r (pad2 h ++ 58 :: pad2 m)).
    rewrite contains_skip; [reflexivity|].
    intros Hin. apply in_app_or in Hin. destruct Hin as [Hin|[E|Hin]].
    - exact (pad2_not h 32 ltac:(lia) ltac:(lia) Hin).
    - discriminate.
    - exact (pad2_not m 32 ltac:(lia) ltac:(lia) Hin). }
  apply orb_false_intro; [|exact Hrest].
  unfold pad2. cbn [app startswith]. rewrite Z.eqb_refl. cbn [andb].
  destruct (Z.eqb_spec 50 (digit (h / 10))) as [E1|]; [|reflexivity].
  destruct (Z.eqb_spec 52 (digit (h mod 10))) as [E2|]; [|reflexivity].
  exfalso. unfold digit in *. Z.div_mod_to_equations. lia.
Qed.

(** ** The 24:00 fold *)

Lemma fix_unchanged (s : pystr) :
  contains (u " 24:00") s = false -> Step4.fix_time_format s = s.
Proof. intros H. unfold Step4.fix_time_format. rewrite H. reflexivity. Qed.

Lemma fix_fold (d d' : date) :
  valid_date d = true -> 1000 <= year d -> add_one_day d = Some d' ->
  Step4.fix_time_format (strftime_date d ++ u " 24:00")
  = strftime_date d' ++ u " 00:00".
Proof.
  intros V Y A. unfold Step4.fix_time_format.
  assert (C : contains (u " 24:00") (strftime_date d ++ u " 24:00") = true).
  { apply contains_spec. exists (strftime_date d), []. rewrite app_nil_r. reflexivity. }
  rewrite C. cbv zeta.
  change (u " 24:00") with (K.space :: u "24:00").
  rewrite split_first_app by (apply strftime_date_no_space; exact V).
  rewrite (strptime_date_strftime d V Y), A. reflexivity.
Qed.


(** C5, as the storage script does it: for every valid calendar date
    YYYY/MM/DD with a year from 1000 on that has a next day (every date but
    9999/12/31), the text [YYYY/MM/DD 24:00] becomes the next calendar day
    with the time 00:00 -- a valid date whose ordinal is one more, across
    the ends of months and years; a text without [ 24:00] is given back
    unchanged; so is a text with [ 24:00] whose date part does not parse or
    has no next day. *)
Theorem C5_fold_2400 :
  (forall d d',
      valid_date d = true -> 1000 <= year d -> add_one_day d = Some d' ->
      Step4.fix_time_format (strftime_date d ++ u " 24:00")
      = strftime_date d' ++ u " 00:00"
      /\ valid_date d' = true /\ toordinal d' = toordinal d + 1)
  /\ (forall d, valid_date d = true -> d <> mkDate 9999 12 31 ->
        exists d', add_one_day d = Some d')
  /\ (forall s,
        contains (u " 24:00") s = false -> Step4.fix_time_format s = s)
  /\ (forall s,
        strptime_date (split_first K.space s) = None
        \/ (exists d, strptime_date (split_first K.space s) = Some d
                      /\ add_one_day d = None) ->
        Step4.fix_time_format s = s)
  /\ Step4.fix_time_format (u "2024/03/31 24:00") = u "2024/04/01 00:00"
  /\ Step4.fix_time_format (u "2024/12/31 24:00") = u "2025/01/01 00:00".
Proof.
  split; [|split; [|split; [|split; [|split]]]].
  - intros d d' V Y A. split; [exact (fix_fold d d' V Y A)|].
    exact (add_one_day_spec d d' V A).
  - intros d V N. destruct (add_one_day d) as [d'|] eqn:A; [exists d'; reflexivity|].
    exfalso. apply N. exact (add_one_day_none d V A).
  - exact fix_unchanged.
  - intros s H. unfold Step4.fix_time_format.
    destruct (contains (u " 24:00") s); [|reflexivity]. cbv zeta.
    destruct H as [->|(d & -> & ->)]; reflexivity.
  - vm_compute. reflexivity.
  - vm_compute. reflexivity.
Qed.

(** Against C5 as the specification words it: the last day of the calendar
    is not advanced. *)
Lemma C5_last_day_unchanged :
  u "9999/12/31 24:00" = strftime_date (mkDate 9999 12 31) ++ u " 24:00"
  /\ valid_date (mkDate 9999 12 31) = true
  /\ contains (u " 24:00") (u "9999/12/31 24:00") = true
  /\ Step4.fix_time_format (u "9999/12/31 24:00") = u "9999/12/31 24:00".
Proof. vm_compute. repeat split; reflexivity. Qed.

(** ** The storage normaliser *)




Lemma Step4_build_closed (i1 i2 i3 i4 : nat) (cur : pystr) (r : row)
    (sd st ed et : pystr) :
  nth_error r i1 = Some sd -> nth_error r i2 = Some st ->
  nth_error r i3 = Some ed -> nth_error r i4 = Some et ->
  Step4.build i1 i2 i3 i4 cur r
  = Some [Step4.clean_room_name cur;
          Step4.format_for_supabase (sd ++ [K.space] ++ st);
          Step4.format_for_supabase (ed ++ [K.space] ++ et);
          K.batsu].
Proof.
  intros E1 E2 E3 E4. unfold Step4.build. rewrite E1, E2, E3, E4. reflexivity.
Qed.

Lemma Step4_build_some (i1 i2 i3 i4 : nat) (cur : pystr) (r out : row) :
  Step4.build i1 i2 i3 i4 cur r = Some out ->
  exists sd st ed et,
    nth_error r i1 = Some sd /\ nth_error r i2 = Some st
    /\ nth_error r i3 = Some ed /\ nth_error r i4 = Some et
    /\ out = [Step4.clean_room_name cur;
              Step4.format_for_supabase (sd ++ [K.space] ++ st);
              Step4.format_for_supabase (ed ++ [K.space] ++ et);
              K.batsu].
Proof.
  unfold Step4.build.
  destruct (nth_error r i1) as [sd|]; [|discriminate].
  destruct (nth_error r i2) as [st|]; [|discriminate].
  destruct (nth_error r i3) as [ed|]; [|discriminate].
  destruct (nth_error r i4) as [et|]; [|discriminate].
  intros H; inversion H; subst. exists sd, st, ed, et. auto.
Qed.



(** ** Circled digits in the rows written *)

Lemma digit_glyph_free (k : Z) : 0 <= k <= 9 -> is_circled (digit k) = false.
Proof.
  intros H. unfold is_circled, digit.
  destruct (Z.leb_spec 9312 (48 + k)); [lia | reflexivity].
Qed.

Lemma pad2_glyph_free (n : Z) : 0 <= n <= 99 -> Spec.glyph_free (pad2 n).
Proof.
  intros H. destruct (digit_bounds n H) as [B1 B2]. unfold pad2.
  repeat constructor; apply digit_glyph_free; assumption.
Qed.

Lemma pad4_glyph_free (n : Z) : 0 <= n <= 9999 -> Spec.glyph_free (pad4 n).
Proof.
  intros H. destruct (pad4_bounds n H) as (B1 & B2 & B3 & B4 & _). unfold pad4.
  repeat constructor; apply digit_glyph_free; assumption.
Qed.

Lemma year_text_glyph_free (y : Z) :
  0 <= y <= 9999 -> Spec.glyph_free (year_text y).
Proof.
  intros H. eapply Forall_impl; [|exact (year_text_digits y H)].
  intros c (k & Hk & ->). apply digit_glyph_free. exact Hk.
Qed.

Lemma strptime_datetime_bounds (s : pystr) (dt : datetime) :
  strptime_datetime s = Some dt ->
  valid_date (on dt) = true /\ 0 <= hour dt <= 23 /\ 0 <= minute dt <= 59.
Proof.
  unfold strptime_datetime.
  destruct (fullmatch re_datetime s) as [x|] eqn:E; [|discriminate].
  destruct (valid_date (on x)) eqn:V; [|discriminate].
  intros H; inversion H; subst. split; [exact V|].
  apply fullmatch_in in E. apply re_datetime_inv in E.
  destruct E as (pre & w & c & h & mm & _ & _ & _ & _ & _ & _ & _ & _ & _ & Bh & Bm).
  auto.
Qed.

Lemma strftime_iso_glyph_free (dt : datetime) :
  valid_date (on dt) = true -> 0 <= hour dt <= 23 -> 0 <= minute dt <= 59 ->
  Spec.glyph_free (strftime_iso dt).
Proof.
  intros V Hh Hm. apply valid_date_inv in V. destruct V as (Hy & Hmo & Hd).
  pose proof (days_in_month_bounds (year (on dt)) (month (on dt))).
  unfold strftime_iso, Spec.glyph_free.
  repeat (apply Forall_app; split);
    try (apply year_text_glyph_free; lia); try (apply pad2_glyph_free; lia);
    try (repeat constructor).
Qed.

Lemma format_glyph_free (s : pystr) :
  strptime_datetime (Step4.fix_time_format s) <> None ->
  Spec.glyph_free (Step4.format_for_supabase s).
Proof.
  intros H. unfold Step4.format_for_supabase. cbv zeta.
  destruct (strptime_datetime (Step4.fix_time_format s)) as [dt|] eqn:E;
    [|contradiction].
  destruct (strptime_datetime_bounds _ _ E) as (V & Bh & Bm).
  apply strftime_iso_glyph_free; assumption.
Qed.

(** C3, as the three scripts do it: the passthrough and the display script
    apply the table (① .. ⑩ to 1 .. 10) to every field of a data row (the
    display script then sets the fourth field to ×), and no field written
    holds a circled digit; the storage script applies it to the room name
    only: the room name and the × hold no circled digit, a datetime field
    holds none when its text parses, and is the composed text unchanged
    when it does not; the header row of the passthrough output is the input
    header behind 会議室名, without substitution. *)
Theorem C3_circled_digits :
  (forall s,
      replace_circled s = flat_map Spec.table s
      /\ Spec.glyph_free (replace_circled s))
  /\ (forall cur r out,
        Step1.build cur r = Some out ->
        out = map replace_circled (cur :: r) /\ Forall Spec.glyph_free out)
  /\ (forall hd i1 i2 i3 i4 cur r out,
        Step3.build hd 3 i1 i2 i3 i4 cur r = Some out ->
        Forall Spec.glyph_free out)
  /\ (forall i1 i2 i3 i4 cur r out,
        Step4.build i1 i2 i3 i4 cur r = Some out ->
        exists sd st ed et,
          nth_error r i1 = Some sd /\ nth_error r i2 = Some st
          /\ nth_error r i3 = Some ed /\ nth_error r i4 = Some et
          /\ out = [Step4.clean_room_name cur;
                    Step4.format_for_supabase (sd ++ [K.space] ++ st);
                    Step4.format_for_supabase (ed ++ [K.space] ++ et);
                    K.batsu]
          /\ Spec.glyph_free (nth 0 out [])
          /\ Spec.glyph_free (nth 3 out []))
  /\ (forall s,
        strptime_datetime (Step4.fix_time_format s) <> None ->
        Spec.glyph_free (Step4.format_for_supabase s))
  /\ (forall s,
        strptime_datetime (Step4.fix_time_format s) = None ->
        Step4.format_for_supabase s = s)
  /\ (forall hd rows outs,
        Step1.convert_csv (hd :: rows) = Written outs ->
        exists data, outs = (K.kaigishitsu_mei :: hd) :: data).
Proof.
  split; [|split; [|split; [|split; [|split; [|split]]]]].
  - intros s. split; [apply replace_circled_table | apply replace_circled_glyph_free].
  - intros cur r out H. unfold Step1.build in H. inversion H; subst.
    split; [reflexivity|]. apply Forall_forall. intros x Hx.
    change (In x (map replace_circled (cur :: r))) in Hx.
    apply in_map_iff in Hx. destruct Hx as (y & <- & _).
    apply replace_circled_glyph_free.
  - intros hd i1 i2 i3 i4 cur r out H. apply Step3_build_some in H.
    destruct H as (sd & st & ed & et & _ & _ & _ & _ & ->).
    repeat constructor; try apply replace_circled_glyph_free.
  - intros i1 i2 i3 i4 cur r out H. apply Step4_build_some in H.
    destruct H as (sd & st & ed & et & E1 & E2 & E3 & E4 & ->).
    exists sd, st, ed, et. repeat (split; [assumption|]).
    split; [reflexivity|]. split.
    + apply replace_circled_glyph_free.
    + repeat constructor.
  - exact format_glyph_free.
  - intros s H. unfold Step4.format_for_supabase. cbv zeta. rewrite H. reflexivity.
  - intros hd rows outs. simpl.
    destruct (loop_invariant Step1.build (Step1.header_out hd) rows)
      as [_ (data & Hd & _)].
    destruct (Nat.leb _ 1); [discriminate|]. intros H; inversion H; subst.
    exists data. exact Hd.
Qed.

(** Against C3 as the specification words it: in the storage script a
    circled digit of the input reaches the file in a datetime field. *)
Lemma C3_glyph_kept_by_storage :
  Step4.convert_csv Ex.glyph_lines
  = Written [Step4.new_csv_header;
             [u "会議室A"; u "2024/03/3① 09:00";
              u "2024-03-31T10:00:00+09:00"; u "×"]]
  /\ existsb is_circled (u "2024/03/3① 09:00") = true.
Proof. vm_compute. split; reflexivity. Qed.

(** ** The validator *)

(** The summary names every violation in its total, prints the first five,
    and counts the others. *)
Lemma summary_shape (e : Validator.violation)
    (errs : list Validator.violation) (n : nat) :
  exists shown others,
    Validator.summary (e :: errs) n
    = Validator.Warning (length (e :: errs)) shown others
    /\ shown = firstn 5 (e :: errs) /\ (length shown <= 5)%nat
    /\ (length shown
        + match others with Some k => k | None => O end
        = length (e :: errs))%nat.
Proof.
  unfold Validator.summary.
  eexists _, _. split; [reflexivity|]. split; [reflexivity|].
  pose proof (length_firstn 5 (e :: errs)) as L. rewrite L.
  split; [lia|].
  destruct (Nat.ltb_spec 5 (length (e :: errs))); lia.
Qed.

(** While no comparison raises, the loop goes through every row and
    keeps what it has collected. *)
Lemma check_rows_collects (fromisoformat : pystr -> option Validator.stamp)
    (si ei : nat) (rows : list row) :
  forall i errs,
    (forall k r, In r rows ->
       Validator.check_row fromisoformat si ei k r <> Validator.RowRaises) ->
    exists more,
      Validator.check_rows fromisoformat si ei i rows errs = Some (errs ++ more)
      /\ (length more <= length rows)%nat.
Proof.
  induction rows as [|r rows IH]; intros i errs H.
  - exists []. rewrite app_nil_r. split; [reflexivity | simpl; lia].
  - cbn [Validator.check_rows].
    assert (Hr : forall k x, In x rows ->
              Validator.check_row fromisoformat si ei k x <> Validator.RowRaises).
    { intros k x Hx. apply H. right; exact Hx. }
    destruct (Validator.check_row fromisoformat si ei i r) as [|v|] eqn:E.
    + destruct (IH (S i) errs Hr) as (more & -> & L). exists more.
      split; [reflexivity | simpl; lia].
    + destruct (IH (S i) (errs ++ [v]) Hr) as (more & -> & L).
      exists (v :: more). rewrite <- app_assoc. split; [reflexivity | simpl; lia].
    + exfalso. apply (H i r); [left; reflexivity | exact E].
Qed.

(** C9 at the input of [Ex.offset_lines]: the storage script writes a row
    whose end value keeps an offset of its own; the validator reads the
    start value as a naive and the end value as an aware timestamp, their
    comparison raises, and the validation ends in its error message with
    no summary of violations. *)
Theorem C9_validator_stops_on_mixed_offsets :
  Step4.convert_csv Ex.offset_lines
  = Written [Step4.new_csv_header;
             [u "会議室A"; u "2024-03-31T09:00:00+09:00";
              u "2024-03-31 10:00+08:00"; u "×"]]
  /\ Validator.fromisoformat_core
       (replace Validator.offset_text [] (u "2024-03-31T09:00:00+09:00"))
     = Some (Validator.mkStamp 63847558800 None)
  /\ Validator.fromisoformat_core
       (replace Validator.offset_text [] (u "2024-03-31 10:00+08:00"))
     = Some (Validator.mkStamp 63847562400 (Some 28800))
  /\ Validator.stamp_ge (Validator.mkStamp 63847558800 None)
       (Validator.mkStamp 63847562400 (Some 28800)) = None
  /\ Validator.convert_and_validate Validator.fromisoformat_core
       Ex.offset_lines
     = (Step4.convert_csv Ex.offset_lines, Some Validator.ValidationError).
Proof. vm_compute. repeat split; reflexivity. Qed.

(** ** More on the walk *)

Lemma header_has_room (s : pystr) :
  Spec.substring K.kaigishitsu s -> truthy (strip s) = true.
Proof.
  intros (a & b & ->). destruct (truthy (strip (a ++ K.kaigishitsu ++ b))) eqn:E;
    [reflexivity|].
  apply strip_blank in E. unfold Spec.blank in E. rewrite Forall_forall in E.
  assert (H : isspace 20250 = true).
  { apply E. apply in_or_app. right. apply in_or_app. left. left. reflexivity. }
  discriminate H.
Qed.

Lemma data_shaped_test (l : pystr) (r : row) :
  truthy l = true -> Shape.data_shaped r ->
  header_test r = false /\ data_test (Some l) r = true.
Proof.
  intros Hl [Hlen Hnb].
  assert (Ht : truthy (strip (nth 2 r [])) = true).
  { destruct (truthy (strip (nth 2 r []))) eqn:E; [reflexivity|].
    apply strip_blank in E. contradiction. }
  split.
  - destruct (header_test r) eqn:E; [|reflexivity].
    apply header_test_spec in E. destruct E as (_ & _ & [H|H]); [lia | contradiction].
  - unfold data_test. rewrite Hl, Ht.
    assert (L : (2 <? length r)%nat = true) by (apply Nat.ltb_lt; exact Hlen).
    rewrite L. reflexivity.
Qed.

Lemma classify_data (l : pystr) (r : row) :
  truthy l = true -> Shape.data_shaped r -> classify (Some l) r = DataRow l.
Proof.
  intros Hl Hd. destruct (data_shaped_test l r Hl Hd) as [H1 H2].
  unfold classify. destruct r as [|f r']; [destruct Hd as [Hlen _]; simpl in Hlen; lia|].
  rewrite H1, H2. reflexivity.
Qed.

Lemma step_inert (build : pystr -> row -> option row) (st : state) (r : row) :
  ~ Spec.section_header r ->
  (length r <= 2)%nat \/ Spec.blank (nth 2 r []) ->
  step build st r = st.
Proof.
  intros Hh Hs. unfold step.
  pose proof (classify_inv (current_kaigishitsu st) r) as Hc.
  destruct (classify (current_kaigishitsu st) r) as [|l|l|] eqn:E; try reflexivity.
  - exfalso. apply Hh. apply header_test_spec. tauto.
  - exfalso. unfold classify in E. destruct r as [|f r']; [discriminate|].
    destruct (header_test (f :: r')); [discriminate|].
    destruct (data_test (current_kaigishitsu st) (f :: r')) eqn:D; [|discriminate].
    unfold data_test in D. destruct (current_kaigishitsu st); [|discriminate].
    apply andb_true_iff in D. destruct D as [D T].
    apply andb_true_iff in D. destruct D as [_ L]. apply Nat.ltb_lt in L.
    destruct Hs as [Hs|Hs]; [lia|].
    apply strip_blank in Hs. congruence.
Qed.

Lemma step_out (build : pystr -> row -> option row) (c : option pystr)
    (out : list row) (r : row) :
  step build (mkState c out) r
  = mkState (current_kaigishitsu (step build (mkState c []) r))
      (out ++ result_rows (step build (mkState c []) r)).
Proof.
  unfold step. cbn [current_kaigishitsu result_rows].
  destruct (classify c r) as [|l|l|]; cbn [current_kaigishitsu result_rows];
    rewrite ?app_nil_r; try reflexivity.
  destruct (build l r); cbn [current_kaigishitsu result_rows];
    rewrite ?app_nil_r; reflexivity.
Qed.

Lemma loop_out (build : pystr -> row -> option row) (rows : list row) :
  forall c out,
    loop build rows (mkState c out)
    = mkState (current_kaigishitsu (loop build rows (mkState c [])))
        (out ++ result_rows (loop build rows (mkState c []))).
Proof.
  induction rows as [|r rows IH]; intros c out.
  - simpl. rewrite app_nil_r. reflexivity.
  - unfold loop in *. cbn [fold_left].
    rewrite (step_out build c out r).
    destruct (step build (mkState c []) r) as [c' e].
    cbn [current_kaigishitsu result_rows].
    rewrite (IH c' (out ++ e)). rewrite (IH c' e).
    cbn [current_kaigishitsu result_rows]. rewrite app_assoc. reflexivity.
Qed.

Lemma step_adds_at_most_one (build : pystr -> row -> option row)
    (c : option pystr) (r : row) :
  (length (result_rows (step build (mkState c []) r)) <= 1)%nat.
Proof.
  unfold step. cbn [current_kaigishitsu result_rows].
  destruct (classify c r) as [|l|l|]; cbn [result_rows length]; try lia.
  destruct (build l r); cbn [result_rows length app]; lia.
Qed.

Lemma loop_adds_at_most (build : pystr -> row -> option row) (rows : list row) :
  forall c,
    (length (result_rows (loop build rows (mkState c []))) <= length rows)%nat.
Proof.
  induction rows as [|r rows IH]; intros c; [simpl; lia|].
  unfold loop in *. cbn [fold_left].
  pose proof (step_adds_at_most_one build c r) as H1.
  destruct (step build (mkState c []) r) as [c' e] eqn:E.
  cbn [result_rows] in H1.
  pose proof (loop_out build rows c' e) as H2. unfold loop in H2. rewrite H2.
  cbn [result_rows]. rewrite length_app. specialize (IH c'). simpl. lia.
Qed.

Lemma loop_cons (build : pystr -> row -> option row) (r : row)
    (rows : list row) (st : state) :
  loop build (r :: rows) st = loop build rows (step build st r).
Proof. reflexivity. Qed.

Lemma loop_app (build : pystr -> row -> option row) (pre post : list row)
    (st : state) :
  loop build (pre ++ post) st = loop build post (loop build pre st).
Proof. unfold loop. apply fold_left_app. Qed.

Lemma step_keeps_label (build : pystr -> row -> option row) (st : state)
    (r : row) :
  ~ Spec.section_header r ->
  current_kaigishitsu (step build st r) = current_kaigishitsu st.
Proof.
  intros Hr. unfold step.
  pose proof (classify_inv (current_kaigishitsu st) r) as Hc.
  destruct (classify (current_kaigishitsu st) r) as [|l|l|]; try reflexivity.
  - exfalso. apply Hr. apply header_test_spec. tauto.
  - destruct (build l r); reflexivity.
Qed.

Lemma loop_keeps_label (build : pystr -> row -> option row) (rows : list row) :
  forall st,
    Forall (fun x => ~ Spec.section_header x) rows ->
    current_kaigishitsu (loop build rows st) = current_kaigishitsu st.
Proof.
  induction rows as [|r rows IH]; intros st H; [reflexivity|].
  inversion H as [|? ? Hr Hrest]; subst.
  unfold loop in *. cbn [fold_left]. rewrite (IH _ Hrest).
  apply step_keeps_label. exact Hr.
Qed.

(** X1: in every variant a row that is no SectionHeader and has at most 2
    fields or a blank field 2 -- an empty row among them -- changes
    nothing: the run over the rows with it is the run over the rows without
    it, label and output alike. *)
Theorem X1_inert_rows :
  forall (build : pystr -> row -> option row) (pre : list row) (r : row)
         (post : list row) (st : state),
    ~ Spec.section_header r ->
    (length r <= 2)%nat \/ Spec.blank (nth 2 r []) ->
    loop build (pre ++ r :: post) st = loop build (pre ++ post) st.
Proof.
  intros build pre r post st Hh Hs.
  rewrite !loop_app, loop_cons, (step_inert build _ r Hh Hs). reflexivity.
Qed.

Lemma X1_inert_rows_witness :
  loop Step1.build ([[u "1"; u "会議室A"]] ++ [] :: [[u "1"; u "x"; u "y"]])
    (mkState None [[u "h"]])
  = loop Step1.build ([[u "1"; u "会議室A"]] ++ [[u "1"; u "x"; u "y"]])
      (mkState None [[u "h"]]).
Proof.
  apply (X1_inert_rows Step1.build [[u "1"; u "会議室A"]] []
           [[u "1"; u "x"; u "y"]] (mkState None [[u "h"]])).
  - intros (H & _). simpl in H. lia.
  - left. simpl. lia.
Defined.

Lemma step_header (build : pystr -> row -> option row) (st : state) (h : row) :
  Spec.section_header h ->
  step build st h = mkState (Some (strip (nth 1 h []))) (result_rows st).
Proof.
  intros H. apply header_test_spec in H. unfold step.
  assert (E : classify (current_kaigishitsu st) h
              = SectionHeader (strip (nth 1 h []))).
  { apply classify_header. auto. }
  rewrite E. reflexivity.
Qed.

(** X2: a SectionHeader row starts afresh.  The rows written for an input
    cut at a SectionHeader row are the rows written for the part before
    it, followed by the data rows written for the part from the header on
    taken alone; and the label at the end is that of the second part. *)
Theorem X2_sections_compose :
  forall (build : pystr -> row -> option row) (pre : list row) (h : row)
         (post : list row) (h0 : row),
    Spec.section_header h ->
    result_rows (loop build (pre ++ h :: post) (mkState None [h0]))
    = result_rows (loop build pre (mkState None [h0]))
      ++ tl (result_rows (loop build (h :: post) (mkState None [h0])))
    /\ current_kaigishitsu (loop build (pre ++ h :: post) (mkState None [h0]))
       = current_kaigishitsu (loop build (h :: post) (mkState None [h0])).
Proof.
  intros build pre h post h0 Hh. rewrite loop_app.
  destruct (loop build pre (mkState None [h0])) as [c out].
  rewrite !loop_cons, !(step_header build _ h Hh). cbn [result_rows].
  rewrite (loop_out build post (Some (strip (nth 1 h []))) out).
  rewrite (loop_out build post (Some (strip (nth 1 h []))) [h0]).
  cbn [result_rows current_kaigishitsu app tl]. split; reflexivity.
Qed.

Lemma X2_sections_compose_witness :
  result_rows
    (loop Step1.build
       ([[u "1"; u "会議室A"]; [u "1"; u "x"; u "y"]]
        ++ [u "2"; u "会議室B"] :: [[u "2"; u "p"; u "q"]])
       (mkState None [[u "h"]]))
  = result_rows
      (loop Step1.build [[u "1"; u "会議室A"]; [u "1"; u "x"; u "y"]]
         (mkState None [[u "h"]]))
    ++ tl (result_rows
             (loop Step1.build ([u "2"; u "会議室B"] :: [[u "2"; u "p"; u "q"]])
                (mkState None [[u "h"]])))
  /\ current_kaigishitsu
       (loop Step1.build
          ([[u "1"; u "会議室A"]; [u "1"; u "x"; u "y"]]
           ++ [u "2"; u "会議室B"] :: [[u "2"; u "p"; u "q"]])
          (mkState None [[u "h"]]))
     = current_kaigishitsu
         (loop Step1.build ([u "2"; u "会議室B"] :: [[u "2"; u "p"; u "q"]])
            (mkState None [[u "h"]])).
Proof.
  apply (X2_sections_compose Step1.build
           [[u "1"; u "会議室A"]; [u "1"; u "x"; u "y"]]
           [u "2"; u "会議室B"] [[u "2"; u "p"; u "q"]] [u "h"]).
  apply header_test_spec. vm_compute. reflexivity.
Defined.

Lemma loop_grows (build : pystr -> row -> option row) (pre post : list row)
    (st : state) :
  exists more,
    result_rows (loop build (pre ++ post) st)
    = result_rows (loop build pre st) ++ more
    /\ (length more <= length post)%nat.
Proof.
  rewrite loop_app.
  destruct (loop build pre st) as [c out].
  rewrite (loop_out build post c out). cbn [result_rows].
  exists (result_rows (loop build post (mkState c []))).
  split; [reflexivity | apply loop_adds_at_most].
Qed.

(** X3: the output only grows, by at most one row for each input row: the
    rows written after more input are the rows written so far followed by
    no more new rows than there are further input rows. *)
Theorem X3_output_grows :
  forall (build : pystr -> row -> option row) (pre post : list row)
         (st : state),
    exists more,
      result_rows (loop build (pre ++ post) st)
      = result_rows (loop build pre st) ++ more
      /\ (length more <= length post)%nat.
Proof.
  intros build pre post st. apply loop_grows.
Qed.

Lemma loop_emits (build : pystr -> row -> option row) (h0 : row)
    (hpre : list row) (h : row) (hpost : list row) (r : row) (post : list row)
    (out : row) :
  Spec.section_header h ->
  Forall (fun x => ~ Spec.section_header x) hpost ->
  Shape.data_shaped r ->
  build (strip (nth 1 h [])) r = Some out ->
  exists data,
    result_rows (loop build ((hpre ++ h :: hpost) ++ r :: post) (mkState None [h0]))
    = h0 :: data
    /\ In out data.
Proof.
  intros Hh Hp Hd Hb.
  destruct (loop_grows build ((hpre ++ h :: hpost) ++ [r]) post
              (mkState None [h0])) as (more & Hm & _).
  rewrite <- app_assoc in Hm. cbn [app] in Hm. rewrite Hm. clear Hm.
  rewrite loop_snoc.
  set (sA := loop build (hpre ++ h :: hpost) (mkState None [h0])).
  assert (Hl : current_kaigishitsu sA = Some (strip (nth 1 h []))).
  { unfold sA. rewrite loop_app, loop_cons.
    rewrite (loop_keeps_label build hpost _ Hp).
    rewrite (step_header build _ h Hh). reflexivity. }
  destruct (loop_invariant build h0 (hpre ++ h :: hpost)) as [_ (dA & HdA & _)].
  fold sA in HdA.
  assert (Ht : truthy (strip (nth 1 h [])) = true).
  { apply header_has_room. destruct Hh as (_ & Hs & _). exact Hs. }
  unfold step. rewrite Hl, (classify_data _ r Ht Hd), Hb. cbn [result_rows].
  rewrite HdA. exists ((dA ++ [out]) ++ more). split.
  - rewrite <- !app_assoc. reflexivity.
  - apply in_or_app. left. apply in_or_app. right. left. reflexivity.
Qed.

(** X4: the passthrough script drops no data row.  A row with more than 2
    fields and a field 2 that is not blank, anywhere after a SectionHeader
    row, is written with the label of the nearest SectionHeader before it,
    and the run ends with a file written. *)
Theorem X4_passthrough_keeps_every_data_row :
  forall (hd : row) (hpre : list row) (h : row) (hpost : list row) (r : row)
         (post : list row),
    Spec.section_header h ->
    Forall (fun x => ~ Spec.section_header x) hpost ->
    Shape.data_shaped r ->
    exists data,
      Step1.convert_csv (hd :: (hpre ++ h :: hpost) ++ r :: post)
      = Written (Step1.header_out hd :: data)
      /\ In (map replace_circled (strip (nth 1 h []) :: r)) data.
Proof.
  intros hd hpre h hpost r post Hh Hp Hd.
  destruct (loop_emits Step1.build (Step1.header_out hd) hpre h hpost r post
              (map replace_circled (strip (nth 1 h []) :: r)) Hh Hp Hd eq_refl)
    as (data & E & Hin).
  exists data. split; [|exact Hin].
  unfold Step1.convert_csv. cbv zeta. rewrite E.
  destruct data as [|d data]; [destruct Hin|]. reflexivity.
Qed.

Lemma X4_passthrough_keeps_every_data_row_witness :
  exists data,
    Step1.convert_csv
      ([u "h"] :: ([] ++ [u "1"; u "会議室A"] :: []) ++ [u "1"; u "x"; u "y"] :: [])
    = Written (Step1.header_out [u "h"] :: data)
    /\ In (map replace_circled
             (strip (nth 1 [u "1"; u "会議室A"] []) :: [u "1"; u "x"; u "y"]))
          data.
Proof.
  apply (X4_passthrough_keeps_every_data_row [u "h"] [] [u "1"; u "会議室A"] []
           [u "1"; u "x"; u "y"] []).
  - apply header_test_spec. vm_compute. reflexivity.
  - constructor.
  - split; [simpl; lia|]. intros B. apply strip_blank in B.
    vm_compute in B. discriminate.
Defined.

Lemma builds_reach (hd : row) (i1 i2 i3 i4 : nat) (l : pystr) (r : row) :
  (Shape.reaches r i1 i2 i3 i4
   /\ Step3.build hd 3 i1 i2 i3 i4 l r
      = Some [replace_circled (Step3.remove_facility l);
              replace_circled (nth i1 r [] ++ [K.space] ++ nth i2 r []);
              replace_circled (nth i3 r [] ++ [K.space] ++ nth i4 r []);
              K.batsu]
   /\ Step4.build i1 i2 i3 i4 l r
      = Some [Step4.clean_room_name l;
              Step4.format_for_supabase (nth i1 r [] ++ [K.space] ++ nth i2 r []);
              Step4.format_for_supabase (nth i3 r [] ++ [K.space] ++ nth i4 r []);
              K.batsu])
  \/ (~ Shape.reaches r i1 i2 i3 i4
      /\ Step3.build hd 3 i1 i2 i3 i4 l r = None
      /\ Step4.build i1 i2 i3 i4 l r = None).
Proof.
  unfold Shape.reaches.
  destruct (Nat.lt_ge_cases i1 (length r)) as [L1|G1];
    [|right; split; [lia|]; apply nth_error_None in G1;
      unfold Step3.build, Step4.build; rewrite G1; split; reflexivity].
  destruct (Nat.lt_ge_cases i2 (length r)) as [L2|G2];
    [|right; split; [lia|]; apply nth_error_None in G2;
      unfold Step3.build, Step4.build; rewrite G2;
      destruct (nth_error r i1); split; reflexivity].
  destruct (Nat.lt_ge_cases i3 (length r)) as [L3|G3];
    [|right; split; [lia|]; apply nth_error_None in G3;
      unfold Step3.build, Step4.build; rewrite G3;
      destruct (nth_error r i1), (nth_error r i2); split; reflexivity].
  destruct (Nat.lt_ge_cases i4 (length r)) as [L4|G4];
    [|right; split; [lia|]; apply nth_error_None in G4;
      unfold Step3.build, Step4.build; rewrite G4;
      destruct (nth_error r i1), (nth_error r i2), (nth_error r i3);
      split; reflexivity].
  left. split; [auto|].
  pose proof (nth_error_nth' r [] L1) as E1. pose proof (nth_error_nth' r [] L2) as E2.
  pose proof (nth_error_nth' r [] L3) as E3. pose proof (nth_error_nth' r [] L4) as E4.
  split.
  - apply Step3_build_closed; assumption.
  - apply Step4_build_closed; assumption.
Qed.

(** X5: the display and the storage script skip a data row only for being
    too short.  With the four columns at [i1 .. i4], a row with more than 2
    fields and a field 2 that is not blank, after a SectionHeader row, is
    written by both scripts when it has a field at each of the four
    indices, and is passed over with no effect when it has not. *)
Theorem X5_only_short_rows_are_skipped :
  forall (hd : row) (i1 i2 i3 i4 : nat) (hpre : list row) (h : row)
         (hpost : list row) (r : row) (post : list row),
    index K.kaishi_nichi hd = Some i1 -> index K.kaishi_jikan hd = Some i2 ->
    index K.shuryo_nichi hd = Some i3 -> index K.shuryo_jikan hd = Some i4 ->
    Spec.section_header h ->
    Forall (fun x => ~ Spec.section_header x) hpost ->
    Shape.data_shaped r ->
    (Shape.reaches r i1 i2 i3 i4 ->
     (exists data,
        Step3.convert_csv (hd :: (hpre ++ h :: hpost) ++ r :: post)
        = Written (Step3.new_csv_header :: data)
        /\ In [replace_circled (Step3.remove_facility (strip (nth 1 h [])));
               replace_circled (nth i1 r [] ++ [K.space] ++ nth i2 r []);
               replace_circled (nth i3 r [] ++ [K.space] ++ nth i4 r []);
               K.batsu] data)
     /\ (exists data,
           Step4.convert_csv (hd :: (hpre ++ h :: hpost) ++ r :: post)
           = Written (Step4.new_csv_header :: data)
           /\ In [Step4.clean_room_name (strip (nth 1 h []));
                  Step4.format_for_supabase
                    (nth i1 r [] ++ [K.space] ++ nth i2 r []);
                  Step4.format_for_supabase
                    (nth i3 r [] ++ [K.space] ++ nth i4 r []);
                  K.batsu] data))
    /\ (~ Shape.reaches r i1 i2 i3 i4 ->
        forall st,
          step (Step3.build hd 3 i1 i2 i3 i4) st r = st
          /\ step (Step4.build i1 i2 i3 i4) st r = st).
Proof.
  intros hd i1 i2 i3 i4 hpre h hpost r post E1 E2 E3 E4 Hh Hp Hd. split.
  - intros Hr.
    destruct (builds_reach hd i1 i2 i3 i4 (strip (nth 1 h [])) r)
      as [(_ & B3 & B4)|(N & _)]; [|contradiction].
    split.
    + destruct (loop_emits (Step3.build hd 3 i1 i2 i3 i4) Step3.new_csv_header
                  hpre h hpost r post _ Hh Hp Hd B3) as (data & E & Hin).
      exists data. split; [|exact Hin].
      unfold Step3.convert_csv. rewrite Step3_pfi, E1, E2, E3, E4. cbv zeta.
      rewrite E. destruct data as [|d data]; [destruct Hin | reflexivity].
    + destruct (loop_emits (Step4.build i1 i2 i3 i4) Step4.new_csv_header
                  hpre h hpost r post _ Hh Hp Hd B4) as (data & E & Hin).
      exists data. split; [|exact Hin].
      unfold Step4.convert_csv. rewrite E1, E2, E3, E4. cbv zeta.
      rewrite E. destruct data as [|d data]; [destruct Hin | reflexivity].
  - intros Hn st.
    assert (Hnh : header_test r = false).
    { destruct (header_test r) eqn:E; [|reflexivity].
      apply header_test_spec in E. destruct Hd as [L B].
      destruct E as (_ & _ & [H|H]); [lia | contradiction]. }
    unfold step. pose proof (classify_inv (current_kaigishitsu st) r) as Hc.
    destruct (classify (current_kaigishitsu st) r) as [|l|l|]; try (split; reflexivity).
    + destruct Hc as [Hc _]. congruence.
    + destruct (builds_reach hd i1 i2 i3 i4 l r) as [(R & _)|(_ & -> & ->)];
        [contradiction | split; reflexivity].
Qed.

Lemma X5_only_short_rows_are_skipped_witness :
  (Shape.reaches (nth 2 Ex.display_lines6 []) 2 3 4 5 ->
   (exists data,
      Step3.convert_csv
        (Ex.header6 :: ([] ++ nth 1 Ex.display_lines6 [] :: [])
                       ++ nth 2 Ex.display_lines6 [] :: [])
      = Written (Step3.new_csv_header :: data)
      /\ In [replace_circled
               (Step3.remove_facility
                  (strip (nth 1 (nth 1 Ex.display_lines6 []) [])));
             replace_circled
               (nth 2 (nth 2 Ex.display_lines6 []) [] ++ [K.space]
                ++ nth 3 (nth 2 Ex.display_lines6 []) []);
             replace_circled
               (nth 4 (nth 2 Ex.display_lines6 []) [] ++ [K.space]
                ++ nth 5 (nth 2 Ex.display_lines6 []) []);
             K.batsu] data)
   /\ (exists data,
         Step4.convert_csv
           (Ex.header6 :: ([] ++ nth 1 Ex.display_lines6 [] :: [])
                          ++ nth 2 Ex.display_lines6 [] :: [])
         = Written (Step4.new_csv_header :: data)
         /\ In [Step4.clean_room_name
                  (strip (nth 1 (nth 1 Ex.display_lines6 []) []));
                Step4.format_for_supabase
                  (nth 2 (nth 2 Ex.display_lines6 []) [] ++ [K.space]
                   ++ nth 3 (nth 2 Ex.display_lines6 []) []);
                Step4.format_for_supabase
                  (nth 4 (nth 2 Ex.display_lines6 []) [] ++ [K.space]
                   ++ nth 5 (nth 2 Ex.display_lines6 []) []);
                K.batsu] data))
  /\ (~ Shape.reaches (nth 2 Ex.display_lines6 []) 2 3 4 5 ->
      forall st,
        step (Step3.build Ex.header6 3 2 3 4 5) st (nth 2 Ex.display_lines6 []) = st
        /\ step (Step4.build 2 3 4 5) st (nth 2 Ex.display_lines6 []) = st).
Proof.
  apply (X5_only_short_rows_are_skipped Ex.header6 2 3 4 5 []
           (nth 1 Ex.display_lines6 []) [] (nth 2 Ex.display_lines6 []) []);
    try (vm_compute; reflexivity).
  - apply header_test_spec. vm_compute. reflexivity.
  - constructor.
  - split; [simpl; lia|]. intros B. apply strip_blank in B.
    vm_compute in B. discriminate.
Defined.

(** ** The purpose column of the display script *)

Lemma index_app_In (x : pystr) (hd extra : row) :
  In x hd -> index x (hd ++ extra) = index x hd.
Proof.
  induction hd as [|y l IH]; [intros []|].
  intros Hin. simpl. destruct (str_eqb y x) eqn:E; [reflexivity|].
  rewrite IH; [reflexivity|]. destruct Hin as [->|Hin]; [|exact Hin].
  rewrite str_eqb_refl in E. discriminate.
Qed.

Lemma Step3_build_any_header (hd1 hd2 : row) (i1 i2 i3 i4 : nat) (cur : pystr)
    (r : row) :
  Step3.build hd1 3 i1 i2 i3 i4 cur r = Step3.build hd2 3 i1 i2 i3 i4 cur r.
Proof.
  destruct (builds_reach hd1 i1 i2 i3 i4 cur r) as [(R1 & B1 & _)|(N1 & B1 & _)];
    destruct (builds_reach hd2 i1 i2 i3 i4 cur r)
      as [(R2 & B2 & _)|(N2 & B2 & _)];
    rewrite B1, B2; first [reflexivity | contradiction].
Qed.

Lemma Step3_loop_any_header (hd1 hd2 : row) (i1 i2 i3 i4 : nat)
    (rows : list row) :
  forall st,
    loop (Step3.build hd1 3 i1 i2 i3 i4) rows st
    = loop (Step3.build hd2 3 i1 i2 i3 i4) rows st.
Proof.
  induction rows as [|r rows IH]; intros st; [reflexivity|].
  assert (Hs : step (Step3.build hd1 3 i1 i2 i3 i4) st r
               = step (Step3.build hd2 3 i1 i2 i3 i4) st r).
  { unfold step.
    destruct (classify (current_kaigishitsu st) r) as [|l|l|];
      first [ reflexivity
            | rewrite (Step3_build_any_header hd1 hd2 i1 i2 i3 i4 l r);
              reflexivity ]. }
  rewrite !loop_cons, Hs. apply IH.
Qed.

Lemma Step3_same_columns (hd hd' : row) (i1 i2 i3 i4 : nat) (rows : list row) :
  index K.kaishi_nichi hd = Some i1 -> index K.kaishi_jikan hd = Some i2 ->
  index K.shuryo_nichi hd = Some i3 -> index K.shuryo_jikan hd = Some i4 ->
  index K.kaishi_nichi hd' = Some i1 -> index K.kaishi_jikan hd' = Some i2 ->
  index K.shuryo_nichi hd' = Some i3 -> index K.shuryo_jikan hd' = Some i4 ->
  Step3.convert_csv (hd' :: rows) = Step3.convert_csv (hd :: rows).
Proof.
  intros E1 E2 E3 E4 F1 F2 F3 F4. unfold Step3.convert_csv.
  rewrite Step3_pfi, E1, E2, E3, E4, F1, F2, F3, F4. cbv zeta.
  rewrite (Step3_loop_any_header hd' hd i1 i2 i3 i4 rows). reflexivity.
Qed.

(** C10: a display header without 利用目的詳細 that has the four datetime
    columns does not stop the run.  The run ends with a file written or
    with no data row found, never with an error; every row of a file
    written has four fields and every data row ends in ×.  For a row that
    has the four datetime fields the builder gives the row of the room
    name, the two datetimes and ×, and such a row, after a SectionHeader
    row, is in the file written.  The builder gives the same row whatever
    the header says about the column, and the run gives the same outcome as
    with the column in the header, at its end or anywhere else that leaves
    the four datetime columns in their places. *)
Theorem C10_purpose_column_optional :
  forall (hd : row) (rows : list row),
    ~ In K.riyou_mokuteki hd ->
    Spec.required_present hd ->
    exists i1 i2 i3 i4,
      (index K.kaishi_nichi hd = Some i1 /\ index K.kaishi_jikan hd = Some i2
       /\ index K.shuryo_nichi hd = Some i3
       /\ index K.shuryo_jikan hd = Some i4)
      /\ (Step3.convert_csv (hd :: rows) = NoDataRowsFound
          \/ exists d data,
               Step3.convert_csv (hd :: rows)
               = Written (Step3.new_csv_header :: d :: data)
               /\ Forall (fun out => length out = 4%nat
                                     /\ nth_error out 3 = Some K.batsu)
                    (d :: data))
      /\ (forall cur r,
            Shape.reaches r i1 i2 i3 i4 ->
            Step3.build hd 3 i1 i2 i3 i4 cur r
            = Some [replace_circled (Step3.remove_facility cur);
                    replace_circled (nth i1 r [] ++ [K.space] ++ nth i2 r []);
                    replace_circled (nth i3 r [] ++ [K.space] ++ nth i4 r []);
                    K.batsu])
      /\ (forall hpre h hpost r post,
            rows = (hpre ++ h :: hpost) ++ r :: post ->
            Spec.section_header h ->
            Forall (fun x => ~ Spec.section_header x) hpost ->
            Shape.data_shaped r ->
            Shape.reaches r i1 i2 i3 i4 ->
            exists data,
              Step3.convert_csv (hd :: rows)
              = Written (Step3.new_csv_header :: data)
              /\ In [replace_circled
                       (Step3.remove_facility (strip (nth 1 h [])));
                     replace_circled (nth i1 r [] ++ [K.space] ++ nth i2 r []);
                     replace_circled (nth i3 r [] ++ [K.space] ++ nth i4 r []);
                     K.batsu] data)
      /\ (forall hd' cur r,
            Step3.build hd 3 i1 i2 i3 i4 cur r
            = Step3.build hd' 3 i1 i2 i3 i4 cur r)
      /\ (forall hd',
            index K.kaishi_nichi hd' = Some i1 ->
            index K.kaishi_jikan hd' = Some i2 ->
            index K.shuryo_nichi hd' = Some i3 ->
            index K.shuryo_jikan hd' = Some i4 ->
            Step3.convert_csv (hd' :: rows) = Step3.convert_csv (hd :: rows))
      /\ Step3.convert_csv ((hd ++ [K.riyou_mokuteki]) :: rows)
         = Step3.convert_csv (hd :: rows).
Proof.
  intros hd rows Hno Hreq.
  pose proof Hreq as Hidx. apply required_indices in Hidx.
  destruct Hidx as (i1 & i2 & i3 & i4 & E1 & E2 & E3 & E4).
  exists i1, i2, i3, i4. split; [auto|].
  split; [|split; [|split; [|split; [|split]]]].
  - unfold Step3.convert_csv. rewrite Step3_pfi, E1, E2, E3, E4. cbv zeta.
    destruct (loop_invariant (Step3.build hd 3 i1 i2 i3 i4)
                Step3.new_csv_header rows) as [_ (data & Hd & Ho)].
    rewrite Hd. destruct data as [|d data]; [left; reflexivity|].
    right. exists d, data. split; [reflexivity|].
    apply Forall_forall. intros out Hin.
    destruct (Ho out Hin) as (hpre & h & hpost & r & post & _ & _ & _ & Hb).
    apply Step3_build_some in Hb.
    destruct Hb as (sd & st & ed & et & _ & _ & _ & _ & ->).
    split; reflexivity.
  - intros cur r Hr.
    destruct (builds_reach hd i1 i2 i3 i4 cur r) as [(_ & B & _)|(N & _)];
      [exact B | contradiction].
  - intros hpre h hpost r post -> Hh Hp Hd Hr.
    destruct (builds_reach hd i1 i2 i3 i4 (strip (nth 1 h [])) r)
      as [(_ & B & _)|(N & _)]; [|contradiction].
    destruct (loop_emits (Step3.build hd 3 i1 i2 i3 i4) Step3.new_csv_header
                hpre h hpost r post _ Hh Hp Hd B) as (data & E & Hin).
    exists data. split; [|exact Hin].
    unfold Step3.convert_csv. rewrite Step3_pfi, E1, E2, E3, E4. cbv zeta.
    rewrite E. destruct data as [|d data]; [destruct Hin | reflexivity].
  - intros hd' cur r. apply Step3_build_any_header.
  - intros hd' F1 F2 F3 F4.
    exact (Step3_same_columns hd hd' i1 i2 i3 i4 rows E1 E2 E3 E4 F1 F2 F3 F4).
  - destruct Hreq as (H1 & H2 & H3 & H4).
    apply (Step3_same_columns hd (hd ++ [K.riyou_mokuteki]) i1 i2 i3 i4 rows
             E1 E2 E3 E4);
      rewrite index_app_In by assumption; assumption.
Qed.

Lemma C10_purpose_column_optional_witness :
  exists i1 i2 i3 i4,
    (index K.kaishi_nichi Ex.header6 = Some i1
     /\ index K.kaishi_jikan Ex.header6 = Some i2
     /\ index K.shuryo_nichi Ex.header6 = Some i3
     /\ index K.shuryo_jikan Ex.header6 = Some i4)
    /\ (Step3.convert_csv (Ex.header6 :: tl Ex.display_lines6) = NoDataRowsFound
        \/ exists d data,
             Step3.convert_csv (Ex.header6 :: tl Ex.display_lines6)
             = Written (Step3.new_csv_header :: d :: data)
             /\ Forall (fun out => length out = 4%nat
                                   /\ nth_error out 3 = Some K.batsu)
                  (d :: data))
    /\ (forall cur r,
          Shape.reaches r i1 i2 i3 i4 ->
          Step3.build Ex.header6 3 i1 i2 i3 i4 cur r
          = Some [replace_circled (Step3.remove_facility cur);
                  replace_circled (nth i1 r [] ++ [K.space] ++ nth i2 r []);
                  replace_circled (nth i3 r [] ++ [K.space] ++ nth i4 r []);
                  K.batsu])
    /\ (forall hpre h hpost r post,
          tl Ex.display_lines6 = (hpre ++ h :: hpost) ++ r :: post ->
          Spec.section_header h ->
          Forall (fun x => ~ Spec.section_header x) hpost ->
          Shape.data_shaped r ->
          Shape.reaches r i1 i2 i3 i4 ->
          exists data,
            Step3.convert_csv (Ex.header6 :: tl Ex.display_lines6)
            = Written (Step3.new_csv_header :: data)
            /\ In [replace_circled
                     (Step3.remove_facility (strip (nth 1 h [])));
                   replace_circled (nth i1 r [] ++ [K.space] ++ nth i2 r []);
                   replace_circled (nth i3 r [] ++ [K.space] ++ nth i4 r []);
                   K.batsu] data)
    /\ (forall hd' cur r,
          Step3.build Ex.header6 3 i1 i2 i3 i4 cur r
          = Step3.build hd' 3 i1 i2 i3 i4 cur r)
    /\ (forall hd',
          index K.kaishi_nichi hd' = Some i1 ->
          index K.kaishi_jikan hd' = Some i2 ->
          index K.shuryo_nichi hd' = Some i3 ->
          index K.shuryo_jikan hd' = Some i4 ->
          Step3.convert_csv (hd' :: tl Ex.display_lines6)
          = Step3.convert_csv (Ex.header6 :: tl Ex.display_lines6))
    /\ Step3.convert_csv
         ((Ex.header6 ++ [K.riyou_mokuteki]) :: tl Ex.display_lines6)
       = Step3.convert_csv (Ex.header6 :: tl Ex.display_lines6).
Proof.
  apply (C10_purpose_column_optional Ex.header6 (tl Ex.display_lines6)).
  - apply index_None. vm_compute. reflexivity.
  - apply required_indices. exists 2%nat, 3%nat, 4%nat, 5%nat.
    vm_compute. repeat split; reflexivity.
Defined.

(** X6: every file the display or the storage script writes has the fixed
    header row first and at least one data row after it; every row has
    exactly four fields, and the fourth field of every data row is ×. *)
Theorem X6_four_columns :
  (forall lines outs,
      Step3.convert_csv lines = Written outs ->
      exists d data,
        outs = Step3.new_csv_header :: d :: data
        /\ Forall (fun o => length o = 4%nat) outs
        /\ Forall (fun o => nth_error o 3 = Some K.batsu) (d :: data))
  /\ (forall lines outs,
        Step4.convert_csv lines = Written outs ->
        exists d data,
          outs = Step4.new_csv_header :: d :: data
          /\ Forall (fun o => length o = 4%nat) outs
          /\ Forall (fun o => nth_error o 3 = Some K.batsu) (d :: data)).
Proof.
  split.
  - intros [|hd rows] outs; [discriminate|]. unfold Step3.convert_csv.
    rewrite Step3_pfi.
    destruct (index K.kaishi_nichi hd) as [i1|]; [|discriminate].
    destruct (index K.kaishi_jikan hd) as [i2|]; [|discriminate].
    destruct (index K.shuryo_nichi hd) as [i3|]; [|discriminate].
    destruct (index K.shuryo_jikan hd) as [i4|]; [|discriminate].
    destruct (loop_invariant (Step3.build hd 3 i1 i2 i3 i4)
                Step3.new_csv_header rows) as [_ (data & Hd & Ho)].
    cbv zeta. rewrite Hd. destruct data as [|d data]; [discriminate|].
    intros H; inversion H; subst. exists d, data. split; [reflexivity|].
    assert (Hall : Forall (fun o => length o = 4%nat
                                    /\ nth_error o 3 = Some K.batsu) (d :: data)).
    { apply Forall_forall. intros o Hin.
      destruct (Ho o Hin) as (hpre & h & hpost & r & post & _ & _ & _ & Hb).
      apply Step3_build_some in Hb.
      destruct Hb as (sd & st & ed & et & _ & _ & _ & _ & ->). split; reflexivity. }
    split.
    + constructor; [reflexivity|]. eapply Forall_impl; [|exact Hall].
      intros o [L _]. exact L.
    + eapply Forall_impl; [|exact Hall]. intros o [_ L]. exact L.
  - intros [|hd rows] outs; [discriminate|]. unfold Step4.convert_csv.
    destruct (index K.kaishi_nichi hd) as [i1|]; [|discriminate].
    destruct (index K.kaishi_jikan hd) as [i2|]; [|discriminate].
    destruct (index K.shuryo_nichi hd) as [i3|]; [|discriminate].
    destruct (index K.shuryo_jikan hd) as [i4|]; [|discriminate].
    destruct (loop_invariant (Step4.build i1 i2 i3 i4)
                Step4.new_csv_header rows) as [_ (data & Hd & Ho)].
    cbv zeta. rewrite Hd. destruct data as [|d data]; [discriminate|].
    intros H; inversion H; subst. exists d, data. split; [reflexivity|].
    assert (Hall : Forall (fun o => length o = 4%nat
                                    /\ nth_error o 3 = Some K.batsu) (d :: data)).
    { apply Forall_forall. intros o Hin.
      destruct (Ho o Hin) as (hpre & h & hpost & r & post & _ & _ & _ & Hb).
      apply Step4_build_some in Hb.
      destruct Hb as (sd & st & ed & et & _ & _ & _ & _ & ->). split; reflexivity. }
    split.
    + constructor; [reflexivity|]. eapply Forall_impl; [|exact Hall].
      intros o [L _]. exact L.
    + eapply Forall_impl; [|exact Hall]. intros o [_ L]. exact L.
Qed.

Lemma lockstep (hd : row) (i1 i2 i3 i4 : nat) (rows : list row) :
  forall c o3 o4,
    length o3 = length o4 ->
    current_kaigishitsu (loop (Step3.build hd 3 i1 i2 i3 i4) rows (mkState c o3))
    = current_kaigishitsu (loop (Step4.build i1 i2 i3 i4) rows (mkState c o4))
    /\ length (result_rows
                 (loop (Step3.build hd 3 i1 i2 i3 i4) rows (mkState c o3)))
       = length (result_rows
                   (loop (Step4.build i1 i2 i3 i4) rows (mkState c o4))).
Proof.
  induction rows as [|r rows IH]; intros c o3 o4 L; [split; [reflexivity | exact L]|].
  rewrite !loop_cons. unfold step. cbn [current_kaigishitsu result_rows].
  destruct (classify c r) as [|l|l|]; try (apply IH; exact L).
  destruct (builds_reach hd i1 i2 i3 i4 l r) as [(_ & -> & ->)|(_ & -> & ->)].
  - apply IH. rewrite !length_app. simpl. lia.
  - apply IH. exact L.
Qed.

(** X7: on the same input the display and the storage script end the same
    way -- both with EmptyInput, both with MissingRequiredColumn, both
    with NoDataRowsFound, or both with a file written -- and the two files
    have the same number of rows. *)
Theorem X7_display_and_storage_agree :
  forall lines,
    match Step3.convert_csv lines, Step4.convert_csv lines with
    | EmptyInput, EmptyInput => True
    | MissingRequiredColumn, MissingRequiredColumn => True
    | NoDataRowsFound, NoDataRowsFound => True
    | Written a, Written b => length a = length b
    | _, _ => False
    end.
Proof.
  intros [|hd rows]; [exact I|]. unfold Step3.convert_csv, Step4.convert_csv.
  rewrite Step3_pfi.
  destruct (index K.kaishi_nichi hd) as [i1|]; [|exact I].
  destruct (index K.kaishi_jikan hd) as [i2|]; [|exact I].
  destruct (index K.shuryo_nichi hd) as [i3|]; [|exact I].
  destruct (index K.shuryo_jikan hd) as [i4|]; [|exact I].
  cbv zeta.
  destruct (lockstep hd i1 i2 i3 i4 rows None [Step3.new_csv_header]
              [Step4.new_csv_header] eq_refl) as [_ L].
  rewrite L.
  destruct (Nat.leb _ 1); [exact I | exact L].
Qed.

(** ** More on the texts *)

Lemma table_plain (c : char) : is_circled c = false -> Spec.table c = [c].
Proof. intros H. unfold Spec.table. rewrite H. reflexivity. Qed.

Lemma flat_map_table_plain (s : pystr) :
  Spec.glyph_free s -> flat_map Spec.table s = s.
Proof.
  induction 1 as [|c s Hc _ IH]; [reflexivity|].
  cbn [flat_map]. rewrite (table_plain c Hc), IH. reflexivity.
Qed.

Lemma table_length (c : char) :
  length (Spec.table c) = if c =? 9321 then 2%nat else 1%nat.
Proof.
  unfold Spec.table. destruct (is_circled c) eqn:E.
  - destruct (c =? 9321); reflexivity.
  - destruct (Z.eqb_spec c 9321) as [->|_]; [discriminate E | reflexivity].
Qed.

(** X8: the chain of ten replacements is idempotent, leaves a text without
    circled digits as it is, and lengthens a text by one character for
    each ⑩ in it. *)
Theorem X8_circled_digits_once :
  (forall s, replace_circled (replace_circled s) = replace_circled s)
  /\ (forall s, Spec.glyph_free s -> replace_circled s = s)
  /\ (forall s,
        length (replace_circled s)
        = (length s + count_occ Z.eq_dec s 9321%Z)%nat).
Proof.
  split; [|split].
  - intros s. rewrite (replace_circled_table (replace_circled s)).
    apply flat_map_table_plain. apply replace_circled_glyph_free.
  - intros s H. rewrite replace_circled_table. apply flat_map_table_plain. exact H.
  - intros s. rewrite replace_circled_table.
    induction s as [|c s IH]; [reflexivity|].
    cbn [flat_map count_occ]. rewrite length_app, IH, table_length.
    destruct (Z.eq_dec c 9321) as [->|N].
    + rewrite Z.eqb_refl. simpl. lia.
    + apply Z.eqb_neq in N. rewrite N. simpl. lia.
Qed.

Lemma lstrip_keeps (p : char -> bool) (a : pystr) (x : char) (t : pystr) :
  p x = false -> exists a', lstrip_while p (a ++ x :: t) = a' ++ x :: t.
Proof.
  intros Hx. induction a as [|y a IH].
  - exists []. simpl. rewrite Hx. reflexivity.
  - cbn [app lstrip_while]. destruct (p y).
    + exact IH.
    + exists (y :: a). reflexivity.
Qed.

Lemma rstrip_keeps (p : char -> bool) (a : pystr) (z : char) (b : pystr) :
  p z = false -> exists b', rstrip_while p (a ++ z :: b) = a ++ z :: b'.
Proof.
  intros Hz. unfold rstrip_while.
  rewrite rev_app_distr. cbn [rev]. rewrite <- app_assoc. cbn [app].
  destruct (lstrip_keeps p (rev b) z (rev a) Hz) as (b' & ->).
  exists (rev b'). rewrite rev_app_distr. cbn [rev].
  rewrite rev_involutive, <- app_assoc. reflexivity.
Qed.

Lemma lstrip_keeps_sub (p : char -> bool) (x : char) (t s : pystr) :
  p x = false ->
  Spec.substring (x :: t) s -> Spec.substring (x :: t) (lstrip_while p s).
Proof.
  intros Hx (a & b & ->).
  destruct (lstrip_keeps p a x (t ++ b) Hx) as (a' & Ha).
  exists a', b. exact Ha.
Qed.

Lemma rstrip_keeps_sub (p : char -> bool) (m : pystr) (z : char) (s : pystr) :
  p z = false ->
  Spec.substring (m ++ [z]) s -> Spec.substring (m ++ [z]) (rstrip_while p s).
Proof.
  intros Hz (a & b & ->).
  destruct (rstrip_keeps p (a ++ m) z b Hz) as (b' & Hb).
  exists a, b'. rewrite <- !app_assoc in *. exact Hb.
Qed.

Lemma strip_keeps_room (s : pystr) :
  Spec.substring K.kaigishitsu s -> Spec.substring K.kaigishitsu (strip s).
Proof.
  intros H. unfold strip.
  apply (rstrip_keeps_sub isspace [20250; 35696] 23460 _ eq_refl).
  apply (lstrip_keeps_sub isspace 20250 [35696; 23460] _ eq_refl).
  exact H.
Qed.

Lemma replace_copies (old' new sub b : pystr) (o : char) :
  ~ In o sub ->
  replace_from (o :: old') new 0 (sub ++ b)
  = sub ++ replace_from (o :: old') new 0 b.
Proof.
  intros N. induction sub as [|c sub IH]; [reflexivity|].
  cbn [app replace_from startswith].
  destruct (Z.eqb_spec o c) as [->|_]; [exfalso; apply N; left; reflexivity|].
  cbn [andb]. rewrite IH; [reflexivity|]. intros H; apply N; right; exact H.
Qed.

Lemma replace_keeps (old' new : pystr) (o : char) (c0 : char) (sub' : pystr) :
  (forall c, In c (c0 :: sub') -> ~ In c (o :: old')) ->
  forall s skip a b,
    s = a ++ (c0 :: sub') ++ b ->
    Forall (fun c => In c (o :: old')) (firstn skip s) ->
    exists a' b',
      replace_from (o :: old') new skip s = a' ++ (c0 :: sub') ++ b'.
Proof.
  intros D. induction s as [|c r IH]; intros skip a b Hs Hf.
  - destruct a; discriminate.
  - destruct skip as [|k].
    + destruct a as [|y a1].
      * cbn [app] in Hs. rewrite Hs.
        change (c0 :: sub' ++ b) with ((c0 :: sub') ++ b).
        rewrite replace_copies.
        -- exists [], (replace_from (o :: old') new 0 b). reflexivity.
        -- intros H. exact (D o H (or_introl eq_refl)).
      * cbn [app] in Hs. inversion Hs; subst y r. cbn [replace_from].
        match goal with
        | |- context [startswith ?p ?q] => destruct (startswith p q) eqn:E
        end.
        -- apply startswith_spec in E. destruct E as (rest & E).
           cbn [app] in E. inversion E as [[Ec Er]].
           destruct (IH (length (o :: old') - 1)%nat a1 b eq_refl) as (a' & b' & ->).
           { replace (length (o :: old') - 1)%nat with (length old')
               by (simpl; lia).
             rewrite Er.
             rewrite firstn_app, Nat.sub_diag, firstn_all. cbn [firstn].
             rewrite app_nil_r. apply Forall_forall. intros x Hx. right; exact Hx. }
           exists (new ++ a'), b'. rewrite <- app_assoc. reflexivity.
        -- destruct (IH O a1 b eq_refl) as (a' & b' & ->); [constructor|].
           exists (c :: a'), b'. reflexivity.
    + cbn [firstn] in Hf. inversion Hf as [|? ? Hc Hrest]. clear Hf.
      destruct a as [|y a1].
      * cbn [app] in Hs. exfalso. inversion Hs; subst.
        exact (D c0 (or_introl eq_refl) Hc).
      * cbn [app] in Hs. inversion Hs; subst. cbn [replace_from].
        destruct (IH k a1 b eq_refl Hrest) as (a' & b' & ->).
        exists a', b'. reflexivity.
Qed.

Lemma replace_keeps_sub (o : char) (old' new : pystr) (c0 : char)
    (sub' s : pystr) :
  (forall c, In c (c0 :: sub') -> ~ In c (o :: old')) ->
  Spec.substring (c0 :: sub') s ->
  Spec.substring (c0 :: sub') (replace (o :: old') new s).
Proof.
  intros D (a & b & Hs). unfold replace.
  destruct (replace_keeps old' new o c0 sub' D s O a b Hs) as (a' & b' & E);
    [constructor|].
  exists a', b'. exact E.
Qed.

Lemma facility_texts :
  K.sendai_godo = [20185; 21488; 21512; 21516; 24193; 33294]
  /\ K.sendai_shinko
     = [65295; 20185; 21488; 22320; 26041; 25391;
        33288; 20107; 21209; 25152].
Proof. vm_compute. split; reflexivity. Qed.

Lemma remove_facility_keeps_room (s : pystr) :
  Spec.substring K.kaigishitsu s ->
  Spec.substring K.kaigishitsu (Step3.remove_facility s).
Proof.
  unfold Step3.remove_facility.
  destruct facility_texts as [-> ->]. destruct text_constants as (-> & _).
  intros H.
  apply replace_keeps_sub.
  { intros c Hc Hin. simpl in Hc, Hin.
    destruct Hc as [<-|[<-|[<-|[]]]]; intuition discriminate. }
  apply replace_keeps_sub.
  { intros c Hc Hin. simpl in Hc, Hin.
    destruct Hc as [<-|[<-|[<-|[]]]]; intuition discriminate. }
  exact H.
Qed.

Lemma replace_circled_keeps_room (s : pystr) :
  Spec.substring K.kaigishitsu s ->
  Spec.substring K.kaigishitsu (replace_circled s).
Proof.
  intros (a & b & ->). rewrite replace_circled_table, !flat_map_app.
  exists (flat_map Spec.table a), (flat_map Spec.table b). reflexivity.
Qed.

Lemma room_names (l : pystr) :
  Spec.substring K.kaigishitsu l ->
  Spec.substring K.kaigishitsu (replace_circled l)
  /\ Spec.substring K.kaigishitsu (replace_circled (Step3.remove_facility l))
  /\ Spec.substring K.kaigishitsu (Step4.clean_room_name l).
Proof.
  intros H. split; [|split].
  - apply replace_circled_keeps_room. exact H.
  - apply replace_circled_keeps_room, remove_facility_keeps_room. exact H.
  - unfold Step4.clean_room_name.
    apply replace_circled_keeps_room, strip_keeps_room.
    apply (remove_facility_keeps_room l H).
Qed.

Lemma header_label_room (h : row) :
  Spec.section_header h ->
  Spec.substring K.kaigishitsu (strip (nth 1 h [])).
Proof. intros (_ & H & _). apply strip_keeps_room. exact H. Qed.

(** X9: the room name of every data row written names a 会議室.  The
    label a SectionHeader row sets contains 会議室, and so does the first
    field of every data row in the file of each of the three scripts, after
    the removal of the facility names, the stripping and the substitution
    of circled digits. *)
Theorem X9_room_name_names_a_room :
  (forall h, Spec.section_header h ->
     Spec.substring K.kaigishitsu (strip (nth 1 h [])))
  /\ (forall lines outs, Step1.convert_csv lines = Written outs ->
        Forall (fun o => Spec.substring K.kaigishitsu (nth 0 o [])) (tl outs))
  /\ (forall lines outs, Step3.convert_csv lines = Written outs ->
        Forall (fun o => Spec.substring K.kaigishitsu (nth 0 o [])) (tl outs))
  /\ (forall lines outs, Step4.convert_csv lines = Written outs ->
        Forall (fun o => Spec.substring K.kaigishitsu (nth 0 o [])) (tl outs)).
Proof.
  split; [exact header_label_room|]. split; [|split].
  - intros [|hd rows] outs; [discriminate|]. unfold Step1.convert_csv. cbv zeta.
    destruct (loop_invariant Step1.build (Step1.header_out hd) rows)
      as [_ (data & Hd & Ho)].
    rewrite Hd. destruct (Nat.leb _ 1); [discriminate|].
    intros H; inversion H; subst. cbn [tl]. apply Forall_forall. intros o Hin.
    destruct (Ho o Hin) as (hpre & h & hpost & r & post & _ & Hh & _ & Hb).
    unfold Step1.build in Hb. inversion Hb; subst. cbn [map nth].
    apply (room_names _ (header_label_room h Hh)).
  - intros [|hd rows] outs; [discriminate|]. unfold Step3.convert_csv.
    rewrite Step3_pfi.
    destruct (index K.kaishi_nichi hd) as [i1|]; [|discriminate].
    destruct (index K.kaishi_jikan hd) as [i2|]; [|discriminate].
    destruct (index K.shuryo_nichi hd) as [i3|]; [|discriminate].
    destruct (index K.shuryo_jikan hd) as [i4|]; [|discriminate].
    destruct (loop_invariant (Step3.build hd 3 i1 i2 i3 i4)
                Step3.new_csv_header rows) as [_ (data & Hd & Ho)].
    cbv zeta. rewrite Hd. destruct (Nat.leb _ 1); [discriminate|].
    intros H; inversion H; subst. cbn [tl]. apply Forall_forall. intros o Hin.
    destruct (Ho o Hin) as (hpre & h & hpost & r & post & _ & Hh & _ & Hb).
    apply Step3_build_some in Hb.
    destruct Hb as (sd & st & ed & et & _ & _ & _ & _ & ->). cbn [nth].
    apply (room_names _ (header_label_room h Hh)).
  - intros [|hd rows] outs; [discriminate|]. unfold Step4.convert_csv.
    destruct (index K.kaishi_nichi hd) as [i1|]; [|discriminate].
    destruct (index K.kaishi_jikan hd) as [i2|]; [|discriminate].
    destruct (index K.shuryo_nichi hd) as [i3|]; [|discriminate].
    destruct (index K.shuryo_jikan hd) as [i4|]; [|discriminate].
    destruct (loop_invariant (Step4.build i1 i2 i3 i4)
                Step4.new_csv_header rows) as [_ (data & Hd & Ho)].
    cbv zeta. rewrite Hd. destruct (Nat.leb _ 1); [discriminate|].
    intros H; inversion H; subst. cbn [tl]. apply Forall_forall. intros o Hin.
    destruct (Ho o Hin) as (hpre & h & hpost & r & post & _ & Hh & _ & Hb).
    apply Step4_build_some in Hb.
    destruct Hb as (sd & st & ed & et & _ & _ & _ & _ & ->). cbn [nth].
    apply (room_names _ (header_label_room h Hh)).
Qed.

(** ** More on the datetime texts *)

Lemma strptime_date_valid (s : pystr) (d : date) :
  strptime_date s = Some d -> valid_date d = true.
Proof.
  unfold strptime_date. destruct (fullmatch re_date s) as [x|]; [|discriminate].
  destruct (valid_date x) eqn:V; [|discriminate].
  intros H; inversion H; subst. exact V.
Qed.

Lemma fix_cases (s : pystr) :
  Step4.fix_time_format s = s
  \/ exists d d',
       valid_date d = true /\ add_one_day d = Some d'
       /\ Step4.fix_time_format s = strftime_date d' ++ u " 00:00".
Proof.
  unfold Step4.fix_time_format.
  destruct (contains (u " 24:00") s); [|left; reflexivity]. cbv zeta.
  destruct (strptime_date (split_first K.space s)) as [d|] eqn:E;
    [|left; reflexivity].
  destruct (add_one_day d) as [d'|] eqn:A; [|left; reflexivity].
  right. exists d, d'. split; [exact (strptime_date_valid _ _ E)|]. auto.
Qed.

Lemma strftime_iso_no_space (dt : datetime) :
  valid_date (on dt) = true -> 0 <= hour dt <= 23 -> 0 <= minute dt <= 59 ->
  ~ In 32 (strftime_iso dt).
Proof.
  intros V Hh Hm. apply valid_date_inv in V. destruct V as (Hy & Hmo & Hd).
  pose proof (days_in_month_bounds (year (on dt)) (month (on dt))).
  intros Hin. unfold strftime_iso in Hin. rewrite !in_app_iff in Hin.
  destruct Hin as [Hin|[Hin|[Hin|[Hin|[Hin|[Hin|[Hin|[Hin|[Hin|Hin]]]]]]]]].
  - exact (year_text_not (year (on dt)) 32 ltac:(lia) ltac:(lia) Hin).
  - destruct Hin as [E|[]]; discriminate.
  - exact (pad2_not (month (on dt)) 32 ltac:(lia) ltac:(lia) Hin).
  - destruct Hin as [E|[]]; discriminate.
  - exact (pad2_not (day (on dt)) 32 ltac:(lia) ltac:(lia) Hin).
  - destruct Hin as [E|[]]; discriminate.
  - exact (pad2_not (hour dt) 32 ltac:(lia) ltac:(lia) Hin).
  - destruct Hin as [E|[]]; discriminate.
  - exact (pad2_not (minute dt) 32 ltac:(lia) ltac:(lia) Hin).
  - vm_compute in Hin. intuition discriminate.
Qed.

Lemma re_Y_pad4 (y : Z) (rest : pystr) :
  0 <= y <= 9999 -> re_Y (pad4 y ++ rest) = [(y, rest)].
Proof.
  intros H. destruct (pad4_bounds y H) as (B1 & B2 & B3 & B4 & E).
  unfold re_Y, pad4, bind, one, ret. cbn [app flat_map fst snd].
  repeat (rewrite decimal_digit by assumption; cbn [app flat_map fst snd]).
  rewrite E. reflexivity.
Qed.

(** [%Y/] does not match a year followed by a hyphen. *)
Lemma re_date_hyphen (y : Z) (rest : pystr) :
  0 <= y <= 9999 -> re_date (year_text y ++ 45 :: rest) = [].
Proof.
  intros H. assert (N : decimal 45 = None) by reflexivity.
  unfold year_text.
  destruct (Z.ltb_spec y 10);
    [|destruct (Z.ltb_spec y 100); [|destruct (Z.ltb_spec y 1000)]].
  - unfold re_date, re_Y, bind, one. cbn [app flat_map fst snd].
    rewrite decimal_digit by lia. cbn [app flat_map fst snd].
    rewrite N. reflexivity.
  - destruct (digit_bounds y ltac:(lia)) as [B1 B2].
    unfold re_date, re_Y, pad2, bind, one. cbn [app flat_map fst snd].
    repeat (rewrite decimal_digit by assumption; cbn [app flat_map fst snd]).
    rewrite N. reflexivity.
  - assert (B1 : 0 <= y / 100 <= 9) by (Z.div_mod_to_equations; lia).
    assert (B2 : 0 <= (y / 10) mod 10 <= 9) by (Z.div_mod_to_equations; lia).
    assert (B3 : 0 <= y mod 10 <= 9) by (Z.div_mod_to_equations; lia).
    unfold re_date, re_Y, bind, one. cbn [app flat_map fst snd].
    repeat (rewrite decimal_digit by assumption; cbn [app flat_map fst snd]).
    rewrite N. reflexivity.
  - unfold re_date, bind. rewrite re_Y_pad4 by lia. reflexivity.
Qed.

(** A rendered timestamp does not match ['%Y/%m/%d %H:%M']. *)
Lemma iso_does_not_parse (dt : datetime) :
  valid_date (on dt) = true ->
  strptime_datetime (strftime_iso dt) = None.
Proof.
  intros V. apply valid_date_inv in V. destruct V as (Hy & _).
  assert (E : re_date (strftime_iso dt) = []).
  { unfold strftime_iso. apply re_date_hyphen. lia. }
  unfold strptime_datetime, fullmatch, re_datetime, bind. rewrite E. reflexivity.
Qed.

(** X10: the two normalisers are idempotent: folding 24:00 a second time,
    or rendering an already rendered timestamp again, changes nothing. *)
Theorem X10_normalisers_idempotent :
  (forall s,
      Step4.fix_time_format (Step4.fix_time_format s)
      = Step4.fix_time_format s)
  /\ (forall s,
        Step4.format_for_supabase (Step4.format_for_supabase s)
        = Step4.format_for_supabase s).
Proof.
  split.
  - intros s. destruct (fix_cases s) as [E|(d & d' & V & A & E)].
    + rewrite E. exact E.
    + rewrite E. apply fix_unchanged.
      destruct (add_one_day_spec d d' V A) as [V' _].
      exact (no_2400_canonical d' 0 0 V' eq_refl).
  - intros s. unfold Step4.format_for_supabase at 2 3. cbv zeta.
    destruct (strptime_datetime (Step4.fix_time_format s)) as [dt|] eqn:E.
    + destruct (strptime_datetime_bounds _ _ E) as (V & Bh & Bm).
      unfold Step4.format_for_supabase. cbv zeta.
      assert (F : Step4.fix_time_format (strftime_iso dt) = strftime_iso dt).
      { apply fix_unchanged. change (u " 24:00") with (32 :: u "24:00").
        rewrite <- (app_nil_r (strftime_iso dt)).
        rewrite contains_skip by (apply strftime_iso_no_space; assumption).
        reflexivity. }
      rewrite F, (iso_does_not_parse dt V). reflexivity.
    + unfold Step4.format_for_supabase. cbv zeta. rewrite E. reflexivity.
Qed.

(** X11: the fold looks only at the text before the first space.  Whatever
    follows the date, if [ 24:00] stands somewhere after it the result is
    the next day at 00:00 and the rest of the text is dropped. *)
Theorem X11_fold_drops_the_rest :
  forall (d d' : date) (t : pystr),
    valid_date d = true -> 1000 <= year d -> add_one_day d = Some d' ->
    contains (u " 24:00") (K.space :: t) = true ->
    Step4.fix_time_format (strftime_date d ++ K.space :: t)
    = strftime_date d' ++ u " 00:00".
Proof.
  intros d d' t V Y A C. unfold Step4.fix_time_format.
  assert (C' : contains (u " 24:00") (strftime_date d ++ K.space :: t) = true).
  { change (u " 24:00") with (32 :: u "24:00") in *.
    rewrite contains_skip by (apply strftime_date_no_space; exact V). exact C. }
  rewrite C'. cbv zeta.
  rewrite split_first_app by (apply strftime_date_no_space; exact V).
  rewrite (strptime_date_strftime d V Y), A. reflexivity.
Qed.

Lemma X11_fold_drops_the_rest_witness :
  Step4.fix_time_format
    (strftime_date (mkDate 2024 3 31) ++ K.space :: u "10:00 24:00:30")
  = strftime_date (mkDate 2024 4 1) ++ u " 00:00".
Proof.
  apply (X11_fold_drops_the_rest (mkDate 2024 3 31) (mkDate 2024 4 1)
           (u "10:00 24:00:30")); try reflexivity.
  vm_compute. discriminate.
Defined.

(** X12: what the storage normaliser returns is either its input or the
    rendering, as [strftime] prints it, of the datetime its text parses to
    after the fold, a valid calendar date with an hour from 0 to 23 and a
    minute from 0 to 59: for the years from 1000 on the 25 characters
    [YYYY-MM-DDTHH:MM:00+09:00], for earlier years the same with the year
    not padded. *)
Theorem X12_rendered_or_unchanged :
  forall s,
    Step4.format_for_supabase s = s
    \/ (exists dt,
          strptime_datetime (Step4.fix_time_format s) = Some dt
          /\ Step4.format_for_supabase s = strftime_iso dt
          /\ valid_date (on dt) = true
          /\ 0 <= hour dt <= 23 /\ 0 <= minute dt <= 59
          /\ (1000 <= year (on dt) ->
              Step4.format_for_supabase s
              = pad4 (year (on dt)) ++ [45] ++ pad2 (month (on dt)) ++ [45]
                ++ pad2 (day (on dt)) ++ [84] ++ pad2 (hour dt) ++ [58]
                ++ pad2 (minute dt) ++ u ":00+09:00"
              /\ length (Step4.format_for_supabase s) = 25%nat)).
Proof.
  intros s. unfold Step4.format_for_supabase. cbv zeta.
  destruct (strptime_datetime (Step4.fix_time_format s)) as [dt|] eqn:E;
    [|left; reflexivity].
  right. exists dt. destruct (strptime_datetime_bounds _ _ E) as (V & Bh & Bm).
  split; [reflexivity|].
  repeat (split; [first [reflexivity | assumption | lia]|]).
  intros Y. unfold strftime_iso. rewrite (year_text_late _ Y).
  split; reflexivity.
Qed.

(** ** More on the validator *)

Lemma check_rows_from (fromisoformat : pystr -> option Validator.stamp)
    (si ei : nat) (rows : list row) :
  forall i errs,
    Forall (fun ir => Validator.check_row fromisoformat si ei (fst ir) (snd ir)
                      <> Validator.RowRaises)
      (combine (seq i (length rows)) rows) ->
    Validator.check_rows fromisoformat si ei i rows errs
    = Some (errs
            ++ flat_map
                 (fun ir =>
                    match Validator.check_row fromisoformat si ei (fst ir) (snd ir)
                    with
                    | Validator.RowViolation v => [v]
                    | _ => []
                    end) (combine (seq i (length rows)) rows)).
Proof.
  induction rows as [|r rows IH]; intros i errs H.
  - simpl. rewrite app_nil_r. reflexivity.
  - cbn [length seq combine flat_map Validator.check_rows fst snd] in *.
    inversion H as [|? ? Hr Hrest]; subst. cbn [fst snd] in Hr.
    destruct (Validator.check_row fromisoformat si ei i r) as [|v|].
    + rewrite (IH (S i) errs Hrest). reflexivity.
    + rewrite (IH (S i) (errs ++ [v]) Hrest), <- app_assoc. reflexivity.
    + contradiction.
Qed.

Lemma check_rows_raises (fromisoformat : pystr -> option Validator.stamp)
    (si ei : nat) (rows : list row) :
  forall i errs,
    Exists (fun ir => Validator.check_row fromisoformat si ei (fst ir) (snd ir)
                      = Validator.RowRaises)
      (combine (seq i (length rows)) rows) ->
    Validator.check_rows fromisoformat si ei i rows errs = None.
Proof.
  induction rows as [|r rows IH]; intros i errs H.
  - inversion H.
  - cbn [length seq combine Validator.check_rows] in *.
    inversion H as [? ? Hr|? ? Hrest]; subst.
    + cbn [fst snd] in Hr. rewrite Hr. reflexivity.
    + destruct (Validator.check_row fromisoformat si ei i r);
        [apply IH; exact Hrest | apply IH; exact Hrest | reflexivity].
Qed.

Lemma violations_length (check : nat -> row -> Validator.row_check)
    (rows : list row) :
  (length (Shape.violations check rows) <= length rows)%nat.
Proof.
  unfold Shape.violations, Shape.numbered. generalize 1%nat.
  induction rows as [|r rows IH]; intros i; [simpl; lia|].
  cbn [length seq combine flat_map fst snd]. rewrite length_app.
  specialize (IH (S i)). destruct (check i r); simpl; lia.
Qed.

Lemma validate_cases (fromisoformat : pystr -> option Validator.stamp)
    (header : row) (rows : list row) (si ei : nat) :
  index (u "start_datetime") header = Some si ->
  index (u "end_datetime") header = Some ei ->
  (Exists (fun ir => Validator.check_row fromisoformat si ei (fst ir) (snd ir)
                     = Validator.RowRaises) (Shape.numbered rows)
   -> Validator.validate_datetime_format fromisoformat (header :: rows)
      = Validator.ValidationError)
  /\ (Forall (fun ir => Validator.check_row fromisoformat si ei (fst ir) (snd ir)
                        <> Validator.RowRaises) (Shape.numbered rows)
      -> Validator.validate_datetime_format fromisoformat (header :: rows)
         = Validator.summary
             (Shape.violations (Validator.check_row fromisoformat si ei) rows)
             (length rows)).
Proof.
  intros Hs He. unfold Validator.validate_datetime_format. rewrite Hs, He.
  split; intros H.
  - rewrite (check_rows_raises fromisoformat si ei rows 1 [] H). reflexivity.
  - rewrite (check_rows_from fromisoformat si ei rows 1 [] H). reflexivity.
Qed.

(** X13: what the validator reports on a file with both datetime columns.
    When the comparison of some row raises, the validation ends in its error
    message, whatever the other rows hold.  Otherwise the rows with a
    violation are counted in the order of the rows: with none, all the rows
    of the file are reported valid; with some, the report gives their
    number, the first five of them, and the number of the others when there
    are more than five; there are never more violations than rows. *)
Theorem X13_validator_report :
  forall (fromisoformat : pystr -> option Validator.stamp) (header : row)
         (rows : list row) (si ei : nat),
    index (u "start_datetime") header = Some si ->
    index (u "end_datetime") header = Some ei ->
    (Exists (fun ir => Validator.check_row fromisoformat si ei (fst ir) (snd ir)
                       = Validator.RowRaises) (Shape.numbered rows)
     -> Validator.validate_datetime_format fromisoformat (header :: rows)
        = Validator.ValidationError)
    /\ (Forall (fun ir => Validator.check_row fromisoformat si ei (fst ir) (snd ir)
                          <> Validator.RowRaises) (Shape.numbered rows)
        -> (Shape.violations (Validator.check_row fromisoformat si ei) rows = []
            -> Validator.validate_datetime_format fromisoformat (header :: rows)
               = Validator.AllValid (length rows))
           /\ (Shape.violations (Validator.check_row fromisoformat si ei) rows
               <> []
               -> exists total shown others,
                    Validator.validate_datetime_format fromisoformat
                      (header :: rows)
                    = Validator.Warning total shown others
                    /\ total
                       = length (Shape.violations
                                   (Validator.check_row fromisoformat si ei) rows)
                    /\ shown
                       = firstn 5 (Shape.violations
                                     (Validator.check_row fromisoformat si ei)
                                     rows)
                    /\ others
                       = (if (5 <? total)%nat then Some (total - 5)%nat
                          else None)
                    /\ (1 <= total <= length rows)%nat)).
Proof.
  intros fromisoformat header rows si ei Hs He.
  destruct (validate_cases fromisoformat header rows si ei Hs He) as [HR HF].
  split; [exact HR|]. intros H. rewrite (HF H).
  pose proof (violations_length (Validator.check_row fromisoformat si ei) rows) as L.
  split.
  - intros ->. reflexivity.
  - intros N.
    destruct (Shape.violations (Validator.check_row fromisoformat si ei) rows)
      as [|v errs]; [contradiction|].
    eexists _, _, _. split; [reflexivity|]. split; [reflexivity|].
    split; [reflexivity|]. split; [reflexivity|]. simpl in *. lia.
Qed.

Lemma X13_validator_report_witness :
  (Exists (fun ir => Validator.check_row Validator.fromisoformat_core 1 2
                       (fst ir) (snd ir) = Validator.RowRaises)
     (Shape.numbered (tl (tl Ex.offset_lines)))
   -> Validator.validate_datetime_format Validator.fromisoformat_core
        (Step4.new_csv_header :: tl (tl Ex.offset_lines))
      = Validator.ValidationError)
  /\ (Forall (fun ir => Validator.check_row Validator.fromisoformat_core 1 2
                          (fst ir) (snd ir) <> Validator.RowRaises)
        (Shape.numbered (tl (tl Ex.offset_lines)))
      -> (Shape.violations (Validator.check_row Validator.fromisoformat_core 1 2)
            (tl (tl Ex.offset_lines)) = []
          -> Validator.validate_datetime_format Validator.fromisoformat_core
               (Step4.new_csv_header :: tl (tl Ex.offset_lines))
             = Validator.AllValid (length (tl (tl Ex.offset_lines))))
         /\ (Shape.violations (Validator.check_row Validator.fromisoformat_core 1 2)
               (tl (tl Ex.offset_lines)) <> []
             -> exists total shown others,
                  Validator.validate_datetime_format Validator.fromisoformat_core
                    (Step4.new_csv_header :: tl (tl Ex.offset_lines))
                  = Validator.Warning total shown others
                  /\ total
                     = length (Shape.violations
                                 (Validator.check_row
                                    Validator.fromisoformat_core 1 2)
                                 (tl (tl Ex.offset_lines)))
                  /\ shown
                     = firstn 5 (Shape.violations
                                   (Validator.check_row
                                      Validator.fromisoformat_core 1 2)
                                   (tl (tl Ex.offset_lines)))
                  /\ others
                     = (if (5 <? total)%nat then Some (total - 5)%nat
                        else None)
                  /\ (1 <= total <= length (tl (tl Ex.offset_lines)))%nat)).
Proof.
  apply (X13_validator_report Validator.fromisoformat_core Step4.new_csv_header
           (tl (tl Ex.offset_lines)) 1 2); vm_compute; reflexivity.
Defined.

(** X14: the comparison of a row raises exactly when the row has both
    fields, both values are read as timestamps, and one of the two has a UTC
    offset while the other has none. *)
Theorem X14_raises_on_mixed_offsets_only :
  forall (fromisoformat : pystr -> option Validator.stamp) (si ei i : nat)
         (r : row),
    Validator.check_row fromisoformat si ei i r = Validator.RowRaises
    <-> ((Nat.max si ei < length r)%nat
         /\ exists a b,
              fromisoformat (replace Validator.offset_text [] (nth si r []))
              = Some a
              /\ fromisoformat (replace Validator.offset_text [] (nth ei r []))
                 = Some b
              /\ Shape.mixed a b).
Proof.
  intros f si ei i r. unfold Validator.check_row, Shape.mixed.
  destruct (Nat.ltb_spec (Nat.max si ei) (length r)) as [L|G].
  - destruct (f (replace Validator.offset_text [] (nth si r []))) as [a|].
    + destruct (f (replace Validator.offset_text [] (nth ei r []))) as [b|].
      * unfold Validator.stamp_ge.
        destruct (Validator.utcoffset a) as [oa|] eqn:Ea,
                 (Validator.utcoffset b) as [ob|] eqn:Eb.
        -- split.
           ++ destruct (_ <=? _); discriminate.
           ++ intros (_ & a' & b' & Ha & Hb & M). inversion Ha; inversion Hb; subst.
              rewrite Ea, Eb in M. destruct M as [[M _]|[_ M]]; discriminate.
        -- split; [intros _|reflexivity]. split; [exact L|].
           exists a, b. rewrite Ea, Eb. split; [reflexivity|].
           split; [reflexivity|]. right. split; [discriminate | reflexivity].
        -- split; [intros _|reflexivity]. split; [exact L|].
           exists a, b. rewrite Ea, Eb. split; [reflexivity|].
           split; [reflexivity|]. left. split; [reflexivity | discriminate].
        -- split.
           ++ destruct (_ <=? _); discriminate.
           ++ intros (_ & a' & b' & Ha & Hb & M). inversion Ha; inversion Hb; subst.
              rewrite Ea, Eb in M. destruct M as [[_ M]|[M _]]; contradiction.
      * split; [discriminate|]. intros (_ & a' & b' & _ & Hb & _). discriminate.
    + split; [discriminate|]. intros (_ & a' & b' & Ha & _). discriminate.
  - split; [discriminate|]. intros (L & _). lia.
Qed.

(** X15: a row too short to hold both datetime fields is passed over and
    still counted: a file whose rows are all too short is reported valid in
    all its rows, whatever they hold. *)
Theorem X15_short_rows_count_as_valid :
  forall (fromisoformat : pystr -> option Validator.stamp) (header : row)
         (rows : list row) (si ei : nat),
    index (u "start_datetime") header = Some si ->
    index (u "end_datetime") header = Some ei ->
    Forall (fun r => (length r <= Nat.max si ei)%nat) rows ->
    Validator.validate_datetime_format fromisoformat (header :: rows)
    = Validator.AllValid (length rows).
Proof.
  intros f header rows si ei Hs He H.
  assert (Hok : forall i r, In r rows -> Validator.check_row f si ei i r
                                         = Validator.RowOk).
  { intros i r Hin. rewrite Forall_forall in H. specialize (H r Hin).
    unfold Validator.check_row.
    destruct (Nat.ltb_spec (Nat.max si ei) (length r)); [lia | reflexivity]. }
  destruct (validate_cases f header rows si ei Hs He) as [_ HF].
  rewrite HF.
  - assert (E : Shape.violations (Validator.check_row f si ei) rows = []).
    { unfold Shape.violations, Shape.numbered. generalize 1%nat.
      clear HF H. induction rows as [|r rows IH]; intros i; [reflexivity|].
      cbn [length seq combine flat_map fst snd].
      rewrite (Hok i r (or_introl eq_refl)). cbn [app].
      apply IH. intros k x Hx. apply Hok. right; exact Hx. }
    rewrite E. reflexivity.
  - apply Forall_forall. intros [i r] Hin. cbn [fst snd].
    unfold Shape.numbered in Hin. apply in_combine_r in Hin.
    rewrite (Hok i r Hin). discriminate.
Qed.

Lemma X15_short_rows_count_as_valid_witness :
  Validator.validate_datetime_format (fun _ => None)
    (Step4.new_csv_header :: [[u "会議室A"; u "2024-03-31"]; []])
  = Validator.AllValid (length [[u "会議室A"; u "2024-03-31"]; ([] : row)]).
Proof.
  apply (X15_short_rows_count_as_valid (fun _ => None) Step4.new_csv_header
           [[u "会議室A"; u "2024-03-31"]; []] 1 2).
  - vm_compute. reflexivity.
  - vm_compute. reflexivity.
  - repeat constructor.
Defined.

(** ** From the normaliser to the validator *)

Lemma ascii_digit_digit (k : Z) :
  0 <= k <= 9 -> Validator.ascii_digit (digit k) = Some k.
Proof.
  intros H. unfold Validator.ascii_digit, digit.
  destruct (Z.leb_spec 48 (48 + k)); [|lia].
  destruct (Z.leb_spec (48 + k) 57); [|lia].
  cbn [andb]. f_equal. lia.
Qed.

Lemma two_digits_pad2 (n : Z) :
  0 <= n <= 99 ->
  Validator.two_digits (digit (n / 10)) (digit (n mod 10)) = Some n.
Proof.
  intros H. destruct (digit_bounds n H) as [B1 B2]. unfold Validator.two_digits.
  rewrite !ascii_digit_digit by assumption. f_equal.
  Z.div_mod_to_equations. lia.
Qed.

Lemma iso_date_shape (y1 y2 y3 y4 m1 m2 d1 d2 : char) (rest : pystr) :
  Validator.iso_date
    (y1 :: y2 :: y3 :: y4 :: 45 :: m1 :: m2 :: 45 :: d1 :: d2 :: rest)
  = match Validator.two_digits y1 y2, Validator.two_digits y3 y4,
          Validator.two_digits m1 m2, Validator.two_digits d1 d2 with
    | Some yh, Some yl, Some m, Some d =>
        if valid_date (mkDate (100 * yh + yl) m d)
        then Some (mkDate (100 * yh + yl) m d, rest) else None
    | _, _, _, _ => None
    end.
Proof. reflexivity. Qed.

Lemma iso_time_shape (h1 h2 m1 m2 s1 s2 : char) (rest : pystr) :
  Validator.iso_time (h1 :: h2 :: 58 :: m1 :: m2 :: 58 :: s1 :: s2 :: rest)
  = match Validator.two_digits h1 h2, Validator.two_digits m1 m2 with
    | Some h, Some m =>
        if valid_time h m then
          match Validator.two_digits s1 s2, Validator.iso_offset rest with
          | Some sec, Some off =>
              if sec <=? 59 then Some (h * 3600 + m * 60 + sec, off) else None
          | _, _ => None
          end
        else None
    | _, _ => None
    end.
Proof. reflexivity. Qed.

(** The rendering without its offset. *)
Lemma offset_removed (dt : datetime) :
  valid_date (on dt) = true -> 1000 <= year (on dt) ->
  0 <= hour dt <= 23 -> 0 <= minute dt <= 59 ->
  replace Validator.offset_text [] (strftime_iso dt)
  = pad4 (year (on dt)) ++ [45] ++ pad2 (month (on dt)) ++ [45]
    ++ pad2 (day (on dt)) ++ [84] ++ pad2 (hour dt) ++ [58]
    ++ pad2 (minute dt) ++ [58; 48; 48].
Proof.
  intros V Y Hh Hm. apply valid_date_inv in V. destruct V as (Hy & Hmo & Hd).
  pose proof (days_in_month_bounds (year (on dt)) (month (on dt))).
  destruct text_constants as (_ & _ & _ & _ & ->).
  unfold strftime_iso. rewrite (year_text_late _ Y).
  change (u ":00+09:00") with ([58; 48; 48] ++ [43; 48; 57; 58; 48; 48]).
  unfold replace.
  set (body := pad4 (year (on dt)) ++ [45] ++ pad2 (month (on dt)) ++ [45]
               ++ pad2 (day (on dt)) ++ [84] ++ pad2 (hour dt) ++ [58]
               ++ pad2 (minute dt) ++ [58; 48; 48]).
  assert (E : pad4 (year (on dt)) ++ [45] ++ pad2 (month (on dt)) ++ [45]
              ++ pad2 (day (on dt)) ++ [84] ++ pad2 (hour dt) ++ [58]
              ++ pad2 (minute dt) ++ [58; 48; 48] ++ [43; 48; 57; 58; 48; 48]
              = body ++ [43; 48; 57; 58; 48; 48]).
  { unfold body. rewrite <- !app_assoc. reflexivity. }
  rewrite E, replace_copies.
  - transitivity (body ++ []); [f_equal | apply app_nil_r].
  - unfold body. rewrite !in_app_iff.
    intros [Hin|[Hin|[Hin|[Hin|[Hin|[Hin|[Hin|[Hin|[Hin|Hin]]]]]]]]].
    + exact (pad4_not (year (on dt)) 43 ltac:(lia) ltac:(lia) Hin).
    + destruct Hin as [E'|[]]; discriminate.
    + exact (pad2_not (month (on dt)) 43 ltac:(lia) ltac:(lia) Hin).
    + destruct Hin as [E'|[]]; discriminate.
    + exact (pad2_not (day (on dt)) 43 ltac:(lia) ltac:(lia) Hin).
    + destruct Hin as [E'|[]]; discriminate.
    + exact (pad2_not (hour dt) 43 ltac:(lia) ltac:(lia) Hin).
    + destruct Hin as [E'|[]]; discriminate.
    + exact (pad2_not (minute dt) 43 ltac:(lia) ltac:(lia) Hin).
    + simpl in Hin. intuition discriminate.
Qed.

(** The validator reads a rendering as the naive timestamp it renders. *)
Lemma rendering_read (dt : datetime) :
  valid_date (on dt) = true -> 1000 <= year (on dt) ->
  0 <= hour dt <= 23 -> 0 <= minute dt <= 59 ->
  Validator.fromisoformat_core
    (replace Validator.offset_text [] (strftime_iso dt))
  = Some (Validator.mkStamp
            (toordinal (on dt) * 86400 + (hour dt * 3600 + minute dt * 60 + 0))
            None).
Proof.
  intros V Y Hh Hm. rewrite (offset_removed dt V Y Hh Hm).
  pose proof (valid_date_inv _ V) as (Hy & Hmo & Hd).
  pose proof (days_in_month_bounds (year (on dt)) (month (on dt))).
  destruct (pad4_bounds (year (on dt)) ltac:(lia)) as (B1 & B2 & B3 & B4 & E).
  unfold Validator.fromisoformat_core, pad4, pad2. cbn [app].
  rewrite iso_date_shape.
  rewrite (two_digits_pad2 (month (on dt))) by lia.
  rewrite (two_digits_pad2 (day (on dt))) by lia.
  unfold Validator.two_digits at 1 2. rewrite !ascii_digit_digit by assumption.
  replace (100 * (10 * (year (on dt) / 1000) + (year (on dt) / 100) mod 10)
           + (10 * ((year (on dt) / 10) mod 10) + year (on dt) mod 10))
    with (year (on dt)) by lia.
  destruct dt as [[y m d] h mi]. cbn [on year month day hour minute] in *.
  rewrite V. rewrite iso_time_shape.
  rewrite (two_digits_pad2 h) by lia. rewrite (two_digits_pad2 mi) by lia.
  assert (T : valid_time h mi = true).
  { unfold valid_time. rewrite !andb_true_iff, !Z.leb_le. lia. }
  rewrite T. reflexivity.
Qed.

(** ** The order of the calendar *)

Lemma days_before_year_mono (p q : Z) :
  p <= q -> days_before_year p <= days_before_year q.
Proof.
  intros H. replace q with (p + Z.of_nat (Z.to_nat (q - p))) by lia.
  induction (Z.to_nat (q - p)) as [|n IH].
  - replace (p + Z.of_nat 0) with p by lia. lia.
  - replace (p + Z.of_nat (S n)) with (p + Z.of_nat n + 1) by lia.
    rewrite days_before_year_succ. destruct (is_leap _); lia.
Qed.

Lemma month_table (y : Z) :
  let l := if is_leap y then 1 else 0 in
  (days_before_month y 1 = 0 /\ days_in_month y 1 = 31)
  /\ (days_before_month y 2 = 31 /\ days_in_month y 2 = 28 + l)
  /\ (days_before_month y 3 = 59 + l /\ days_in_month y 3 = 31)
  /\ (days_before_month y 4 = 90 + l /\ days_in_month y 4 = 30)
  /\ (days_before_month y 5 = 120 + l /\ days_in_month y 5 = 31)
  /\ (days_before_month y 6 = 151 + l /\ days_in_month y 6 = 30)
  /\ (days_before_month y 7 = 181 + l /\ days_in_month y 7 = 31)
  /\ (days_before_month y 8 = 212 + l /\ days_in_month y 8 = 31)
  /\ (days_before_month y 9 = 243 + l /\ days_in_month y 9 = 30)
  /\ (days_before_month y 10 = 273 + l /\ days_in_month y 10 = 31)
  /\ (days_before_month y 11 = 304 + l /\ days_in_month y 11 = 30)
  /\ (days_before_month y 12 = 334 + l /\ days_in_month y 12 = 31).
Proof.
  unfold days_before_month, days_in_month.
  destruct (is_leap y); cbv zeta; repeat split; reflexivity.
Qed.

Ltac month_by_month y m Hm :=
  pose proof (month_table y) as T; cbv zeta in T;
  destruct T as ([? ?] & [? ?] & [? ?] & [? ?] & [? ?] & [? ?] & [? ?]
                 & [? ?] & [? ?] & [? ?] & [? ?] & [? ?]);
  destruct (month_cases m Hm) as
    [->|[->|[->|[->|[->|[->|[->|[->|[->|[->|[->| ->]]]]]]]]]]].

Lemma day_of_year_bounds (d : date) :
  valid_date d = true ->
  1 <= days_before_month (year d) (month d) + day d
    <= (if is_leap (year d) then 366 else 365).
Proof.
  intros V. apply valid_date_inv in V. destruct d as [y m dd].
  cbn [year month day] in *. destruct V as (_ & Hm & Hd).
  month_by_month y m Hm; destruct (is_leap y); lia.
Qed.

Lemma days_before_month_mono (y m1 m2 : Z) :
  1 <= m1 -> m1 < m2 -> m2 <= 12 ->
  days_before_month y m1 + days_in_month y m1 <= days_before_month y m2.
Proof.
  intros H1 H2 H3.
  assert (C1 : 1 <= m1 <= 12) by lia. assert (C2 : 1 <= m2 <= 12) by lia.
  month_by_month y m1 C1;
    destruct (month_cases m2 C2) as
      [->|[->|[->|[->|[->|[->|[->|[->|[->|[->|[->| ->]]]]]]]]]]];
    destruct (is_leap y); lia.
Qed.

Lemma toordinal_lt (a b : date) :
  valid_date a = true -> valid_date b = true ->
  Shape.lex_lt [year a; month a; day a] [year b; month b; day b] = true ->
  toordinal a < toordinal b.
Proof.
  intros Va Vb L.
  pose proof (day_of_year_bounds a Va) as Da.
  pose proof (day_of_year_bounds b Vb) as Db.
  apply valid_date_inv in Va. apply valid_date_inv in Vb.
  unfold toordinal. cbn [Shape.lex_lt] in L.
  repeat (rewrite orb_true_iff in L || rewrite andb_true_iff in L).
  rewrite !Z.ltb_lt, !Z.eqb_eq in L.
  destruct L as [L|[Ey [L|[Em [L|[_ L]]]]]]; try discriminate.
  - pose proof (days_before_year_succ (year a)) as S.
    pose proof (days_before_year_mono (year a + 1) (year b) ltac:(lia)).
    lia.
  - rewrite Ey in *.
    pose proof (days_before_month_mono (year b) (month a) (month b)
                  ltac:(lia) L ltac:(lia)).
    lia.
  - rewrite Ey, Em in *. lia.
Qed.

Lemma lex_lt_total (a b : list Z) :
  length a = length b ->
  Shape.lex_lt a b = false -> a = b \/ Shape.lex_lt b a = true.
Proof.
  revert b. induction a as [|x a IH]; intros [|y b] L H; try discriminate.
  - left. reflexivity.
  - cbn [Shape.lex_lt] in *. apply orb_false_iff in H. destruct H as [H1 H2].
    apply Z.ltb_ge in H1.
    destruct (Z.eqb_spec x y) as [->|N].
    + cbn [andb] in H2. injection L as L.
      destruct (IH b L H2) as [->|H]; [left; reflexivity|].
      right. rewrite Z.eqb_refl, H. apply orb_true_r.
    + right. assert (Hlt : (y <? x) = true) by (apply Z.ltb_lt; lia).
      rewrite Hlt. reflexivity.
Qed.

Lemma earlier_seconds (a b : datetime) :
  valid_date (on a) = true -> 0 <= hour a <= 23 -> 0 <= minute a <= 59 ->
  valid_date (on b) = true -> 0 <= hour b <= 23 -> 0 <= minute b <= 59 ->
  Shape.earlier a b = true ->
  toordinal (on a) * 86400 + (hour a * 3600 + minute a * 60 + 0)
  < toordinal (on b) * 86400 + (hour b * 3600 + minute b * 60 + 0).
Proof.
  intros Va Ha Ma Vb Hb Mb L.
  destruct a as [[ya ma da] ha mia], b as [[yb mb db] hb mib].
  cbn [on hour minute year month day] in *.
  unfold Shape.earlier in L. cbn [on hour minute year month day Shape.lex_lt] in L.
  assert (D : Shape.lex_lt [ya; ma; da] [yb; mb; db] = true
              \/ ((ya = yb /\ ma = mb /\ da = db)
                  /\ (ha < hb \/ (ha = hb /\ mia < mib)))).
  { cbn [Shape.lex_lt].
    repeat (rewrite orb_true_iff in L || rewrite andb_true_iff in L).
    repeat (rewrite orb_true_iff || rewrite andb_true_iff).
    rewrite !Z.ltb_lt, !Z.eqb_eq in *.
    destruct L as [L|[Ey [L|[Em [L|[Ed [L|[Eh [L|[_ L]]]]]]]]]];
      try discriminate; auto 10. }
  destruct D as [D|[(-> & -> & ->) D]].
  - pose proof (toordinal_lt (mkDate ya ma da) (mkDate yb mb db) Va Vb D). lia.
  - lia.
Qed.

Lemma earlier_total (a b : datetime) :
  Shape.earlier a b = false -> a = b \/ Shape.earlier b a = true.
Proof.
  intros H. unfold Shape.earlier in *.
  destruct (lex_lt_total
              [year (on a); month (on a); day (on a); hour a; minute a]
              [year (on b); month (on b); day (on b); hour b; minute b]
              eq_refl H) as [E|L]; [left | right; exact L].
  destruct a as [[ya ma da] ha mia], b as [[yb mb db] hb mib].
  cbn [on hour minute year month day] in E. inversion E; subst. reflexivity.
Qed.

Lemma rendered_row_check (a b : datetime) (room x : pystr) (i : nat) :
  valid_date (on a) = true -> 1000 <= year (on a) ->
  0 <= hour a <= 23 -> 0 <= minute a <= 59 ->
  valid_date (on b) = true -> 1000 <= year (on b) ->
  0 <= hour b <= 23 -> 0 <= minute b <= 59 ->
  Validator.check_row Validator.fromisoformat_core 1 2 i
    [room; strftime_iso a; strftime_iso b; x]
  = if Shape.earlier a b then Validator.RowOk
    else Validator.RowViolation
           (Validator.Inverted i (strftime_iso a) (strftime_iso b)).
Proof.
  intros Va Ya Ha Ma Vb Yb Hb Mb. unfold Validator.check_row.
  cbn [length Nat.max Nat.ltb Nat.leb nth].
  rewrite (rendering_read a Va Ya Ha Ma), (rendering_read b Vb Yb Hb Mb).
  unfold Validator.stamp_ge. cbn [Validator.utcoffset Validator.seconds].
  destruct (Shape.earlier a b) eqn:E.
  - pose proof (earlier_seconds a b Va Ha Ma Vb Hb Mb E) as L.
    apply Z.leb_gt in L. rewrite L. reflexivity.
  - assert (L : toordinal (on b) * 86400 + (hour b * 3600 + minute b * 60 + 0)
                <= toordinal (on a) * 86400
                   + (hour a * 3600 + minute a * 60 + 0)).
    { destruct (earlier_total a b E) as [->|E']; [lia|].
      pose proof (earlier_seconds b a Vb Hb Mb Va Ha Ma E'). lia. }
    apply Z.leb_le in L. rewrite L. reflexivity.
Qed.

(** X16: the validator judges a written row by the calendar.  When both
    datetime values of a row were rendered by the storage normaliser, from
    texts that parse to datetimes with years from 1000 on, the validator
    reads both back, its comparison does not raise, and the row passes
    exactly when the start is before the end by year, month, day, hour and
    minute; a row whose start is the end or later is reported as such. *)
Theorem X16_validator_follows_the_calendar :
  forall (s1 s2 : pystr) (a b : datetime) (room x : pystr) (i : nat),
    strptime_datetime (Step4.fix_time_format s1) = Some a ->
    1000 <= year (on a) ->
    strptime_datetime (Step4.fix_time_format s2) = Some b ->
    1000 <= year (on b) ->
    Validator.check_row Validator.fromisoformat_core 1 2 i
      [room; Step4.format_for_supabase s1; Step4.format_for_supabase s2; x]
    = if Shape.earlier a b then Validator.RowOk
      else Validator.RowViolation
             (Validator.Inverted i (Step4.format_for_supabase s1)
                (Step4.format_for_supabase s2)).
Proof.
  intros s1 s2 a b room x i Pa Ya Pb Yb.
  destruct (strptime_datetime_bounds _ _ Pa) as (Va & Ha & Ma).
  destruct (strptime_datetime_bounds _ _ Pb) as (Vb & Hb & Mb).
  unfold Step4.format_for_supabase. cbv zeta. rewrite Pa, Pb.
  apply rendered_row_check; assumption.
Qed.

Lemma X16_validator_follows_the_calendar_witness :
  Validator.check_row Validator.fromisoformat_core 1 2 7
    [u "会議室A"; Step4.format_for_supabase (u "2024/02/29 24:00");
     Step4.format_for_supabase (u "2024/3/1 0:00"); K.batsu]
  = if Shape.earlier (mkDatetime (mkDate 2024 3 1) 0 0)
         (mkDatetime (mkDate 2024 3 1) 0 0)
    then Validator.RowOk
    else Validator.RowViolation
           (Validator.Inverted 7 (Step4.format_for_supabase (u "2024/02/29 24:00"))
              (Step4.format_for_supabase (u "2024/3/1 0:00"))).
Proof.
  apply (X16_validator_follows_the_calendar (u "2024/02/29 24:00")
           (u "2024/3/1 0:00") (mkDatetime (mkDate 2024 3 1) 0 0)
           (mkDatetime (mkDate 2024 3 1) 0 0) (u "会議室A") K.batsu 7);
    vm_compute; first [reflexivity | discriminate].
Defined.

Lemma rendered_check (P : datetime -> datetime -> Prop) (o : row) (i : nat) :
  Shape.rendered P o ->
  exists a b,
    P a b
    /\ Validator.check_row Validator.fromisoformat_core 1 2 i o
       = if Shape.earlier a b then Validator.RowOk
         else Validator.RowViolation
                (Validator.Inverted i (nth 1 o []) (nth 2 o [])).
Proof.
  intros (a & b & (Va & Ta & Ya) & (Vb & Tb & Yb) & E1 & E2 & HP).
  exists a, b. split; [exact HP|].
  apply valid_time_inv in Ta. apply valid_time_inv in Tb.
  destruct Ta as [Ha Ma], Tb as [Hb Mb].
  assert (L : (2 < length o)%nat).
  { destruct (Nat.lt_ge_cases 2 (length o)) as [L|G]; [exact L|].
    rewrite (nth_overflow o [] G) in E2.
    unfold strftime_iso in E2. rewrite (year_text_late _ Yb) in E2.
    unfold pad4 in E2. cbn [app] in E2. discriminate E2. }
  pose proof (rendered_row_check a b [] [] i Va Ya Ha Ma Vb Yb Hb Mb) as R.
  unfold Validator.check_row in *.
  cbn [length Nat.max Nat.ltb Nat.leb nth] in R.
  apply Nat.ltb_lt in L. cbn [Nat.max]. rewrite L, E1, E2. exact R.
Qed.

Lemma rendered_rows (P : datetime -> datetime -> Prop) (rows : list row) :
  Forall (Shape.rendered P) rows ->
  forall i,
    Forall (fun ir => Validator.check_row Validator.fromisoformat_core 1 2
                        (fst ir) (snd ir) <> Validator.RowRaises)
      (combine (seq i (length rows)) rows)
    /\ Forall (fun v => exists k s e, v = Validator.Inverted k s e)
         (flat_map
            (fun ir =>
               match Validator.check_row Validator.fromisoformat_core 1 2
                       (fst ir) (snd ir) with
               | Validator.RowViolation v => [v]
               | _ => []
               end) (combine (seq i (length rows)) rows)).
Proof.
  induction 1 as [|o rows Ho _ IH]; intros i; [split; constructor|].
  cbn [length seq combine flat_map fst snd].
  destruct (rendered_check P o i Ho) as (a & b & _ & E).
  destruct (IH (S i)) as [I1 I2]. split.
  - constructor; [|exact I1]. cbn [fst snd]. rewrite E.
    destruct (Shape.earlier a b); discriminate.
  - rewrite E. destruct (Shape.earlier a b); cbn [app]; [exact I2|].
    constructor; [|exact I2]. eexists _, _, _. reflexivity.
Qed.

Lemma ordered_rows (rows : list row) :
  Forall (Shape.rendered (fun a b => Shape.earlier a b = true)) rows ->
  forall i,
    flat_map
      (fun ir =>
         match Validator.check_row Validator.fromisoformat_core 1 2
                 (fst ir) (snd ir) with
         | Validator.RowViolation v => [v]
         | _ => []
         end) (combine (seq i (length rows)) rows) = [].
Proof.
  induction 1 as [|o rows Ho _ IH]; intros i; [reflexivity|].
  cbn [length seq combine flat_map fst snd].
  destruct (rendered_check _ o i Ho) as (a & b & E & C).
  rewrite C, E. cbn [app]. apply IH.
Qed.

Lemma storage_header :
  index (u "start_datetime") Step4.new_csv_header = Some 1%nat
  /\ index (u "end_datetime") Step4.new_csv_header = Some 2%nat.
Proof. vm_compute. split; reflexivity. Qed.

Lemma Step4_written (lines : list row) (outs : list row) :
  Step4.convert_csv lines = Written outs ->
  outs = Step4.new_csv_header :: tl outs.
Proof.
  destruct lines as [|hd rows]; [discriminate|].
  destruct (Step4_convert_cases hd rows)
    as [[_ ->]|(i1 & i2 & i3 & i4 & data & _ & _ & _ & _ & _ & ->)];
    [discriminate|].
  destruct data; [discriminate|]. intros H; inversion H; subst. reflexivity.
Qed.

(** X17: the storage script passes its own validation when all its
    datetimes were rendered.  If both datetime fields of every data row of
    the file written are renderings of calendar datetimes with years from
    1000 on, the validation of the file does not end in its error message
    and reports no format error: every violation it shows is a start that
    is not before its end; and when every start is before its end, all the
    data rows are reported valid. *)
Theorem X17_storage_output_passes_validation :
  forall (lines outs : list row),
    Step4.convert_csv lines = Written outs ->
    Forall (Shape.rendered (fun _ _ => True)) (tl outs) ->
    exists report,
      Validator.convert_and_validate Validator.fromisoformat_core lines
      = (Written outs, Some report)
      /\ report <> Validator.ValidationError
      /\ report <> Validator.Silent
      /\ (forall total shown others,
            report = Validator.Warning total shown others ->
            Forall (fun v => exists k s e, v = Validator.Inverted k s e) shown)
      /\ (Forall (Shape.rendered (fun a b => Shape.earlier a b = true)) (tl outs)
          -> report = Validator.AllValid (length (tl outs))).
Proof.
  intros lines outs Hc Hr.
  pose proof (Step4_written lines outs Hc) as Ho.
  destruct storage_header as [Hs He].
  destruct (rendered_rows _ (tl outs) Hr 1) as [Hn Hv].
  destruct (validate_cases Validator.fromisoformat_core Step4.new_csv_header
              (tl outs) 1 2 Hs He) as [_ HF].
  specialize (HF Hn). rewrite <- Ho in HF.
  exists (Validator.validate_datetime_format Validator.fromisoformat_core outs).
  split.
  { unfold Validator.convert_and_validate. cbv zeta. rewrite Hc. reflexivity. }
  rewrite HF. unfold Shape.violations, Shape.numbered.
  set (errs := flat_map _ _) in *.
  split; [|split; [|split]].
  - destruct errs; discriminate.
  - destruct errs; discriminate.
  - intros total shown others E. destruct errs as [|v errs]; [discriminate|].
    unfold Validator.summary in E. inversion E; subst.
    apply Forall_forall. intros x Hx. rewrite Forall_forall in Hv.
    apply Hv. rewrite <- (firstn_skipn 5 (v :: errs)).
    apply in_or_app. left. exact Hx.
  - intros Hall. unfold errs. rewrite (ordered_rows (tl outs) Hall 1).
    reflexivity.
Qed.

Lemma X17_storage_output_passes_validation_witness :
  exists report,
    Validator.convert_and_validate Validator.fromisoformat_core
      Ex.display_lines6
    = (Written [Step4.new_csv_header;
                [u "第1会議室"; u "2024-03-31T09:00:00+09:00";
                 u "2024-03-31T10:00:00+09:00"; u "×"]],
       Some report)
    /\ report <> Validator.ValidationError
    /\ report <> Validator.Silent
    /\ (forall total shown others,
          report = Validator.Warning total shown others ->
          Forall (fun v => exists k s e, v = Validator.Inverted k s e) shown)
    /\ (Forall (Shape.rendered (fun a b => Shape.earlier a b = true))
          (tl [Step4.new_csv_header;
               [u "第1会議室"; u "2024-03-31T09:00:00+09:00";
                u "2024-03-31T10:00:00+09:00"; u "×"]])
        -> report
           = Validator.AllValid
               (length (tl [Step4.new_csv_header;
                            [u "第1会議室"; u "2024-03-31T09:00:00+09:00";
                             u "2024-03-31T10:00:00+09:00"; u "×"]]))).
Proof.
  apply (X17_storage_output_passes_validation Ex.display_lines6
           [Step4.new_csv_header;
            [u "第1会議室"; u "2024-03-31T09:00:00+09:00";
             u "2024-03-31T10:00:00+09:00"; u "×"]]).
  - vm_compute. reflexivity.
  - constructor; [|constructor].
    exists (mkDatetime (mkDate 2024 3 31) 9 0), (mkDatetime (mkDate 2024 3 31) 10 0).
    cbn [on year hour minute].
    repeat split; try lia; vm_compute; reflexivity.
Defined.

(** ** Texts that are not padded *)

Lemma heads_m_written (m : Z) (t rest : pystr) :
  1 <= m <= 12 -> Shape.written m t ->
  heads re_m (t ++ 47 :: rest) (m, 47 :: rest).
Proof.
  intros H [->|[H9 ->]]; [apply heads_m; exact H|].
  assert (H' : 1 <= m <= 9) by lia. clear H H9.
  rewrite <- (Z2Nat.id m) in * by lia.
  generalize dependent (Z.to_nat m). intros k H.
  enumerate k ltac:(cbv; eexists; reflexivity).
Qed.

Lemma heads_d_written (d : Z) (t rest : pystr) :
  1 <= d <= 31 -> Shape.written d t ->
  heads re_d (t ++ 32 :: rest) (d, 32 :: rest).
Proof.
  intros H [->|[H9 ->]]; [apply heads_d; exact H|].
  assert (H' : 1 <= d <= 9) by lia. clear H H9.
  rewrite <- (Z2Nat.id d) in * by lia.
  generalize dependent (Z.to_nat d). intros k H.
  enumerate k ltac:(cbv; eexists; reflexivity).
Qed.

Lemma heads_H_written (h : Z) (t rest : pystr) :
  0 <= h <= 23 -> Shape.written h t ->
  heads re_H (t ++ 58 :: rest) (h, 58 :: rest).
Proof.
  intros H [->|[H9 ->]]; [apply heads_H; exact H|].
  clear H. rewrite <- (Z2Nat.id h) in * by lia.
  generalize dependent (Z.to_nat h). intros k H.
  enumerate k ltac:(cbv; eexists; reflexivity).
Qed.

Lemma heads_M_written (m : Z) (t : pystr) :
  0 <= m <= 59 -> Shape.written m t -> heads re_M t (m, []).
Proof.
  intros H [->|[H9 ->]].
  - rewrite <- (app_nil_r (pad2 m)). apply heads_M; exact H.
  - clear H. rewrite <- (Z2Nat.id m) in * by lia.
    generalize dependent (Z.to_nat m). intros k H.
    enumerate k ltac:(cbv; eexists; reflexivity).
Qed.

Lemma written_digits (n : Z) (t : pystr) (c : char) :
  0 <= n <= 99 -> Shape.written n t -> c < 48 \/ 57 < c -> ~ In c t.
Proof.
  intros H [->|[H9 ->]] Hc; [apply pad2_not; assumption|].
  intros [E|[]]. exact (digit_not n c H9 Hc E).
Qed.

Lemma written_head (n : Z) (t : pystr) :
  0 <= n <= 99 -> Shape.written n t ->
  exists k t', 0 <= k <= 9 /\ t = digit k :: t'.
Proof.
  intros H [->|[H9 ->]].
  - destruct (digit_bounds n H) as [B _]. eexists _, _. split; [exact B|reflexivity].
  - eexists _, _. split; [exact H9|reflexivity].
Qed.

Lemma heads_space (k : Z) (rest : pystr) :
  0 <= k <= 9 ->
  heads spaces1 (32 :: digit k :: rest) (0, digit k :: rest).
Proof.
  intros H. exists []. cbn [spaces1].
  replace (isspace 32) with true by reflexivity.
  rewrite isspace_digit by exact H. reflexivity.
Qed.

Lemma strptime_datetime_written (d : date) (h mi : Z) (tm td th tmi : pystr) :
  valid_date d = true -> valid_time h mi = true ->
  Shape.written (month d) tm -> Shape.written (day d) td ->
  Shape.written h th -> Shape.written mi tmi ->
  strptime_datetime
    (pad4 (year d) ++ [47] ++ tm ++ [47] ++ td ++ [K.space] ++ th ++ [58] ++ tmi)
  = Some (mkDatetime d h mi).
Proof.
  intros V T Wm Wd Wh Wmi. apply valid_time_inv in T. destruct T as [Hh Hmi].
  pose proof (valid_date_inv d V) as (Hy & Hm & Hd).
  pose proof (days_in_month_bounds (year d) (month d)).
  unfold strptime_datetime.
  rewrite (heads_fullmatch re_datetime _ (mkDatetime d h mi)).
  - cbn [on]. rewrite V. reflexivity.
  - unfold re_datetime, re_date.
    destruct (written_head h th ltac:(lia) Wh) as (k & th' & Hk & Eh).
    subst th.
    eapply heads_bind.
    { eapply heads_bind; [apply heads_Y; lia|].
      eapply heads_bind; [apply heads_lit|].
      eapply heads_bind; [apply (heads_m_written (month d) tm); [lia|exact Wm]|].
      eapply heads_bind; [apply heads_lit|].
      eapply heads_bind; [apply (heads_d_written (day d) td); [lia|exact Wd]|].
      destruct d; apply heads_ret. }
    eapply heads_bind; [exact (heads_space k _ Hk)|].
    eapply heads_bind;
      [apply (heads_H_written h (digit k :: th')); [lia|exact Wh]|].
    eapply heads_bind; [apply heads_lit|].
    eapply heads_bind; [apply (heads_M_written mi tmi); [lia|exact Wmi]|].
    apply heads_ret.
Qed.

Lemma no_2400_written (d : date) (h mi : Z) (tm td th tmi : pystr) :
  valid_date d = true -> valid_time h mi = true ->
  Shape.written (month d) tm -> Shape.written (day d) td ->
  Shape.written h th -> Shape.written mi tmi ->
  contains (u " 24:00")
    (pad4 (year d) ++ [47] ++ tm ++ [47] ++ td ++ [K.space] ++ th ++ [58] ++ tmi)
  = false.
Proof.
  intros V T Wm Wd Wh Wmi. apply valid_time_inv in T. destruct T as [Hh Hmi].
  pose proof (valid_date_inv d V) as (Hy & Hm & Hd).
  pose proof (days_in_month_bounds (year d) (month d)).
  change (u " 24:00") with (32 :: [50; 52; 58; 48; 48]).
  assert (E : pad4 (year d) ++ [47] ++ tm ++ [47] ++ td ++ [K.space] ++ th
              ++ [58] ++ tmi
              = (pad4 (year d) ++ [47] ++ tm ++ [47] ++ td)
                ++ 32 :: th ++ 58 :: tmi).
  { rewrite <- !app_assoc. reflexivity. }
  rewrite E. clear E. rewrite contains_skip.
  2:{ rewrite !in_app_iff. intros [Hin|[Hin|[Hin|[Hin|Hin]]]].
      - exact (pad4_not (year d) 32 ltac:(lia) ltac:(lia) Hin).
      - destruct Hin as [E|[]]; discriminate.
      - exact (written_digits (month d) tm 32 ltac:(lia) Wm ltac:(lia) Hin).
      - destruct Hin as [E|[]]; discriminate.
      - exact (written_digits (day d) td 32 ltac:(lia) Wd ltac:(lia) Hin). }
  cbn [contains].
  assert (Hrest : contains (32 :: [50; 52; 58; 48; 48]) (th ++ 58 :: tmi) = false).
  { rewrite <- (app_nil_r (th ++ 58 :: tmi)).
    rewrite contains_skip; [reflexivity|].
    intros Hin. apply in_app_or in Hin. destruct Hin as [Hin|[E|Hin]].
    - exact (written_digits h th 32 ltac:(lia) Wh ltac:(lia) Hin).
    - discriminate.
    - exact (written_digits mi tmi 32 ltac:(lia) Wmi ltac:(lia) Hin). }
  apply orb_false_intro; [|exact Hrest].
  cbn [startswith]. rewrite Z.eqb_refl. cbn [andb].
  destruct Wh as [->|[H9 ->]].
  - unfold pad2. cbn [app startswith].
    destruct (Z.eqb_spec 50 (digit (h / 10))) as [E1|]; [|reflexivity].
    destruct (Z.eqb_spec 52 (digit (h mod 10))) as [E2|]; [|reflexivity].
    exfalso. unfold digit in *. Z.div_mod_to_equations. lia.
  - cbn [app startswith].
    destruct (50 =? digit h); reflexivity.
Qed.

(** X18: the storage normaliser does not ask for padded numbers.  For a
    valid calendar date with a year from 1000 on and a time of the day, the
    text with the four digits of the year and with month, day, hour and
    minute each written with two digits, or with one digit when below ten,
    is rendered as the same timestamp [YYYY-MM-DDTHH:MM:00+09:00] with two
    digits each. *)
Theorem X18_unpadded_numbers_are_read :
  forall (d : date) (h mi : Z) (tm td th tmi : pystr),
    valid_date d = true -> 1000 <= year d -> valid_time h mi = true ->
    Shape.written (month d) tm -> Shape.written (day d) td ->
    Shape.written h th -> Shape.written mi tmi ->
    Step4.format_for_supabase
      (pad4 (year d) ++ [47] ++ tm ++ [47] ++ td ++ [K.space] ++ th ++ [58]
       ++ tmi)
    = strftime_iso (mkDatetime d h mi).
Proof.
  intros d h mi tm td th tmi V _ T Wm Wd Wh Wmi.
  unfold Step4.format_for_supabase. cbv zeta.
  rewrite fix_unchanged
    by (apply (no_2400_written d h mi tm td th tmi); assumption).
  rewrite (strptime_datetime_written d h mi tm td th tmi V T Wm Wd Wh Wmi).
  reflexivity.
Qed.

Lemma X18_unpadded_numbers_are_read_witness :
  Step4.format_for_supabase
    (pad4 (year (mkDate 2024 4 1)) ++ [47] ++ u "4" ++ [47] ++ u "01"
     ++ [K.space] ++ u "9" ++ [58] ++ u "5")
  = strftime_iso (mkDatetime (mkDate 2024 4 1) 9 5).
Proof.
  apply (X18_unpadded_numbers_are_read (mkDate 2024 4 1) 9 5 (u "4") (u "01")
           (u "9") (u "5")).
  - reflexivity.
  - cbn [year]. lia.
  - reflexivity.
  - right. cbn [month]. split; [lia | reflexivity].
  - left. reflexivity.
  - right. split; [lia | reflexivity].
  - right. split; [lia | reflexivity].
Defined.

(** ** Text after the minutes *)

Lemma heads_datetime (d : date) (h m : Z) (rest : pystr) :
  valid_date d = true -> 1000 <= year d -> valid_time h m = true ->
  heads re_datetime
    ((strftime_date d ++ [K.space] ++ pad2 h ++ [58] ++ pad2 m) ++ rest)
    (mkDatetime d h m, rest).
Proof.
  intros V Y T. apply valid_time_inv in T. destruct T as [Hh Hm].
  unfold re_datetime. rewrite <- !app_assoc.
  eapply heads_bind; [apply heads_date; assumption|].
  eapply heads_bind.
  { unfold K.space, pad2 at 1. cbn [app].
    exact (heads_space (h / 10) _ (proj1 (digit_bounds h ltac:(lia)))). }
  eapply heads_bind.
  { apply (heads_H h (58 :: pad2 m ++ rest)). lia. }
  eapply heads_bind; [apply heads_lit|].
  eapply heads_bind; [apply heads_M; lia|].
  apply heads_ret.
Qed.

Lemma no_2400_before (d : date) (h m : Z) (t : pystr) :
  valid_date d = true -> valid_time h m = true ->
  contains (u " 24:00")
    ((strftime_date d ++ [K.space] ++ pad2 h ++ [58] ++ pad2 m) ++ t)
  = contains (u " 24:00") t.
Proof.
  intros V T. apply valid_time_inv in T. destruct T as [Hh Hm].
  change (u " 24:00") with (32 :: [50; 52; 58; 48; 48]).
  rewrite <- !app_assoc.
  rewrite contains_skip by (apply strftime_date_no_space; exact V).
  unfold K.space. cbn [app contains].
  assert (Hrest : contains (32 :: [50; 52; 58; 48; 48])
                    (pad2 h ++ 58 :: pad2 m ++ t)
                  = contains (32 :: [50; 52; 58; 48; 48]) t).
  { assert (E : pad2 h ++ 58 :: pad2 m ++ t = (pad2 h ++ 58 :: pad2 m) ++ t).
    { rewrite <- app_assoc. reflexivity. }
    rewrite E. apply contains_skip.
    intros Hin. apply in_app_or in Hin. destruct Hin as [Hin|[E'|Hin]].
    - exact (pad2_not h 32 ltac:(lia) ltac:(lia) Hin).
    - discriminate.
    - exact (pad2_not m 32 ltac:(lia) ltac:(lia) Hin). }
  assert (Hs : startswith [50; 52; 58; 48; 48] (pad2 h ++ 58 :: pad2 m ++ t)
               && true = false).
  { unfold pad2. cbn [app startswith].
    destruct (Z.eqb_spec 50 (digit (h / 10))) as [E1|]; [|reflexivity].
    destruct (Z.eqb_spec 52 (digit (h mod 10))) as [E2|]; [|reflexivity].
    exfalso. unfold digit in *. Z.div_mod_to_equations. lia. }
  rewrite andb_true_r in Hs.
  cbn [startswith]. rewrite Z.eqb_refl. cbn [andb].
  transitivity (false || contains (32 :: [50; 52; 58; 48; 48]) t);
    [|reflexivity].
  f_equal; [exact Hs | exact Hrest].
Qed.

(** X19: text after the minutes stops the normaliser.  When a padded date
    and time of the calendar is followed by further text -- seconds, for
    one -- that does not hold [ 24:00], the storage normaliser gives the
    whole text back unchanged. *)
Theorem X19_trailing_text_is_left_alone :
  forall (d : date) (h m : Z) (t : pystr),
    valid_date d = true -> 1000 <= year d -> valid_time h m = true ->
    t <> [] -> contains (u " 24:00") t = false ->
    Step4.format_for_supabase
      ((strftime_date d ++ [K.space] ++ pad2 h ++ [58] ++ pad2 m) ++ t)
    = (strftime_date d ++ [K.space] ++ pad2 h ++ [58] ++ pad2 m) ++ t.
Proof.
  intros d h m t V Y T Nt C.
  unfold Step4.format_for_supabase. cbv zeta.
  rewrite fix_unchanged by (rewrite no_2400_before; assumption).
  destruct (heads_datetime d h m t V Y T) as [others E].
  unfold strptime_datetime, fullmatch. rewrite E.
  destruct t; [contradiction | reflexivity].
Qed.

Lemma X19_trailing_text_is_left_alone_witness :
  Step4.format_for_supabase
    ((strftime_date (mkDate 2024 3 31) ++ [K.space] ++ pad2 9 ++ [58] ++ pad2 0)
     ++ u ":00")
  = (strftime_date (mkDate 2024 3 31) ++ [K.space] ++ pad2 9 ++ [58] ++ pad2 0)
    ++ u ":00".
Proof.
  apply (X19_trailing_text_is_left_alone (mkDate 2024 3 31) 9 0 (u ":00")).
  - reflexivity.
  - cbn [year]. lia.
  - reflexivity.
  - vm_compute. discriminate.
  - vm_compute. reflexivity.
Defined.
